(** * Ranking and cart engine of the retreat planner

    A shallow embedding of the deterministic core of the retreat planner
    backend: [services/scoring_service.py], [agents/ranking_agent.py],
    [agents/cart_agent.py] and the cart part of [crew/retreat_crew.py];
    then the other steps of the session of [crew/retreat_crew.py] with
    the validation of [agents/requirements_analyst.py],
    [agents/checkout_agent.py], the checkout and weight validators of
    [utils/validators.py], and the vendor ranking of
    [corporate-retreat-agent/agent_ranking.py].

    Conventions of the embedding.
    - Python numbers are exact rationals ([Q]); integers are [Z].  The
      binary floating point of the interpreter is idealised: [round(x, n)]
      is rounding half to even at the n-th decimal of the exact value.
      Where the exact value can lie on a rounding tie, on which side the
      noise of the floats decides, a property leaves a margin.
    - A Python [dict] is an association list in insertion order with
      unique keys ([dict_set] keeps the position of an existing key, as
      assignment to an existing key does).
    - A raised exception is [None]; at the level of the session it is
      [ValueError] or [Raised].
    - The records have the fields the agents read.  The custom weights
      hold a number or None under each key, as the dump of a request
      does; the default weights hold numbers.
    - [uuid.uuid4()], [datetime.now()] and [random.uniform] are inputs:
      every function that calls one of them takes the drawn value as an
      argument. *)

From Stdlib Require Import ZArith QArith Qround Qabs Qminmax.
From Stdlib Require Import List String Ascii Bool Arith.
From Stdlib Require Import Lia Lqa Permutation Sorted.
Import ListNotations.

Open Scope string_scope.
Open Scope Q_scope.

(** ** Numbers *)

Module PyNum.

(** [round()] of the interpreter, to an integer: half goes to even. *)
Definition round_half_even (x : Q) : Z :=
  let f := Qfloor x in
  match Qcompare (x - inject_Z f) (1 # 2) with
  | Lt => f
  | Gt => (f + 1)%Z
  | Eq => if Z.even f then f else (f + 1)%Z
  end.

Fixpoint pow10 (n : nat) : positive :=
  match n with
  | O => 1%positive
  | S k => (10 * pow10 k)%positive
  end.

(** [round(x, ndigits)]. *)
Definition py_round (x : Q) (ndigits : nat) : Q :=
  Qmake (round_half_even (x * inject_Z (Zpos (pow10 ndigits)))) (pow10 ndigits).

(** A value with at most two decimals. *)
Definition is_cents (x : Q) : Prop := exists k : Z, x == k # 100.

(** [max(a, b)] and [min(a, b)] on numbers. *)
Definition Qlt_bool (a b : Q) : bool := negb (Qle_bool b a).

(** [max(a, b)] and [min(a, b)] on numbers: the first argument wins a tie. *)
Definition py_max (a b : Q) : Q := if Qlt_bool a b then b else a.
Definition py_min (a b : Q) : Q := if Qlt_bool b a then b else a.

(** [sum(xs)] starting from 0. *)
Definition py_sum (xs : list Q) : Q := fold_left Qplus xs 0.

End PyNum.
Export PyNum.

(** ** Dictionaries in insertion order *)

Module Dict.
Section Dict.
Context {V : Type}.

Definition dict := list (string * V).

Fixpoint dict_get (d : dict) (k : string) : option V :=
  match d with
  | [] => None
  | (k', v) :: d' => if String.eqb k' k then Some v else dict_get d' k
  end.

(** [d.get(k, default)] *)
Definition dict_get_default (d : dict) (k : string) (default : V) : V :=
  match dict_get d k with Some v => v | None => default end.

(** [d[k] = v] *)
Fixpoint dict_set (d : dict) (k : string) (v : V) : dict :=
  match d with
  | [] => [(k, v)]
  | (k', v') :: d' =>
      if String.eqb k' k then (k', v) :: d' else (k', v') :: dict_set d' k v
  end.

(** [del d[k]] for a key that is present *)
Fixpoint dict_del (d : dict) (k : string) : dict :=
  match d with
  | [] => []
  | (k', v') :: d' =>
      if String.eqb k' k then d' else (k', v') :: dict_del d' k
  end.

(** [d.update(e)] *)
Definition dict_update (d e : dict) : dict :=
  fold_left (fun acc kv => dict_set acc (fst kv) (snd kv)) e d.

Definition dict_keys (d : dict) : list string := map fst d.
Definition dict_values (d : dict) : list V := map snd d.

End Dict.
Arguments dict V : clear implicits.
End Dict.
Export Dict.

(** ** services/scoring_service.py *)

Module ScoringService.

(** [normalize_weights]: the weights are integers, the result rationals. *)
Definition normalize_weights (weights : dict Z) : dict Q :=
  let total := fold_left Z.add (dict_values weights) 0%Z in
  if Z.eqb total 0 then
    map (fun kv => (fst kv, 0)) weights
  else
    map (fun kv => (fst kv, inject_Z (snd kv) / inject_Z total)) weights.

(** [price_to_score].  The division by [expected_price] raises
    ZeroDivisionError when that is zero; the first three tests cannot
    reach a division by zero with a positive price. *)
Definition price_to_score (price budget category_ratio : Q) : option Q :=
  let expected_price := budget * category_ratio in
  if Qle_bool price 0 then Some 50
  else if Qle_bool price (expected_price * 0.5) then Some 100
  else if Qle_bool price expected_price then
    if Qeq_bool expected_price 0 then None
    else Some (100 - (price / expected_price) * 30)
  else if Qle_bool price (expected_price * 1.5) then
    if Qeq_bool expected_price 0 then None
    else Some (70 - (price - expected_price) / expected_price * 40)
  else
    if Qeq_bool expected_price 0 then None
    else Some (py_max 0 (30 - (price - expected_price * 1.5) / expected_price * 30)).

End ScoringService.

(** ** Data model (models/responses.py and the dictionaries the agents pass) *)

Module Model.

(** [trust_score]: a TrustScore dictionary. *)
Record TrustScore := {
  rating : Q;
  rating_source : string
}.

(** [metadata]: an absent key is [None]. *)
Record Metadata := {
  amenities : option (list string);
  capacity : option Z;
  equipment : option (list string);
  dietary_options : option (list string)
}.

(** A discovered item.  [trust_score] is [None] when the scorer finds no
    rating to read: the key is absent, its value is not a dictionary, or
    the dictionary has no rating (all three score 60). *)
Record Item := {
  item_id : string;
  category : string;
  vendor : string;
  source : string;
  title : string;
  description : string;
  price : Q;
  currency : string;
  availability : bool;
  metadata : Metadata;
  trust_score : option TrustScore
}.

(** The requirements dictionary; an absent key is [None]. *)
Record Requirements := {
  attendees : option Z;
  budget : option Q;
  duration : option string;
  location : option string;
  origin : option string
}.

(** Custom weights: the [category_importance] entry and the entries keyed
    by a category name.  A weight is a number or [None]: the dump of a
    request holds None under every weight that was not given.  An entry
    that is absent, or holds None instead of a dictionary, is left out
    (the scorer skips both alike). *)
Record CustomWeights := {
  category_importance : option (dict (option Q));
  component_weights : dict (dict (option Q))
}.

(** One entry of a score breakdown: [{"score": .., "weight": ..}]. *)
Record BreakdownEntry := {
  bd_score : Q;
  bd_weight : Q
}.

Inductive BudgetStatus := UnderBudget | WithinBudget | OverBudget.

(** The explanation of a package.  Of the sentence [why_ranked] the model
    keeps the two parts it is built from, the budget assessment and the
    strengths; the formatting of the amounts is left out. *)
Record Explanation := {
  why_ranked_status : BudgetStatus;
  why_ranked_strengths : list string;
  category_breakdowns : dict (dict BreakdownEntry);
  budget_total_cost : Q;
  budget_budget : Q;
  budget_percentage_used : Q;
  weights_applied : dict (option Q)
}.

(** A scored package; [pkg_rank] is the key ["rank"], absent until
    [rank] numbers the sorted list. *)
Record ScoredPackage := {
  package_id : string;
  final_score : Q;
  category_scores : dict Q;
  items : dict Item;
  total_cost : Q;
  explanation : Explanation;
  pkg_rank : option nat
}.

Definition set_rank (p : ScoredPackage) (r : option nat) : ScoredPackage :=
  {| package_id := package_id p; final_score := final_score p;
     category_scores := category_scores p; items := items p;
     total_cost := total_cost p; explanation := explanation p;
     pkg_rank := r |}.

End Model.
Export Model.

(** ** Strings *)

Module PyStr.

Definition is_upper (c : ascii) : bool :=
  let n := nat_of_ascii c in (65 <=? n)%nat && (n <=? 90)%nat.
Definition is_lower (c : ascii) : bool :=
  let n := nat_of_ascii c in (97 <=? n)%nat && (n <=? 122)%nat.
Definition is_digit (c : ascii) : bool :=
  let n := nat_of_ascii c in (48 <=? n)%nat && (n <=? 57)%nat.
Definition to_upper (c : ascii) : ascii :=
  if is_lower c then ascii_of_nat (nat_of_ascii c - 32) else c.
Definition to_lower (c : ascii) : ascii :=
  if is_upper c then ascii_of_nat (nat_of_ascii c + 32) else c.

(** [s.replace(a, b)] for single characters. *)
Fixpoint replace_char (a b : ascii) (s : string) : string :=
  match s with
  | EmptyString => EmptyString
  | String c s' => String (if Ascii.eqb c a then b else c) (replace_char a b s')
  end.

(** [s.title()] on ASCII text: a letter that follows a letter is lowered,
    any other letter is raised. *)
Fixpoint title_from (after_letter : bool) (s : string) : string :=
  match s with
  | EmptyString => EmptyString
  | String c s' =>
      if is_upper c || is_lower c then
        String (if after_letter then to_lower c else to_upper c) (title_from true s')
      else String c (title_from false s')
  end.
Definition py_title (s : string) : string := title_from false s.

(** [s[:n]] *)
Definition prefix_of (n : nat) (s : string) : string := substring 0 n s.

End PyStr.
Export PyStr.

(** ** The built-in stable sort *)

Module PySort.
Section PySort.
Context {A : Type} (key : A -> Q).

(** [l.sort(key=key, reverse=True)] and [sorted(l, key=key, reverse=True)]:
    a stable sort into descending key order.  The result of a stable
    sort is determined by its input, so the algorithm chosen here
    (insertion from the right) computes the same list as the
    interpreter's. *)
Fixpoint insert_desc (x : A) (l : list A) : list A :=
  match l with
  | [] => [x]
  | y :: l' =>
      if Qle_bool (key y) (key x) then x :: l else y :: insert_desc x l'
  end.

Definition sort_desc (l : list A) : list A := fold_right insert_desc [] l.

End PySort.

(** [enumerate(l, start)] *)
Fixpoint enumerate {A : Type} (start : nat) (l : list A) : list (nat * A) :=
  match l with
  | [] => []
  | x :: l' => (start, x) :: enumerate (S start) l'
  end.

(** [itertools.product] of the lists [ls]: the rightmost list varies fastest. *)
Fixpoint product {A : Type} (ls : list (list A)) : list (list A) :=
  match ls with
  | [] => [[]]
  | l :: rest => flat_map (fun x => map (cons x) (product rest)) l
  end.

End PySort.
Export PySort.

(** ** agents/ranking_agent.py *)

Module RankingAgent.

Definition categories : list string :=
  ["flights"; "hotels"; "meeting_rooms"; "catering"].

Definition default_category_weights : dict (dict Q) :=
  [ ("flights",
      [("price_weight", 50); ("timing_weight", 25);
       ("trust_weight", 15); ("comfort_weight", 10)]);
    ("hotels",
      [("price_weight", 20); ("trust_weight", 40);
       ("location_weight", 25); ("amenities_weight", 15)]);
    ("meeting_rooms",
      [("price_weight", 25); ("capacity_weight", 35);
       ("equipment_weight", 25); ("trust_weight", 15)]);
    ("catering",
      [("price_weight", 30); ("trust_weight", 30);
       ("dietary_weight", 25); ("service_weight", 15)]) ].

Definition default_category_importance : dict Q :=
  [("flights", 30); ("hotels", 40); ("meeting_rooms", 15); ("catering", 15)].

(** [_create_placeholder_item] *)
Definition create_placeholder_item (category : string) (requirements : Requirements) : Item :=
  {| item_id := category ++ "_placeholder";
     category := category;
     vendor := "To Be Determined";
     source := "";
     title := py_title (replace_char "_" " " category) ++ " - TBD";
     description := "Placeholder for " ++ category;
     price := 0;
     currency := "USD";
     availability := false;
     metadata := {| amenities := None; capacity := None;
                    equipment := None; dietary_options := None |};
     trust_score := Some {| rating := 0; rating_source := "N/A" |} |}.

(** [_group_by_category] *)
Definition group_by_category (items : list Item) : dict (list Item) :=
  fold_left
    (fun grouped item =>
       let category := Model.category item in
       let grouped :=
         match dict_get grouped category with
         | None => dict_set grouped category []
         | Some _ => grouped
         end in
       dict_set grouped category (dict_get_default grouped category [] ++ [item])%list)
    items [].

Definition is_empty {A : Type} (l : list A) : bool :=
  match l with [] => true | _ => false end.

(** The loop of [rank] that gives every canonical category an item. *)
Definition fill_missing (grouped : dict (list Item)) (requirements : Requirements)
  : dict (list Item) :=
  fold_left
    (fun grouped category =>
       match dict_get grouped category with
       | Some (_ :: _) => grouped
       | _ => dict_set grouped category [create_placeholder_item category requirements]
       end)
    categories grouped.

(** [_generate_packages] *)
Definition generate_packages (grouped : dict (list Item)) : list (dict Item) :=
  let items_by_category := map (fun cat => dict_get_default grouped cat []) categories in
  let valid :=
    filter (fun ci => negb (is_empty (snd ci))) (combine categories items_by_category) in
  let valid_categories := map fst valid in
  let valid_items := map snd valid in
  if is_empty valid_items then []
  else firstn 50 (map (fun combo => combine valid_categories combo) (product valid_items)).

(** [_calculate_price_score] *)
Definition calculate_price_score (price budget : Q) : Q :=
  if Qle_bool budget 0 then 50
  else
    let price_ratio := price / budget in
    if Qlt_bool 0.5 price_ratio then py_max 0 (100 - price_ratio * 150)
    else if Qlt_bool 0.3 price_ratio then 100 - price_ratio * 100
    else 100 - price_ratio * 50.

Definition len {A : Type} (l : option (list A)) : Q :=
  inject_Z (Z.of_nat (List.length (match l with Some x => x | None => [] end))).

(** A dictionary of numbers as a dictionary of weights. *)
Definition held (d : dict Q) : dict (option Q) :=
  map (fun entry => (fst entry, Some (snd entry))) d.

(** The weights [_score_item] works with: the defaults of the category,
    updated with the custom weights of the category when there are any. *)
Definition weights_for (category : string) (custom_weights : option CustomWeights)
  : dict (option Q) :=
  let default_weights := held (dict_get_default default_category_weights category []) in
  match custom_weights with
  | Some cw =>
      match dict_get (component_weights cw) category with
      | Some w => dict_update default_weights w
      | None => default_weights
      end
  | None => default_weights
  end.

(** The importance [_score_package] works with. *)
Definition importance_for (custom_weights : option CustomWeights) : dict (option Q) :=
  match custom_weights with
  | Some cw =>
      match category_importance cw with
      | Some ci => dict_update (held default_category_importance) ci
      | None => held default_category_importance
      end
  | None => held default_category_importance
  end.

(** Arithmetic on what was read: the values as numbers, or [None] for the
    TypeError that the first None among them raises. *)
Fixpoint all_numbers (values : list (option Q)) : option (list Q) :=
  match values with
  | [] => Some []
  | Some v :: values' =>
      match all_numbers values' with
      | Some vs => Some (v :: vs)
      | None => None
      end
  | None :: _ => None
  end.

(** The components of a score with their weights as numbers. *)
Fixpoint numbers (components : list (string * Q * option Q))
  : option (list (string * Q * Q)) :=
  match components with
  | [] => Some []
  | (name, score, Some weight) :: components' =>
      match numbers components' with
      | Some cs => Some ((name, score, weight) :: cs)
      | None => None
      end
  | (_, _, None) :: _ => None
  end.

(** The weighted sum at the end of [_score_item]: the loop over the
    components, the division by the applied weight, the rounding. *)
Definition weigh (components : list (string * Q * Q)) : Q * dict BreakdownEntry :=
  let '(final_score, total_weight, breakdown) :=
    fold_left
      (fun acc c =>
         let '(final_score, total_weight, breakdown) := acc in
         let '(name, score, weight) := c in
         (final_score + score * weight,
          total_weight + weight,
          dict_set breakdown name {| bd_score := py_round score 1; bd_weight := weight |}))
      components (0, 0, []) in
  let final_score :=
    if Qlt_bool 0 total_weight then final_score / total_weight else final_score in
  (py_round final_score 2, breakdown).

(** The loop of [_score_item] over the components: [score * weight]
    raises TypeError at a weight that is None. *)
Definition weigh_read (components : list (string * Q * option Q))
  : option (Q * dict BreakdownEntry) :=
  match numbers components with
  | Some cs => Some (weigh cs)
  | None => None
  end.

(** [_score_item].  [None] is the exception raised: the ZeroDivisionError
    of the capacity ratio, or the TypeError of a weight that is None. *)
Definition score_item (item : Item) (category : string) (requirements : Requirements)
    (custom_weights : option CustomWeights) : option (Q * dict BreakdownEntry) :=
  let weights := weights_for category custom_weights in
  let price_score :=
    calculate_price_score (price item)
      (match budget requirements with Some b => b | None => 100000 end) in
  let trust :=
    match trust_score item with
    | Some ts => rating ts * 20
    | None => 60
    end in
  let w key default := dict_get_default weights key (Some default) in
  if String.eqb category "flights" then
    let timing_score := 75 in
    let comfort_score := 70 in
    weigh_read [ ("price", price_score, w "price_weight" 50);
                 ("timing", timing_score, w "timing_weight" 25);
                 ("trust", trust, w "trust_weight" 15);
                 ("comfort", comfort_score, w "comfort_weight" 10) ]
  else if String.eqb category "hotels" then
    let location_score := 85 in
    let amenities_score := py_min 100 (len (amenities (metadata item)) * 12) in
    weigh_read [ ("price", price_score, w "price_weight" 20);
                 ("trust", trust, w "trust_weight" 40);
                 ("location", location_score, w "location_weight" 25);
                 ("amenities", amenities_score, w "amenities_weight" 15) ]
  else if String.eqb category "meeting_rooms" then
    let capacity := match capacity (metadata item) with Some c => c | None => 50%Z end in
    let required_capacity :=
      match attendees requirements with Some a => a | None => 50%Z end in
    match
      (if Z.leb required_capacity capacity then Some 100
       else if Z.eqb required_capacity 0 then None
       else Some ((inject_Z capacity / inject_Z required_capacity) * 100))
    with
    | None => None
    | Some capacity_score =>
        let equipment_score := py_min 100 (len (equipment (metadata item)) * 25) in
        weigh_read [ ("price", price_score, w "price_weight" 25);
                     ("capacity", capacity_score, w "capacity_weight" 35);
                     ("equipment", equipment_score, w "equipment_weight" 25);
                     ("trust", trust, w "trust_weight" 15) ]
    end
  else if String.eqb category "catering" then
    let dietary_score := py_min 100 (len (dietary_options (metadata item)) * 20) in
    let service_score := 80 in
    weigh_read [ ("price", price_score, w "price_weight" 30);
                 ("trust", trust, w "trust_weight" 30);
                 ("dietary", dietary_score, w "dietary_weight" 25);
                 ("service", service_score, w "service_weight" 15) ]
  else
    Some (weigh [ ("price", price_score, 50); ("trust", trust, 50) ]).

(** [_generate_explanation] *)
Definition generate_explanation (category_scores : dict Q)
    (breakdowns : dict (dict BreakdownEntry)) (requirements : Requirements)
    (total_cost : Q) (importance : dict (option Q)) : Explanation :=
  let budget := match budget requirements with Some b => b | None => 100000 end in
  let budget_pct := if Qlt_bool 0 budget then total_cost / budget * 100 else 0 in
  let sorted_cats := sort_desc snd category_scores in
  let strengths :=
    map fst (filter (fun cs => Qle_bool 70 (snd cs)) sorted_cats) in
  let status :=
    if Qle_bool budget_pct 80 then UnderBudget
    else if Qle_bool budget_pct 100 then WithinBudget
    else OverBudget in
  {| why_ranked_status := status;
     why_ranked_strengths := strengths;
     category_breakdowns := breakdowns;
     budget_total_cost := total_cost;
     budget_budget := budget;
     budget_percentage_used := py_round budget_pct 1;
     weights_applied := importance |}.

(** The first loop of [_score_package]: every item of the package scored
    in its category. *)
Fixpoint score_categories (package : dict Item) (requirements : Requirements)
    (custom_weights : option CustomWeights)
    (category_scores : dict Q) (category_breakdowns : dict (dict BreakdownEntry))
  : option (dict Q * dict (dict BreakdownEntry)) :=
  match package with
  | [] => Some (category_scores, category_breakdowns)
  | (category, item) :: package' =>
      match score_item item category requirements custom_weights with
      | None => None
      | Some (score, breakdown) =>
          score_categories package' requirements custom_weights
            (dict_set category_scores category score)
            (dict_set category_breakdowns category breakdown)
      end
  end.

(** [_score_package]; [uuid] is the value of [uuid.uuid4()] as text.  The
    sum of the importance and the weighted sum raise TypeError at an
    importance that is None. *)
Definition score_package (uuid : string) (package : dict Item)
    (requirements : Requirements) (custom_weights : option CustomWeights)
  : option ScoredPackage :=
  match score_categories package requirements custom_weights [] [] with
  | None => None
  | Some (category_scores, category_breakdowns) =>
      let importance := importance_for custom_weights in
      match
        all_numbers (map (fun cat => dict_get_default importance cat (Some 0))
                         (dict_keys category_scores))
      with
      | None => None
      | Some read =>
          let total_importance := py_sum read in
          let total_importance :=
            if Qeq_bool total_importance 0 then 100 else total_importance in
          match
            all_numbers
              (map (fun cat =>
                      match dict_get_default importance cat (Some 25) with
                      | Some weight =>
                          Some (dict_get_default category_scores cat 0
                                * (weight / total_importance))
                      | None => None
                      end)
                   (dict_keys category_scores))
          with
          | None => None
          | Some terms =>
              let final_score := py_sum terms in
              let total_cost := py_sum (map price (dict_values package)) in
              Some {| package_id := "pkg_" ++ prefix_of 8 uuid;
                      final_score := py_round final_score 2;
                      category_scores :=
                        map (fun cs => (fst cs, py_round (snd cs) 2)) category_scores;
                      items := package;
                      total_cost := py_round total_cost 2;
                      explanation :=
                        generate_explanation category_scores category_breakdowns
                          requirements total_cost importance;
                      pkg_rank := None |}
          end
      end
  end.

(** The scoring loop of [rank]; [uuids i] is the identifier drawn for the
    package at position [i]. *)
Fixpoint score_packages (uuids : nat -> string) (i : nat) (packages : list (dict Item))
    (requirements : Requirements) (custom_weights : option CustomWeights)
  : option (list ScoredPackage) :=
  match packages with
  | [] => Some []
  | pkg :: packages' =>
      match score_package (uuids i) pkg requirements custom_weights with
      | None => None
      | Some score_data =>
          match score_packages uuids (S i) packages' requirements custom_weights with
          | None => None
          | Some scored => Some (score_data :: scored)
          end
      end
  end.

(** The packages [rank] generates, before scoring. *)
Definition rank_packages (items : list Item) (requirements : Requirements)
  : list (dict Item) :=
  generate_packages (fill_missing (group_by_category items) requirements).

(** The scored packages of [rank] in generation order, before the sort. *)
Definition rank_scored (uuids : nat -> string) (items : list Item)
    (requirements : Requirements) (custom_weights : option CustomWeights)
  : option (list ScoredPackage) :=
  score_packages uuids 0 (rank_packages items requirements) requirements custom_weights.

(** [rank] *)
Definition rank (uuids : nat -> string) (items : list Item)
    (requirements : Requirements) (custom_weights : option CustomWeights)
  : option (list ScoredPackage) :=
  match rank_scored uuids items requirements custom_weights with
  | None => None
  | Some scored_packages =>
      let scored_packages := sort_desc final_score scored_packages in
      Some (map (fun rp => set_rank (snd rp) (Some (fst rp)))
                (enumerate 1 scored_packages))
  end.

End RankingAgent.

(** ** agents/cart_agent.py *)

Module CartAgent.

(** A cart line. *)
Record CartItem := {
  line_item : Item;
  quantity : Z;
  unit_price : Q;
  line_subtotal : Q
}.

(** [_summarize_requirements] result. *)
Record RequirementsSummary := {
  summary_attendees : Z;
  summary_duration : string;
  summary_location : string;
  summary_origin : string;
  summary_event_type : string
}.

(** The cart dictionary; the last three keys are absent ([None]) until a
    modification adds them. *)
Record Cart := {
  cart_id : string;
  cart_items : dict CartItem;
  subtotal : Q;
  taxes : Q;
  fees : Q;
  total : Q;
  savings : option Q;
  created_at : string;
  requirements_summary : RequirementsSummary;
  modified_at : option string;
  optimization_applied : option string;
  optimization_note : option string
}.

(** A modification request; an absent key is [None], an absent action
    the empty string. *)
Record Modification := {
  action : string;
  mod_item_id : option string;
  new_item : option Item;
  optimization_goal : option string;
  weights : option CustomWeights
}.

Definition tax_rate : Q := 0.0875.
Definition service_fee_rate : Q := 0.025.

(** The characters [re.search(r'(\d+)', s)] captures: the first maximal
    run of digits of [s], if there is a digit. *)
Fixpoint take_digits (s : string) : string :=
  match s with
  | EmptyString => EmptyString
  | String c s' => if is_digit c then String c (take_digits s') else EmptyString
  end.

Fixpoint search_digits (s : string) : option string :=
  match s with
  | EmptyString => None
  | String c s' =>
      if is_digit c then Some (String c (take_digits s')) else search_digits s'
  end.

(** [int(text)] of a run of digits. *)
Fixpoint int_of_digits (acc : Z) (s : string) : Z :=
  match s with
  | EmptyString => acc
  | String c s' => int_of_digits (acc * 10 + (Z.of_nat (nat_of_ascii c) - 48))%Z s'
  end.

Definition num_days_of (requirements : Requirements) : Z :=
  let duration := match duration requirements with Some d => d | None => "2 days" end in
  match search_digits duration with
  | Some digits => int_of_digits 0 digits
  | None => 2%Z
  end.

(** [_calculate_quantity] *)
Definition calculate_quantity (category : string) (item : Item)
    (requirements : Requirements) : Z :=
  let attendees := match attendees requirements with Some a => a | None => 50%Z end in
  let num_days := num_days_of requirements in
  if String.eqb category "flights" then attendees
  else if String.eqb category "hotels" then
    let rooms := (attendees / 2 + attendees mod 2)%Z in
    (rooms * num_days)%Z
  else if String.eqb category "meeting_rooms" then num_days
  else if String.eqb category "catering" then (attendees * num_days)%Z
  else 1%Z.

(** [_calculate_savings]; [savings_pct] is the value drawn by
    [random.uniform(0.10, 0.15)]. *)
Definition calculate_savings (savings_pct : Q) (package : ScoredPackage)
    (requirements : Requirements) : option Q :=
  let total_cost := total_cost package in
  if Qlt_bool 0 total_cost then Some (py_round (total_cost * savings_pct) 2)
  else None.

(** [_summarize_requirements] *)
Definition summarize_requirements (requirements : Requirements) : RequirementsSummary :=
  {| summary_attendees := match attendees requirements with Some a => a | None => 50%Z end;
     summary_duration := match duration requirements with Some d => d | None => "2 days" end;
     summary_location := match location requirements with Some l => l | None => "" end;
     summary_origin := match origin requirements with Some o => o | None => "" end;
     summary_event_type := "Corporate Retreat" |}.

(** The loop of [build_cart]: the lines and the running subtotal. *)
Definition build_lines (items : dict Item) (requirements : Requirements)
  : dict CartItem * Q :=
  fold_left
    (fun acc ci =>
       let '(cart_items, subtotal) := acc in
       let '(category, item) := ci in
       let price := price item in
       let quantity := calculate_quantity category item requirements in
       let item_subtotal := price * inject_Z quantity in
       (dict_set cart_items category
          {| line_item := item; quantity := quantity; unit_price := price;
             line_subtotal := py_round item_subtotal 2 |},
        subtotal + item_subtotal))
    items ([], 0).

(** [build_cart]; [uuid], [now] and [savings_pct] are the values drawn
    from [uuid.uuid4()], [datetime.now().isoformat()] and
    [random.uniform]. *)
Definition build_cart (uuid now : string) (savings_pct : Q)
    (package : ScoredPackage) (requirements : Requirements) : Cart :=
  let cart_id := "cart_" ++ prefix_of 8 uuid in
  let '(cart_items, subtotal) := build_lines (items package) requirements in
  let taxes := subtotal * tax_rate in
  let fees := subtotal * service_fee_rate in
  let total := subtotal + taxes + fees in
  let savings := calculate_savings savings_pct package requirements in
  {| cart_id := cart_id;
     cart_items := cart_items;
     subtotal := py_round subtotal 2;
     taxes := py_round taxes 2;
     fees := py_round fees 2;
     total := py_round total 2;
     savings := savings;
     created_at := now;
     requirements_summary := summarize_requirements requirements;
     modified_at := None;
     optimization_applied := None;
     optimization_note := None |}.

(** [_recalculate_totals] *)
Definition recalculate_totals (now : string) (cart : Cart) : Cart :=
  let subtotal := py_sum (map line_subtotal (dict_values (cart_items cart))) in
  let taxes := subtotal * tax_rate in
  let fees := subtotal * service_fee_rate in
  let total := subtotal + taxes + fees in
  {| cart_id := cart_id cart;
     cart_items := cart_items cart;
     subtotal := py_round subtotal 2;
     taxes := py_round taxes 2;
     fees := py_round fees 2;
     total := py_round total 2;
     savings := savings cart;
     created_at := created_at cart;
     requirements_summary := requirements_summary cart;
     modified_at := Some now;
     optimization_applied := optimization_applied cart;
     optimization_note := optimization_note cart |}.

Definition set_cart_items (cart : Cart) (new_items : dict CartItem) : Cart :=
  {| cart_id := cart_id cart;
     cart_items := new_items;
     subtotal := subtotal cart;
     taxes := taxes cart;
     fees := fees cart;
     total := total cart;
     savings := savings cart;
     created_at := created_at cart;
     requirements_summary := requirements_summary cart;
     modified_at := modified_at cart;
     optimization_applied := optimization_applied cart;
     optimization_note := optimization_note cart |}.

(** The search loop shared by [_swap_item] and [_remove_item]: the first
    line, in the order of the dictionary, whose item has the identifier. *)
Fixpoint find_line (lines : dict CartItem) (id : string) : option (string * CartItem) :=
  match lines with
  | [] => None
  | (category, cart_item) :: lines' =>
      if String.eqb (item_id (line_item cart_item)) id then Some (category, cart_item)
      else find_line lines' id
  end.

(** Truth value of an optional string: [None] and the empty string are false. *)
Definition truthy (s : option string) : option string :=
  match s with
  | Some EmptyString => None
  | other => other
  end.

(** [_swap_item] *)
Definition swap_item (now : string) (cart : Cart) (modification : Modification) : Cart :=
  match truthy (mod_item_id modification), new_item modification with
  | Some item_id, Some new_item =>
      match find_line (cart_items cart) item_id with
      | Some (category, cart_item) =>
          let new_price := price new_item in
          let quantity := quantity cart_item in
          let new_subtotal := new_price * inject_Z quantity in
          recalculate_totals now
            (set_cart_items cart
               (dict_set (cart_items cart) category
                  {| line_item := new_item; quantity := quantity;
                     unit_price := new_price;
                     line_subtotal := py_round new_subtotal 2 |}))
      | None => cart
      end
  | _, _ => cart
  end.

(** [_remove_item] *)
Definition remove_item (now : string) (cart : Cart) (modification : Modification) : Cart :=
  match truthy (mod_item_id modification) with
  | Some item_id =>
      match find_line (cart_items cart) item_id with
      | Some (category, _) =>
          recalculate_totals now
            (set_cart_items cart (dict_del (cart_items cart) category))
      | None => cart
      end
  | None => cart
  end.

(** [_optimize_cart] *)
Definition optimize_cart (cart : Cart) (modification : Modification) : Cart :=
  let goal :=
    match optimization_goal modification with Some g => g | None => "balanced" end in
  {| cart_id := cart_id cart;
     cart_items := cart_items cart;
     subtotal := subtotal cart;
     taxes := taxes cart;
     fees := fees cart;
     total := total cart;
     savings := savings cart;
     created_at := created_at cart;
     requirements_summary := requirements_summary cart;
     modified_at := modified_at cart;
     optimization_applied := Some goal;
     optimization_note := Some ("Cart optimized for " ++ goal) |}.

(** [modify] *)
Definition modify (now : string) (cart : Cart) (modification : Modification) : Cart :=
  let action := action modification in
  if String.eqb action "swap" then swap_item now cart modification
  else if String.eqb action "remove" then remove_item now cart modification
  else if String.eqb action "optimize" then optimize_cart cart modification
  else cart.

End CartAgent.

(** ** crew/retreat_crew.py: the cart part of the session *)

Module RetreatPlannerCrew.
Import RankingAgent CartAgent.

(** The workflow state of a session. *)
Record Crew := {
  requirements : option Requirements;
  discovered_items : option (list Item);
  ranked_packages : option (list ScoredPackage);
  cart : option Cart
}.

(** What one call draws from the outside: the identifiers of the scored
    packages, the identifier of the cart, the clock, the random draw. *)
Record Draws := {
  package_uuids : nat -> string;
  cart_uuid : string;
  now : string;
  savings_pct : Q
}.

Inductive result (A : Type) :=
| Ok (value : A)
| ValueError (message : string)
| Raised.
Arguments Ok {A} value.
Arguments ValueError {A} message.
Arguments Raised {A}.

(** [modify_cart]: the value returned (or the exception raised) and the
    state of the session afterwards.  [Raised] stands for the exceptions
    that escape [rank]: the TypeError or AttributeError of a missing list
    or requirements record, the ZeroDivisionError of the scorer and its
    TypeError at a weight that is None. *)
Definition modify_cart (draws : Draws) (self : Crew) (modification : Modification)
  : result Cart * Crew :=
  match cart self with
  | None => (ValueError "Cart not built yet. Run cart agent first.", self)
  | Some current =>
      if String.eqb (action modification) "adjust_weights" then
        match discovered_items self, requirements self with
        | Some discovered, Some reqs =>
            match rank (package_uuids draws) discovered reqs (weights modification) with
            | None => (Raised, self)
            | Some ranked =>
                match ranked with
                | top_package :: _ =>
                    let new_cart :=
                      build_cart (cart_uuid draws) (now draws) (savings_pct draws)
                        top_package reqs in
                    (Ok new_cart,
                     {| requirements := requirements self;
                        discovered_items := discovered_items self;
                        ranked_packages := Some ranked;
                        cart := Some new_cart |})
                | [] =>
                    (Ok current,
                     {| requirements := requirements self;
                        discovered_items := discovered_items self;
                        ranked_packages := Some ranked;
                        cart := Some current |})
                end
            end
        | _, _ => (Raised, self)
        end
      else
        let new_cart := modify (now draws) current modification in
        (Ok new_cart,
         {| requirements := requirements self;
            discovered_items := discovered_items self;
            ranked_packages := ranked_packages self;
            cart := Some new_cart |})
  end.

End RetreatPlannerCrew.

(** ** Vocabulary of the properties *)

Module Vocabulary.

(** The shape of [price_to_score] as a function of price over reference. *)
Definition price_shape (u : Q) : Q :=
  if Qle_bool u 0 then 50
  else if Qle_bool u 0.5 then 100
  else if Qle_bool u 1 then 100 - u * 30
  else if Qle_bool u 1.5 then 70 - (u - 1) * 40
  else py_max 0 (30 - (u - 1.5) * 30).

(** Texts and their digits, for the duration of a stay. *)
Fixpoint has_digit (s : string) : bool :=
  match s with
  | EmptyString => false
  | String c s' => is_digit c || has_digit s'
  end.

Fixpoint all_digits (s : string) : bool :=
  match s with
  | EmptyString => true
  | String c s' => is_digit c && all_digits s'
  end.

Definition starts_with_digit (s : string) : bool :=
  match s with
  | EmptyString => false
  | String c _ => is_digit c
  end.

Definition digit_value (c : ascii) : Z := (Z.of_nat (nat_of_ascii c) - 48)%Z.

(** The number a decimal numeral denotes. *)
Definition decimal_value (s : string) : Z :=
  fold_left (fun acc c => (10 * acc + digit_value c)%Z) (list_ascii_of_string s) 0%Z.

(** The cart line [build_cart] makes of an entry of the package. *)
Definition line_of (requirements : Requirements) (entry : string * Item)
  : string * CartAgent.CartItem :=
  let quantity := CartAgent.calculate_quantity (fst entry) (snd entry) requirements in
  (fst entry,
   {| CartAgent.line_item := snd entry;
      CartAgent.quantity := quantity;
      CartAgent.unit_price := price (snd entry);
      CartAgent.line_subtotal := py_round (price (snd entry) * inject_Z quantity) 2 |}).

(** The sum of unit price times quantity over a package, not rounded. *)
Definition raw_subtotal (items : dict Item) (requirements : Requirements) : Q :=
  py_sum (map (fun entry =>
                 price (snd entry)
                 * inject_Z (CartAgent.calculate_quantity (fst entry) (snd entry) requirements))
              items).

(** The sum of the line subtotals a cart stores. *)
Definition sum_of_lines (cart : CartAgent.Cart) : Q :=
  py_sum (map CartAgent.line_subtotal (dict_values (CartAgent.cart_items cart))).

(** The distance between the stored total and the stored subtotal with
    tax and fee applied. *)
Definition total_gap (cart : CartAgent.Cart) : Q :=
  Qabs (CartAgent.total cart - CartAgent.subtotal cart * (1 + 0.0875 + 0.025)).

(** The carts a session can hold: built by [build_cart], then modified
    any number of times by [modify]. *)
Inductive reachable : CartAgent.Cart -> Prop :=
| reach_build uuid now savings_pct package requirements :
    reachable (CartAgent.build_cart uuid now savings_pct package requirements)
| reach_modify now cart modification :
    reachable cart -> reachable (CartAgent.modify now cart modification).

(** Every line subtotal of the cart has at most two decimals. *)
Definition lines_in_cents (lines : dict CartAgent.CartItem) : Prop :=
  Forall (fun entry => is_cents (CartAgent.line_subtotal (snd entry))) lines.

(** The modification finds a line and passes the guards of the operation. *)
Definition takes_effect (cart : CartAgent.Cart) (modification : CartAgent.Modification) : Prop :=
  exists id category line,
    CartAgent.truthy (CartAgent.mod_item_id modification) = Some id /\
    CartAgent.find_line (CartAgent.cart_items cart) id = Some (category, line) /\
    (CartAgent.action modification = "remove" \/
     (CartAgent.action modification = "swap" /\ CartAgent.new_item modification <> None)).

(** The best package of a ranking, as [modify_cart] takes it. *)
Definition top_package (uuids : nat -> string) (items : list Item)
    (requirements : Requirements) (custom_weights : option CustomWeights)
  : option ScoredPackage :=
  match RankingAgent.rank uuids items requirements custom_weights with
  | Some (top :: _) => Some top
  | _ => None
  end.

(** The order of a list sorted by [key] with [reverse=True]. *)
Definition descending {A : Type} (key : A -> Q) (a b : A) : Prop := key b <= key a.

(** A package without its ["rank"] key, as it is before [rank] numbers it. *)
Definition unranked (p : ScoredPackage) : ScoredPackage := set_rank p None.

(** The packages of a list whose final score is [s]. *)
Definition with_score (s : Q) (l : list ScoredPackage) : list ScoredPackage :=
  filter (fun p => Qeq_bool (final_score p) s) l.

(** The score a package stores for a category. *)
Definition category_score (p : ScoredPackage) (category : string) : Q :=
  dict_get_default (category_scores p) category 0.

(** The items of a list that belong to a category. *)
Definition of_category (category : string) (items : list Item) : list Item :=
  filter (fun item => String.eqb (Model.category item) category) items.

(** Importance on flights alone. *)
Definition flights_only : dict Q :=
  [("flights", 100); ("hotels", 0); ("meeting_rooms", 0); ("catering", 0)].

(** The keys of the weights of a category that [_score_item] reads. *)
Definition read_keys (category : string) : list string :=
  if String.eqb category "flights" then
    ["price_weight"; "timing_weight"; "trust_weight"; "comfort_weight"]
  else if String.eqb category "hotels" then
    ["price_weight"; "trust_weight"; "location_weight"; "amenities_weight"]
  else if String.eqb category "meeting_rooms" then
    ["price_weight"; "capacity_weight"; "equipment_weight"; "trust_weight"]
  else if String.eqb category "catering" then
    ["price_weight"; "trust_weight"; "dietary_weight"; "service_weight"]
  else [].

Definition is_number (v : option Q) : bool :=
  match v with
  | Some _ => true
  | None => false
  end.

(** The weights of the category hold a number under every key the scorer
    reads. *)
Definition numbers_in (category : string) (custom_weights : option CustomWeights)
  : bool :=
  forallb (fun key =>
             is_number (dict_get_default
                          (RankingAgent.weights_for category custom_weights) key (Some 0)))
          (read_keys category).

(** A package of one item in each of the four categories. *)
Definition four_categories (pkg : dict Item) : Prop :=
  exists a b c d,
    pkg = [("flights", a); ("hotels", b); ("meeting_rooms", c); ("catering", d)].

(** The custom weights hold a number wherever the ranking reads one:
    under the keys read of the weights of the four categories, and under
    the four categories of the importance. *)
Definition numbers_where_read (custom_weights : option CustomWeights) : bool :=
  forallb (fun category => numbers_in category custom_weights) RankingAgent.categories
  && forallb (fun cat =>
                is_number (dict_get_default
                             (RankingAgent.importance_for custom_weights) cat (Some 0)))
             RankingAgent.categories.

(** The candidates of a category in a ranking: its discovered items, or
    the one placeholder when it has none. *)
Definition candidates (category : string) (discovered : list Item)
    (requirements : Requirements) : list Item :=
  match of_category category discovered with
  | [] => [RankingAgent.create_placeholder_item category requirements]
  | found => found
  end.

End Vocabulary.
Export Vocabulary.

(** ** Sample data *)

Module Samples.

Definition sample_uuids (i : nat) : string := "3f2b8c1e-9a4d-4e6f-b0a1-5c7d8e9f0a1b".
Definition sample_uuid : string := "7c9e6679-7425-40de-944b-e07fc1f90ae7".
Definition sample_now : string := "2026-01-15T10:30:00".

Definition sample_item (id category : string) (p rating : Q) : Item :=
  {| item_id := id;
     category := category;
     vendor := "Vendor";
     source := "https://example.com";
     title := id;
     description := "";
     price := p;
     currency := "USD";
     availability := true;
     metadata := {| amenities := None; capacity := None;
                    equipment := None; dietary_options := None |};
     trust_score := Some {| rating := rating; rating_source := "reviews" |} |}.

(** One attendee for one day: every line has quantity 1. *)
Definition one_person_one_day : Requirements :=
  {| attendees := Some 1%Z; budget := Some 1000; duration := Some "1 day";
     location := Some "Miami"; origin := None |}.

(** A selected package with the given items; [build_cart] reads its items
    and its total cost. *)
Definition package_with_items (items : dict Item) : ScoredPackage :=
  {| package_id := "pkg_3f2b8c1e";
     final_score := 75;
     category_scores := map (fun entry => (fst entry, 75)) items;
     items := items;
     total_cost := py_round (py_sum (map price (dict_values items))) 2;
     explanation :=
       {| why_ranked_status := UnderBudget;
          why_ranked_strengths := dict_keys items;
          category_breakdowns := [];
          budget_total_cost := py_sum (map price (dict_values items));
          budget_budget := 1000;
          budget_percentage_used := 0;
          weights_applied := RankingAgent.held RankingAgent.default_category_importance |};
     pkg_rank := Some 1%nat |}.

(** The cart built from the best package of a list of items. *)
Definition sample_cart (items : list Item) (requirements : Requirements)
  : option CartAgent.Cart :=
  match top_package sample_uuids items requirements None with
  | Some top =>
      Some (CartAgent.build_cart sample_uuid sample_now 0.125 top requirements)
  | None => None
  end.

(** A session that holds a cart of one flight, with three discovered
    items to rank again. *)
Definition sample_discovered : list Item :=
  [sample_item "flight_1" "flights" 300 4.5;
   sample_item "flight_2" "flights" 250 4;
   sample_item "hotel_1" "hotels" 189.99 4].

Definition sample_crew : RetreatPlannerCrew.Crew :=
  {| RetreatPlannerCrew.requirements := Some one_person_one_day;
     RetreatPlannerCrew.discovered_items := Some sample_discovered;
     RetreatPlannerCrew.ranked_packages := None;
     RetreatPlannerCrew.cart :=
       Some (CartAgent.build_cart sample_uuid sample_now 0.125
               (package_with_items
                  [("flights", sample_item "flight_1" "flights" 300 4.5)])
               one_person_one_day) |}.

Definition sample_draws : RetreatPlannerCrew.Draws :=
  {| RetreatPlannerCrew.package_uuids := sample_uuids;
     RetreatPlannerCrew.cart_uuid := sample_uuid;
     RetreatPlannerCrew.now := sample_now;
     RetreatPlannerCrew.savings_pct := 0.125 |}.

Definition flights_first : CartAgent.Modification :=
  {| CartAgent.action := "adjust_weights";
     CartAgent.mod_item_id := None;
     CartAgent.new_item := None;
     CartAgent.optimization_goal := None;
     CartAgent.weights :=
       Some {| category_importance := Some (RankingAgent.held flights_only);
               component_weights := [] |} |}.

(** The weights of a category as the dump of a request holds them when
    only the price weight was given: the other weight of two with a default
    and None under the eight that have none. *)
Definition price_weight_alone (price_weight : Q) : dict (option Q) :=
  [("price_weight", Some price_weight); ("trust_weight", Some 25);
   ("timing_weight", None); ("comfort_weight", None);
   ("location_weight", None); ("amenities_weight", None);
   ("capacity_weight", None); ("equipment_weight", None);
   ("dietary_weight", None); ("service_weight", None)].

(** The modification [{"action": "adjust_weights", "weights": {"flights":
    {"price_weight": 80}}}] as the cart endpoint passes it on. *)
Definition cheaper_flights : CartAgent.Modification :=
  {| CartAgent.action := "adjust_weights";
     CartAgent.mod_item_id := None;
     CartAgent.new_item := None;
     CartAgent.optimization_goal := None;
     CartAgent.weights :=
       Some {| category_importance := None;
               component_weights := [("flights", price_weight_alone 80)] |} |}.

End Samples.

(** ** services/scoring_service.py: the other scoring utilities *)

Module ScoringUtilities.
Import ScoringService.

(** [calculate_weighted_score] *)
Definition calculate_weighted_score (scores : dict Q) (weights : dict Z) : Q :=
  let normalized := normalize_weights weights in
  let total :=
    py_sum (map (fun kw => dict_get_default scores (fst kw) 0 * snd kw) normalized) in
  py_round total 2.

(** [rating_to_score]; the default of [max_rating] is 5.0.  [None] is the
    ZeroDivisionError of a zero [max_rating]. *)
Definition rating_to_score (rating max_rating : Q) : option Q :=
  if Qle_bool rating 0 then Some 50
  else if Qeq_bool max_rating 0 then None
  else Some (py_min 100 ((rating / max_rating) * 100)).

(** [capacity_to_score]; [None] is the ZeroDivisionError of a zero
    [required]. *)
Definition capacity_to_score (capacity required : Z) : option Q :=
  if Z.leb required capacity then
    if Z.eqb required 0 then None
    else
      let excess_ratio := inject_Z capacity / inject_Z required in
      if Qle_bool excess_ratio 1.2 then Some 100
      else if Qle_bool excess_ratio 1.5 then Some 90
      else Some 80
  else
    if Z.eqb required 0 then None
    else Some ((inject_Z capacity / inject_Z required) * 70).

End ScoringUtilities.

(** ** More vocabulary: cart lines and amounts *)

Module CartVocabulary.
Import CartAgent.

(** A line whose unit price and subtotal are those of its item and
    quantity, as [build_cart] and [_swap_item] make them. *)
Definition line_for (item : Item) (quantity : Z) : CartItem :=
  {| line_item := item;
     quantity := quantity;
     unit_price := price item;
     line_subtotal := py_round (price item * inject_Z quantity) 2 |}.

(** The distance between the stored total and the sum of the stored
    subtotal, taxes and fees. *)
Definition sum_gap (cart : Cart) : Q :=
  Qabs (total cart - (subtotal cart + taxes cart + fees cart)).

(** A swap request. *)
Definition swap_request (id : string) (replacement : Item) : Modification :=
  {| action := "swap"; mod_item_id := Some id; new_item := Some replacement;
     optimization_goal := None; weights := None |}.

(** A remove request. *)
Definition remove_request (id : string) : Modification :=
  {| action := "remove"; mod_item_id := Some id; new_item := None;
     optimization_goal := None; weights := None |}.

(** No line of the list holds an item with this identifier. *)
Definition id_absent (id : string) (lines : dict CartItem) : Prop :=
  forall category line, In (category, line) lines -> item_id (line_item line) <> id.

End CartVocabulary.
Export CartVocabulary.

(** ** More vocabulary: rankings *)

Module RankingVocabulary.
Import RankingAgent.

(** The number of combinations of one item from each list. *)
Definition combinations {A : Type} (ls : list (list A)) : nat :=
  fold_right (fun l n => (List.length l * n)%nat) 1%nat ls.

(** The candidate lists of the four categories, in the order of the
    categories. *)
Definition candidate_lists (discovered : list Item) (requirements : Requirements)
  : list (list Item) :=
  map (fun cat => candidates cat discovered requirements) categories.

(** A scored package with its identifier blanked. *)
Definition without_id (p : ScoredPackage) : ScoredPackage :=
  {| package_id := "";
     final_score := final_score p;
     category_scores := category_scores p;
     items := items p;
     total_cost := total_cost p;
     explanation := explanation p;
     pkg_rank := pkg_rank p |}.


(** Custom weights that set the category importance and nothing else. *)
Definition importance_only (importance : dict (option Q)) : CustomWeights :=
  {| category_importance := Some importance; component_weights := [] |}.

(** Category importance given, as numbers, for the four categories. *)
Definition importance_of (f h m c : Q) : dict (option Q) :=
  [("flights", Some f); ("hotels", Some h); ("meeting_rooms", Some m);
   ("catering", Some c)].

(** The ranges the response models give an item: a price of at least 0,
    a rating between 0 and 5, a capacity of at least 0. *)
Definition item_in_range (item : Item) : Prop :=
  0 <= price item /\
  (forall ts, trust_score item = Some ts -> 0 <= rating ts <= 5) /\
  (forall c, capacity (metadata item) = Some c -> (0 <= c)%Z).

(** Every weight of the dictionary is a number, and none is negative. *)
Definition weights_nonneg (w : dict (option Q)) : Prop :=
  forall k v, In (k, v) w -> exists q, v = Some q /\ 0 <= q.

(** Every custom weight is a number, and none is negative. *)
Definition custom_weights_nonneg (custom : option CustomWeights) : Prop :=
  forall cw, custom = Some cw ->
    (forall ci, category_importance cw = Some ci -> weights_nonneg ci) /\
    (forall category w, In (category, w) (component_weights cw) -> weights_nonneg w).

End RankingVocabulary.
Export RankingVocabulary.

(** ** requirements_analyst.py: what the analyst lets through *)

Module RequirementsAnalystAgent.
Import CartAgent RetreatPlannerCrew.

(** [_validate_requirements], on the keys the other agents read.  A key
    that is absent reads as the default of [get].  The last block of the
    source resets the deadline, which no other agent reads, and catches
    its own exceptions. *)
Definition validate_requirements (req : Requirements) : result unit :=
  if ((match attendees req with Some a => a | None => 0 end) <=? 0)%Z then
    ValueError "Attendees must be greater than 0"
  else if Qle_bool (match budget req with Some b => b | None => 0 end) 0 then
    ValueError "Budget must be greater than 0"
  else
    match truthy (location req) with
    | None => ValueError "Location is required"
    | Some _ =>
        match truthy (duration req) with
        | None => ValueError "Duration is required"
        | Some _ => Ok tt
        end
    end.

(** The end of [analyze]: the requirements completed by
    [_ensure_required_fields] are validated and returned. *)
Definition analyze (ensured : Requirements) : result Requirements :=
  match validate_requirements ensured with
  | Ok _ => Ok ensured
  | ValueError message => ValueError message
  | Raised => Raised
  end.

End RequirementsAnalystAgent.

(** ** agents/checkout_agent.py *)

Module CheckoutAgent.
Import CartAgent RetreatPlannerCrew.

(** The contact, payment and checkout dictionaries; an absent key, or a
    key that holds None, is [None]. *)
Record Contact := {
  name : option string;
  email : option string;
  phone : option string;
  company : option string
}.

Record Payment := {
  method : option string;
  po_number : option string
}.

Record CheckoutData := {
  contact : option Contact;
  payment : option Payment;
  terms_accepted : option bool
}.

(** [checkout_data.get("contact", {}).get(key)] *)
Definition contact_get (key : Contact -> option string) (checkout_data : CheckoutData)
  : option string :=
  match contact checkout_data with
  | Some c => key c
  | None => None
  end.

(** [checkout_data.get("payment", {})] *)
Definition payment_of (checkout_data : CheckoutData) : Payment :=
  match payment checkout_data with
  | Some p => p
  | None => {| method := None; po_number := None |}
  end.

(** [c in s] for a character. *)
Fixpoint contains_char (c : ascii) (s : string) : bool :=
  match s with
  | EmptyString => false
  | String a s' => Ascii.eqb a c || contains_char c s'
  end.

(** [s.upper()], [s.lower()] and [s.replace(' ', '')] on ASCII text. *)
Fixpoint upper (s : string) : string :=
  match s with
  | EmptyString => EmptyString
  | String c s' => String (to_upper c) (upper s')
  end.

Fixpoint lower (s : string) : string :=
  match s with
  | EmptyString => EmptyString
  | String c s' => String (to_lower c) (lower s')
  end.

Fixpoint without_spaces (s : string) : string :=
  match s with
  | EmptyString => EmptyString
  | String c s' =>
      if Ascii.eqb c " " then without_spaces s' else String c (without_spaces s')
  end.

(** [_validate_checkout_data]: the ValueError raised, if any. *)
Definition validate_checkout_data (checkout_data : CheckoutData) : result unit :=
  match truthy (contact_get name checkout_data) with
  | None => ValueError "Contact name is required"
  | Some _ =>
      match truthy (contact_get email checkout_data) with
      | None => ValueError "Contact email is required"
      | Some email =>
          if negb (contains_char "@" email) || negb (contains_char "." email) then
            ValueError "Invalid email format"
          else if negb (match terms_accepted checkout_data with
                        | Some b => b
                        | None => false
                        end) then
            ValueError "Terms and conditions must be accepted"
          else Ok tt
      end
  end.

(** The dictionary [_process_payment] returns; a key it does not set is
    [None]. *)
Record PaymentResult := {
  success : bool;
  transaction_id : option string;
  paid_method : option string;
  paid_amount : option Q;
  due_date : option string;
  paid_po_number : option string;
  paid_timestamp : option string;
  error : option string
}.

(** [_process_payment]; [uuid] and [now] are drawn by the method. *)
Definition process_payment (uuid now : string) (amount : Q) (payment_data : Payment)
  : PaymentResult :=
  let method := match method payment_data with Some m => m | None => "stripe" end in
  if String.eqb method "stripe" then
    {| success := true;
       transaction_id := Some ("ch_" ++ prefix_of 16 uuid);
       paid_method := Some "stripe";
       paid_amount := Some amount;
       due_date := None;
       paid_po_number := None;
       paid_timestamp := Some now;
       error := None |}
  else if String.eqb method "invoice" then
    {| success := true;
       transaction_id := Some ("inv_" ++ upper (prefix_of 8 uuid));
       paid_method := Some "invoice";
       paid_amount := Some amount;
       due_date := Some "Net 30";
       paid_po_number := None;
       paid_timestamp := Some now;
       error := None |}
  else if String.eqb method "po" then
    match truthy (po_number payment_data) with
    | None =>
        {| success := false; transaction_id := None; paid_method := None;
           paid_amount := None; due_date := None; paid_po_number := None;
           paid_timestamp := None;
           error := Some "PO number required for purchase order payment" |}
    | Some po_number =>
        {| success := true;
           transaction_id := Some ("po_" ++ po_number);
           paid_method := Some "purchase_order";
           paid_amount := Some amount;
           due_date := None;
           paid_po_number := Some po_number;
           paid_timestamp := Some now;
           error := None |}
    end
  else
    {| success := false; transaction_id := None; paid_method := None;
       paid_amount := None; due_date := None; paid_po_number := None;
       paid_timestamp := None;
       error := Some ("Unsupported payment method: " ++ method) |}.

(** [_get_cancellation_policy] *)
Definition get_cancellation_policy (category : string) : string :=
  dict_get_default
    [("flights", "Free cancellation up to 24 hours before departure");
     ("hotels", "Free cancellation up to 48 hours before check-in");
     ("meeting_rooms", "Full refund up to 7 days before event");
     ("catering", "Full refund up to 5 days before event, 50% up to 48 hours")]
    category "Contact vendor for cancellation policy".

(** [_get_vendor_contact] *)
Record VendorContact := {
  vendor_email : string;
  vendor_phone : string;
  support_hours : string
}.

Definition get_vendor_contact (vendor : string) : VendorContact :=
  {| vendor_email := "support@" ++ without_spaces (lower vendor) ++ ".com";
     vendor_phone := "1-800-555-0123";
     support_hours := "24/7" |}.

(** A retailer confirmation.  The booking details, which repeat the
    quantity and metadata of the item under names that depend on the
    category, are left out. *)
Record RetailerConfirmation := {
  conf_vendor : string;
  conf_category : string;
  confirmation_number : string;
  conf_status : string;
  item_title : string;
  conf_quantity : Z;
  item_total : Q;
  cancellation_policy : string;
  contact_info : VendorContact
}.

(** [_book_with_retailer]; [uuid] is drawn by the method. *)
Definition book_with_retailer (uuid : string) (category : string) (item : Item)
    (cart_item : CartItem) : RetailerConfirmation :=
  let vendor := vendor item in
  let conf_prefix :=
    dict_get_default
      [("flights", "FLT"); ("hotels", "HTL"); ("meeting_rooms", "MTG"); ("catering", "CTR")]
      category "BKG" in
  {| conf_vendor := vendor;
     conf_category := category;
     confirmation_number := conf_prefix ++ "-" ++ upper (prefix_of 6 uuid);
     conf_status := "confirmed";
     item_title := title item;
     conf_quantity := quantity cart_item;
     item_total := line_subtotal cart_item;
     cancellation_policy := get_cancellation_policy category;
     contact_info := get_vendor_contact vendor |}.

(** What [process_checkout] draws: the identifiers and the two readings
    of the clock. *)
Record CheckoutDraws := {
  master_uuid : string;
  payment_uuid : string;
  payment_now : string;
  retailer_uuids : nat -> string;
  booking_now : string
}.

(** The master booking confirmation. *)
Record BookingConfirmation := {
  master_booking_id : string;
  retailer_confirmations : list RetailerConfirmation;
  total_cost : Q;
  payment_reference : option string;
  booking_date : string;
  booking_contact : option Contact;
  status : string
}.

(** [process_checkout] *)
Definition process_checkout (draws : CheckoutDraws) (cart : Cart)
    (checkout_data : CheckoutData) : result BookingConfirmation :=
  let master_booking_id := "RTR-" ++ upper (prefix_of 8 (master_uuid draws)) in
  match validate_checkout_data checkout_data with
  | ValueError message => ValueError message
  | Raised => Raised
  | Ok _ =>
      let payment_result :=
        process_payment (payment_uuid draws) (payment_now draws) (total cart)
          (payment_of checkout_data) in
      if negb (success payment_result) then
        ValueError ("Payment failed: "
                    ++ match error payment_result with Some e => e | None => "None" end)
      else
        let confirmations :=
          map (fun numbered =>
                 let '(i, (category, cart_item)) := numbered in
                 book_with_retailer (retailer_uuids draws i) category
                   (line_item cart_item) cart_item)
              (enumerate 0 (cart_items cart)) in
        Ok {| master_booking_id := master_booking_id;
              retailer_confirmations := confirmations;
              total_cost := total cart;
              payment_reference := transaction_id payment_result;
              booking_date := booking_now draws;
              booking_contact := contact checkout_data;
              status := "confirmed" |}
  end.

End CheckoutAgent.

(** ** retreat_crew.py: the other steps of a session *)

Module CrewSession.
Import RankingAgent CartAgent RetreatPlannerCrew.

(** The workflow state [__init__] sets up. *)
Definition new_session : Crew :=
  {| requirements := None; discovered_items := None;
     ranked_packages := None; cart := None |}.

(** [run_requirements_analyst]; [ensured] is what the language model and
    [_ensure_required_fields] made of the user's text. *)
Definition run_requirements_analyst (ensured : Requirements) (self : Crew)
  : result Requirements * Crew :=
  match RequirementsAnalystAgent.analyze ensured with
  | Ok analyzed =>
      (Ok analyzed,
       {| requirements := Some analyzed;
          discovered_items := discovered_items self;
          ranked_packages := ranked_packages self;
          cart := cart self |})
  | failure => (failure, self)
  end.

(** [run_discovery_agent]; [found] is what the web search returned.  A
    requirements dictionary stored by the analyst is never empty. *)
Definition run_discovery_agent (found : list Item) (self : Crew)
  : result (list Item) * Crew :=
  match requirements self with
  | None =>
      (ValueError "Requirements not analyzed yet. Run requirements analyst first.", self)
  | Some _ =>
      (Ok found,
       {| requirements := requirements self;
          discovered_items := Some found;
          ranked_packages := ranked_packages self;
          cart := cart self |})
  end.

(** [run_ranking_agent]: a missing and an empty list of items are refused
    alike.  [Raised] as in [modify_cart]. *)
Definition run_ranking_agent (draws : Draws) (custom_weights : option CustomWeights)
    (self : Crew) : result (list ScoredPackage) * Crew :=
  match discovered_items self with
  | None | Some [] =>
      (ValueError "Items not discovered yet. Run discovery agent first.", self)
  | Some discovered =>
      match requirements self with
      | None => (Raised, self)
      | Some reqs =>
          match rank (package_uuids draws) discovered reqs custom_weights with
          | None => (Raised, self)
          | Some ranked =>
              (Ok ranked,
               {| requirements := requirements self;
                  discovered_items := discovered_items self;
                  ranked_packages := Some ranked;
                  cart := cart self |})
          end
      end
  end.

(** [run_cart_agent]: the first ranked package with the identifier asked
    for. *)
Definition run_cart_agent (draws : Draws) (package_id : string) (self : Crew)
  : result Cart * Crew :=
  match ranked_packages self with
  | None | Some [] =>
      (ValueError "Packages not ranked yet. Run ranking agent first.", self)
  | Some ranked =>
      match find (fun p => String.eqb (Model.package_id p) package_id) ranked with
      | None =>
          (ValueError ("Package " ++ package_id ++ " not found in ranked packages"), self)
      | Some selected_package =>
          match requirements self with
          | None => (Raised, self)
          | Some reqs =>
              let new_cart :=
                build_cart (cart_uuid draws) (now draws) (savings_pct draws)
                  selected_package reqs in
              (Ok new_cart,
               {| requirements := requirements self;
                  discovered_items := discovered_items self;
                  ranked_packages := ranked_packages self;
                  cart := Some new_cart |})
          end
      end
  end.

(** [run_checkout_agent]: the cart is checked out as it is, and the
    session stays as it was. *)
Definition run_checkout_agent (draws : CheckoutAgent.CheckoutDraws)
    (checkout_data : CheckoutAgent.CheckoutData) (self : Crew)
  : result CheckoutAgent.BookingConfirmation * Crew :=
  match cart self with
  | None => (ValueError "Cart not built yet. Run cart agent first.", self)
  | Some current => (CheckoutAgent.process_checkout draws current checkout_data, self)
  end.

(** [get_session_state], without the identifier and the date of the
    session, which never change. *)
Record SessionState := {
  has_requirements : bool;
  discovered_items_count : nat;
  ranked_packages_count : nat;
  has_cart : bool;
  cart_total : option Q
}.

Definition get_session_state (self : Crew) : SessionState :=
  {| has_requirements := match requirements self with Some _ => true | None => false end;
     discovered_items_count :=
       match discovered_items self with Some l => List.length l | None => 0%nat end;
     ranked_packages_count :=
       match ranked_packages self with Some l => List.length l | None => 0%nat end;
     has_cart := match cart self with Some _ => true | None => false end;
     cart_total := match cart self with Some c => Some (total c) | None => None end |}.

(** One call of a method of the crew that runs an agent, with what it
    receives from outside. *)
Inductive Call :=
| call_requirements_analyst (ensured : Requirements)
| call_discovery_agent (found : list Item)
| call_ranking_agent (draws : Draws) (custom_weights : option CustomWeights)
| call_cart_agent (draws : Draws) (package_id : string)
| call_modify_cart (draws : Draws) (modification : Modification)
| call_checkout_agent (draws : CheckoutAgent.CheckoutDraws)
    (checkout_data : CheckoutAgent.CheckoutData).

(** How a call ends. *)
Inductive Ending := Returned | RaisedValueError | RaisedOther.

Definition ending {A : Type} (r : result A) : Ending :=
  match r with
  | Ok _ => Returned
  | ValueError _ => RaisedValueError
  | Raised => RaisedOther
  end.

Definition perform (call : Call) (self : Crew) : Ending * Crew :=
  match call with
  | call_requirements_analyst ensured =>
      let (r, s) := run_requirements_analyst ensured self in (ending r, s)
  | call_discovery_agent found =>
      let (r, s) := run_discovery_agent found self in (ending r, s)
  | call_ranking_agent draws custom_weights =>
      let (r, s) := run_ranking_agent draws custom_weights self in (ending r, s)
  | call_cart_agent draws package_id =>
      let (r, s) := run_cart_agent draws package_id self in (ending r, s)
  | call_modify_cart draws modification =>
      let (r, s) := modify_cart draws self modification in (ending r, s)
  | call_checkout_agent draws checkout_data =>
      let (r, s) := run_checkout_agent draws checkout_data self in (ending r, s)
  end.

(** The session after a sequence of calls on a new crew. *)
Definition session_after (calls : list Call) : Crew :=
  fold_left (fun self call => snd (perform call self)) calls new_session.

(** The categories of the cart lines, in order. *)
Definition line_categories (c : Cart) : list string := dict_keys (cart_items c).

End CrewSession.

(** ** Vocabulary of the session properties *)

Module SessionVocabulary.
Import RankingAgent CartAgent RetreatPlannerCrew CrewSession.

(** What every session built by the methods of the crew satisfies. *)
Definition session_ok (s : Crew) : Prop :=
  (forall r, requirements s = Some r ->
             RequirementsAnalystAgent.validate_requirements r = Ok tt) /\
  (discovered_items s <> None -> requirements s <> None) /\
  (forall l, ranked_packages s = Some l ->
             requirements s <> None /\ discovered_items s <> None /\
             l <> [] /\ (List.length l <= 50)%nat /\
             forall p, In p l -> dict_keys (items p) = categories) /\
  (forall c, cart s = Some c ->
             ranked_packages s <> None /\ reachable c /\
             NoDup (line_categories c) /\ incl (line_categories c) categories).

(** The request [{"action": "adjust_weights", "weights": w}]. *)
Definition adjust_weights_request (w : option CustomWeights) : Modification :=
  {| action := "adjust_weights"; mod_item_id := None; new_item := None;
     optimization_goal := None; weights := w |}.

(** Identifiers that differ in their first eight characters. *)
Definition distinct_uuids (i : nat) : string :=
  match i with
  | O => "0a1b2c3d-9a4d-4e6f-b0a1-5c7d8e9f0a1b"
  | _ => "4e5f6a7b-7425-40de-944b-e07fc1f90ae7"
  end.

Definition distinct_draws : Draws :=
  {| package_uuids := distinct_uuids; cart_uuid := Samples.sample_uuid;
     now := Samples.sample_now; savings_pct := 0.125 |}.

(** A session up to the cart, for one person and one day. *)
Definition sample_calls : list Call :=
  [call_requirements_analyst Samples.one_person_one_day;
   call_discovery_agent Samples.sample_discovered;
   call_ranking_agent distinct_draws None;
   call_cart_agent distinct_draws "pkg_4e5f6a7b"].

(** The sample session after a second search that found nothing. *)
Definition sample_calls_empty_search : list Call :=
  (sample_calls ++ [call_discovery_agent []])%list.

End SessionVocabulary.
Export SessionVocabulary.

(** ** utils/validators.py: the checkout data *)

Module Validators.
Import CartAgent CheckoutAgent.
Local Open Scope list_scope.

(** A string [re.match(r'^[^@]+@[^@]+\.[^@]+$', s)] accepts: one at sign,
    something before it, and after it a dot that has something on both
    sides. *)
Fixpoint split_at_sign (s : string) : option (string * string) :=
  match s with
  | EmptyString => None
  | String c s' =>
      if Ascii.eqb c "@" then Some (EmptyString, s')
      else match split_at_sign s' with
           | Some (before, after) => Some (String c before, after)
           | None => None
           end
  end.

(** A dot of [s] that is not its last character. *)
Fixpoint dot_before_end (s : string) : bool :=
  match s with
  | EmptyString => false
  | String c s' =>
      (Ascii.eqb c "." && negb (String.eqb s' EmptyString)) || dot_before_end s'
  end.

Definition matches_email_pattern (s : string) : bool :=
  match split_at_sign s with
  | Some (String _ _, domain) =>
      match domain with
      | String _ domain_tail =>
          negb (contains_char "@" domain) && dot_before_end domain_tail
      | EmptyString => false
      end
  | _ => false
  end.

(** [validate_checkout_data] of the utilities: validity and messages. *)
Definition validate_checkout_data (checkout_data : CheckoutData) : bool * list string :=
  let errors := [] in
  let errors :=
    match truthy (contact_get name checkout_data) with
    | None => errors ++ ["Contact name is required"]
    | Some name =>
        if (String.length name <? 2)%nat then
          errors ++ ["Contact name must be at least 2 characters"]
        else errors
    end in
  let errors :=
    match truthy (contact_get email checkout_data) with
    | None => errors ++ ["Contact email is required"]
    | Some email =>
        if negb (matches_email_pattern email) then errors ++ ["Invalid email format"]
        else errors
    end in
  let payment := payment_of checkout_data in
  let method := match method payment with Some m => m | None => "stripe" end in
  let errors :=
    if negb (existsb (String.eqb method) ["stripe"; "invoice"; "po"]) then
      errors ++ ["Invalid payment method. Must be one of: stripe, invoice, po"]
    else errors in
  let errors :=
    if String.eqb method "po"
       && match truthy (po_number payment) with Some _ => false | None => true end then
      errors ++ ["PO number required for purchase order payment"]
    else errors in
  let errors :=
    if negb (match terms_accepted checkout_data with Some b => b | None => false end) then
      errors ++ ["Terms and conditions must be accepted"]
    else errors in
  ((List.length errors =? 0)%nat, errors).

End Validators.

(** ** Vocabulary of the checkout properties *)

Module CheckoutVocabulary.
Import CartAgent CheckoutAgent.

(** The strings the pattern of the validator describes: something without
    an at sign, an at sign, and a domain without an at sign that has a dot
    with something on both sides. *)
Definition email_shape (s : string) : Prop :=
  exists local before_dot after_dot,
    s = local ++ "@" ++ before_dot ++ "." ++ after_dot /\
    local <> EmptyString /\ before_dot <> EmptyString /\ after_dot <> EmptyString /\
    contains_char "@" local = false /\
    contains_char "@" before_dot = false /\
    contains_char "@" after_dot = false.

Definition sample_checkout : CheckoutData :=
  {| contact := Some {| name := Some "Ada Lovelace";
                        email := Some "ada@example.com";
                        phone := None; company := None |};
     payment := Some {| method := Some "po"; po_number := Some "PO-1842" |};
     terms_accepted := Some true |}.

Definition sample_checkout_draws : CheckoutDraws :=
  {| master_uuid := "9b2d7f4c-1a3e-4c5b-8d6f-0e1a2b3c4d5e";
     payment_uuid := "5a6b7c8d-2f3a-4b4c-9d5e-6f7a8b9c0d1e";
     payment_now := "2026-01-15T10:31:00";
     retailer_uuids := Samples.sample_uuids;
     booking_now := "2026-01-15T10:31:01" |}.

(** A cart of one flight. *)
Definition one_flight_cart : Cart :=
  build_cart Samples.sample_uuid Samples.sample_now 0.125
    (Samples.package_with_items
       [("flights", Samples.sample_item "flight_1" "flights" 300 4.5)])
    Samples.one_person_one_day.

(** What a retailer confirmation takes from the cart line it confirms. *)
Definition confirms (line : string * CartItem) (rc : RetailerConfirmation) : Prop :=
  conf_category rc = fst line /\
  conf_vendor rc = vendor (line_item (snd line)) /\
  item_title rc = title (line_item (snd line)) /\
  conf_quantity rc = quantity (snd line) /\
  item_total rc = line_subtotal (snd line).

(** The confirmation was given a prefix and a policy of its category, not
    the ones kept for unknown categories. *)
Definition known_category (rc : RetailerConfirmation) : Prop :=
  In (prefix_of 3 (confirmation_number rc)) ["FLT"; "HTL"; "MTG"; "CTR"] /\
  cancellation_policy rc <> "Contact vendor for cancellation policy".

End CheckoutVocabulary.
Export CheckoutVocabulary.

(** * The vendor ranking of corporate-retreat-agent

    The second implementation in the repository scores single vendor
    items, not packages.  Its records are typed (pydantic models), so no
    key can be absent.  What the agents print is not part of the model. *)

From Stdlib Require Import DecimalString.

(** ** corporate-retreat-agent/models.py and config.py *)

Module VendorModels.

Inductive ItemType :=
| HOTEL | FLIGHT | CONFERENCE_ROOM | CATERING | TRANSPORTATION | COORDINATION.

(** The string an [ItemType] is; the keys of the dictionaries that group
    by type. *)
Definition value (t : ItemType) : string :=
  match t with
  | HOTEL => "hotel"
  | FLIGHT => "flight"
  | CONFERENCE_ROOM => "conference_room"
  | CATERING => "catering"
  | TRANSPORTATION => "transportation"
  | COORDINATION => "coordination"
  end.

Record RetreatRequirements := {
  num_participants : Z;
  location : string;
  start_date : string;
  end_date : string;
  budget : Q;
  must_haves : list string;
  nice_to_haves : list string;
  special_requirements : option string
}.

(** A vendor item; [raw_data], which no agent reads, is left out. *)
Record VendorItem := {
  item_id : string;
  item_type : ItemType;
  vendor_name : string;
  description : string;
  price : Q;
  capacity : Z;
  rating : Q;
  distance_km : option Q;
  availability : bool;
  delivery_time_days : option Z;
  url : option string
}.

(** A scored item; [reasoning], the score printed with two decimals, is
    left out. *)
Record ScoredItem := {
  item : VendorItem;
  normalized_scores : dict Q;
  weighted_score : Q;
  total_score : Q
}.

Record AgentResponse (A : Type) := {
  success : bool;
  data : A;
  message : string;
  errors : list string
}.
Arguments success {A} _.
Arguments data {A} _.
Arguments message {A} _.
Arguments errors {A} _.

(** The weights of [Settings]. *)
Record Settings := {
  weight_price : Q;
  weight_availability : Q;
  weight_quality : Q;
  weight_time : Q;
  weight_risk : Q;
  weight_distance : Q
}.

(** The values [Settings] has when the environment sets none. *)
Definition settings : Settings :=
  {| weight_price := 0.30; weight_availability := 0.20; weight_quality := 0.20;
     weight_time := 0.10; weight_risk := 0.10; weight_distance := 0.10 |}.

End VendorModels.

(** ** corporate-retreat-agent/agent_ranking.py and the grouping of agent_cart.py *)

Module VendorRanking.
Import VendorModels.
Local Open Scope list_scope.

(** The loop that groups a list in a dictionary of lists, in the order of
    first appearance of the keys: [rank_items] groups the items by type
    with it, [_group_by_type] the scored items. *)
Definition group_by {A : Type} (key : A -> string) (l : list A) : dict (list A) :=
  fold_left
    (fun groups x =>
       let groups :=
         match dict_get groups (key x) with
         | None => dict_set groups (key x) []
         | Some _ => groups
         end in
       dict_set groups (key x) (dict_get_default groups (key x) [] ++ [x]))
    l [].

(** [min(xs)] and [max(xs)] of a list with first element [x]. *)
Definition list_min (x : Q) (xs : list Q) : Q :=
  fold_left (fun m y => if Qlt_bool y m then y else m) xs x.
Definition list_max (x : Q) (xs : list Q) : Q :=
  fold_left (fun m y => if Qlt_bool m y then y else m) xs x.

(** [self.weights], built by [__init__]. *)
Definition weights (s : Settings) : dict Q :=
  [("price", weight_price s); ("availability", weight_availability s);
   ("quality", weight_quality s); ("time", weight_time s);
   ("risk", weight_risk s); ("distance", weight_distance s)].

(** [item.distance_km if item.distance_km else 5.0]: no distance and the
    distance 0 both read as 5. *)
Definition distance_of (item : VendorItem) : Q :=
  match distance_km item with
  | Some d => if Qeq_bool d 0 then 5 else d
  | None => 5
  end.

(** The scores of one item of a group, given the extremes of the group. *)
Definition normalize (min_price max_price min_rating max_rating min_distance
    max_distance : Q) (requirements : RetreatRequirements) (item : VendorItem)
  : dict Q :=
  let normalized := [] in
  let normalized :=
    dict_set normalized "price"
      (if Qlt_bool min_price max_price
       then 1 - ((price item - min_price) / (max_price - min_price))
       else 1) in
  let normalized :=
    dict_set normalized "availability"
      (if (num_participants requirements <=? capacity item)%Z then 1 else 0.5) in
  let normalized :=
    dict_set normalized "quality"
      (if Qlt_bool min_rating max_rating
       then (rating item - min_rating) / (max_rating - min_rating)
       else 1) in
  let normalized := dict_set normalized "time" (rating item / 5) in
  let normalized := dict_set normalized "risk" (rating item / 5) in
  let distance := distance_of item in
  let normalized :=
    dict_set normalized "distance"
      (if Qlt_bool min_distance max_distance
       then 1 - ((distance - min_distance) / (max_distance - min_distance))
       else 1) in
  normalized.

(** [_score_item_group] *)
Definition score_item_group (weights : dict Q) (items : list VendorItem)
    (requirements : RetreatRequirements) : list ScoredItem :=
  match items with
  | [] => []
  | first :: others =>
      let prices := map price others in
      let ratings := map rating others in
      let distances := map distance_of others in
      let min_price := list_min (price first) prices in
      let max_price := list_max (price first) prices in
      let min_rating := list_min (rating first) ratings in
      let max_rating := list_max (rating first) ratings in
      let min_distance := list_min (distance_of first) distances in
      let max_distance := list_max (distance_of first) distances in
      map (fun item =>
             let normalized :=
               normalize min_price max_price min_rating max_rating
                 min_distance max_distance requirements item in
             let weighted_score :=
               py_sum (map (fun criterion =>
                              dict_get_default normalized criterion 0
                              * dict_get_default weights criterion 0)
                           (dict_keys weights)) in
             {| item := item;
                normalized_scores := normalized;
                weighted_score := weighted_score;
                total_score := weighted_score |})
          items
  end.

(** [str(n)] of a length. *)
Definition str_of_nat (n : nat) : string := NilEmpty.string_of_uint (Nat.to_uint n).

(** [rank_items].  On typed items no statement of its try block raises,
    so the failure response of the handler is never built. *)
Definition rank_items (weights : dict Q) (items : list VendorItem)
    (requirements : RetreatRequirements) : AgentResponse (list ScoredItem) :=
  match items with
  | [] =>
      {| success := true; data := []; message := "No items to rank"; errors := [] |}
  | _ =>
      let items_by_type := group_by (fun item => value (item_type item)) items in
      let all_scored_items :=
        flat_map (fun group => score_item_group weights (snd group) requirements)
          items_by_type in
      let all_scored_items := sort_desc total_score all_scored_items in
      {| success := true;
         data := all_scored_items;
         message :=
           ("Successfully ranked " ++ str_of_nat (List.length all_scored_items)
            ++ " items")%string;
         errors := [] |}
  end.

(** [_group_by_type] of the cart agent. *)
Definition group_by_type (scored_items : list ScoredItem) : dict (list ScoredItem) :=
  group_by (fun scored => value (item_type (item scored))) scored_items.

(** The scored items [build_cart] takes: the first of each group. *)
Definition best_items (scored_items : list ScoredItem) : list ScoredItem :=
  flat_map (fun group => match snd group with
                         | best_item :: _ => [best_item]
                         | [] => []
                         end)
    (group_by_type scored_items).

End VendorRanking.

(** ** Vocabulary of the vendor ranking *)

Module VendorVocabulary.
Import VendorModels VendorRanking.
Local Open Scope list_scope.

(** One turn of the grouping loop. *)
Definition group_step {A : Type} (key : A -> string) (groups : dict (list A)) (x : A)
  : dict (list A) :=
  let groups :=
    match dict_get groups (key x) with
    | None => dict_set groups (key x) []
    | Some _ => groups
    end in
  dict_set groups (key x) (dict_get_default groups (key x) [] ++ [x]).

(** What the grouping loop keeps true: distinct keys, each group the
    items of its key in their order, no group empty, nothing lost. *)
Definition grouped {A : Type} (key : A -> string) (groups : dict (list A))
    (seen : list A) : Prop :=
  NoDup (dict_keys groups) /\
  (forall k g, In (k, g) groups ->
               g = filter (fun x => String.eqb (key x) k) seen /\ g <> []) /\
  Permutation (flat_map snd groups) seen.

(** The items of the type of [x]. *)
Definition of_type (x : VendorItem) (items : list VendorItem) : list VendorItem :=
  filter (fun y => String.eqb (value (item_type y)) (value (item_type x))) items.

(** The score stored for a criterion. *)
Definition score_for (criterion : string) (s : ScoredItem) : Q :=
  dict_get_default (normalized_scores s) criterion 0.

(** The six criteria. *)
Definition criteria : list string :=
  ["price"; "availability"; "quality"; "time"; "risk"; "distance"].

(** No weight is negative. *)
Definition settings_nonneg (s : Settings) : Prop :=
  0 <= weight_price s /\ 0 <= weight_availability s /\ 0 <= weight_quality s /\
  0 <= weight_time s /\ 0 <= weight_risk s /\ 0 <= weight_distance s.

Definition weight_sum (s : Settings) : Q :=
  weight_price s + weight_availability s + weight_quality s
  + weight_time s + weight_risk s + weight_distance s.

(** [a] is at least as good as [b] on every input of the scorer. *)
Definition at_least_as_good (requirements : RetreatRequirements) (a b : VendorItem)
  : Prop :=
  price a <= price b /\ rating b <= rating a /\ distance_of a <= distance_of b /\
  ((num_participants requirements <= capacity b)%Z ->
   (num_participants requirements <= capacity a)%Z).

Definition sample_vendor (id : string) (t : ItemType) (p : Q) (c : Z) (r : Q)
    (d : option Q) : VendorItem :=
  {| item_id := id; item_type := t; vendor_name := "Vendor " ++ id;
     description := "A vendor"; price := p; capacity := c; rating := r;
     distance_km := d; availability := true; delivery_time_days := None;
     url := None |}.

Definition thirty_people : RetreatRequirements :=
  {| num_participants := 30; location := "Hyderabad"; start_date := "2026-03-01";
     end_date := "2026-03-03"; budget := 50000; must_haves := [];
     nice_to_haves := []; special_requirements := None |}.

Definition sample_vendors : list VendorItem :=
  [sample_vendor "h1" HOTEL 120 40 4.5 (Some 2);
   sample_vendor "c1" CATERING 30 100 4 None;
   sample_vendor "h2" HOTEL 90 25 3.5 (Some 0);
   sample_vendor "h3" HOTEL 150 60 5 (Some 1)].

(** Two hotels of which the first is better on every count. *)
Definition good_and_bad : list VendorItem :=
  [sample_vendor "a" HOTEL 100 40 4.5 (Some 1);
   sample_vendor "b" HOTEL 120 40 4 (Some 2)].

(** Two hotels that differ by their distance only. *)
Definition near_and_far : list VendorItem :=
  [sample_vendor "a" HOTEL 100 40 4 (Some 0);
   sample_vendor "b" HOTEL 100 40 4 (Some 2)].

End VendorVocabulary.

(** ** utils/validators.py: the weights *)

Module WeightValidator.
Import RankingAgent.
Local Open Scope list_scope.

(** The errors [validate_weights] can report on weights that are numbers
    or None; each stands for the message built from its arguments:
    ["Unknown category in importance: {cat}"],
    ["Weight for {cat} must be a number"],
    ["Weight for {cat} must be between 0 and 100"],
    ["Category importance weights should sum to 100 (got {total})"],
    ["{category}.{key} must be a number"] and
    ["{category}.{key} must be between 0 and 100"]. *)
Inductive WeightError :=
| UnknownCategory (cat : string)
| ImportanceNotNumber (cat : string)
| ImportanceOutOfRange (cat : string)
| ImportanceSum (total : Q)
| ComponentNotNumber (category key : string)
| ComponentOutOfRange (category key : string).

Definition valid_categories : list string :=
  ["flights"; "hotels"; "meeting_rooms"; "catering"].

(** [s.endswith(suffix)] *)
Fixpoint ends_with (suffix s : string) : bool :=
  String.eqb s suffix
  || match s with
     | EmptyString => false
     | String _ s' => ends_with suffix s'
     end.

(** [validate_weights]: validity and errors.  The isinstance checks on
    the entries themselves are left out: an entry of the record, where
    there is one, is a dictionary. *)
Definition validate_weights (weights : CustomWeights) : bool * list WeightError :=
  let errors := [] in
  let errors :=
    match category_importance weights with
    | None => errors
    | Some importance =>
        let '(errors, total) :=
          fold_left
            (fun acc entry =>
               let '(errors, total) := acc in
               let '(cat, weight) := entry in
               let errors :=
                 if negb (existsb (String.eqb cat) valid_categories)
                 then errors ++ [UnknownCategory cat] else errors in
               match weight with
               | None => (errors ++ [ImportanceNotNumber cat], total)
               | Some weight =>
                   if Qlt_bool weight 0 || Qlt_bool 100 weight
                   then (errors ++ [ImportanceOutOfRange cat], total)
                   else (errors, total + weight)
               end)
            importance (errors, 0) in
        if Qlt_bool 0 total && Qlt_bool 1 (Qabs (total - 100))
        then errors ++ [ImportanceSum total] else errors
    end in
  let errors :=
    fold_left
      (fun errors category =>
         match dict_get (component_weights weights) category with
         | None => errors
         | Some cat_weights =>
             fold_left
               (fun errors entry =>
                  let '(key, value) := entry in
                  if negb (ends_with "_weight" key) then errors
                  else
                    match value with
                    | None => errors ++ [ComponentNotNumber category key]
                    | Some value =>
                        if Qlt_bool value 0 || Qlt_bool 100 value
                        then errors ++ [ComponentOutOfRange category key]
                        else errors
                    end)
               cat_weights errors
         end)
      valid_categories errors in
  ((List.length errors =? 0)%nat, errors).

(** The part of the weights the validator looks at and the scorer reads:
    the importance, and of the entries of the four categories the keys
    that end in _weight. *)
Definition checked_weights (weights : CustomWeights) : CustomWeights :=
  {| category_importance := category_importance weights;
     component_weights :=
       flat_map
         (fun category =>
            match dict_get (component_weights weights) category with
            | Some cat_weights =>
                [(category,
                  filter (fun entry => ends_with "_weight" (fst entry)) cat_weights)]
            | None => []
            end)
         valid_categories |}.

(** Weights the validator accepts: the importance need not add up to 100
    exactly, and keys it does not know are let through. *)
Definition loose_weights : CustomWeights :=
  {| category_importance :=
       Some [("flights", Some 50); ("hotels", Some 30.5);
             ("meeting_rooms", Some 10); ("catering", Some 10)];
     component_weights :=
       [("flights", [("price_weight", Some 80); ("note", Some (-1)); ("memo", None)]);
        ("spa", [("price_weight", Some (-5))])] |}.

End WeightValidator.

(** * Properties *)

(** ** Rounding *)

Section Rounding.

Lemma round_half_even_compat (x y : Q) :
  x == y -> round_half_even x = round_half_even y.
Proof.
  intros E. unfold round_half_even.
  assert (F : Qfloor x = Qfloor y) by (now rewrite E).
  rewrite F.
  assert (C : Qcompare (x - inject_Z (Qfloor y)) (1 # 2)
              = Qcompare (y - inject_Z (Qfloor y)) (1 # 2)) by (now rewrite E).
  now rewrite C.
Qed.

Lemma round_half_even_Z (z : Z) : round_half_even (inject_Z z) = z.
Proof.
  unfold round_half_even. rewrite Qfloor_Z.
  assert (C : Qcompare (inject_Z z - inject_Z z) (1 # 2) = Lt).
  { rewrite <- Qlt_alt. lra. }
  now rewrite C.
Qed.

Lemma round_half_even_near (x : Q) :
  - (1 # 2) <= inject_Z (round_half_even x) - x <= 1 # 2.
Proof.
  unfold round_half_even.
  pose proof (Qfloor_le x) as Hlo.
  pose proof (Qlt_floor x) as Hhi.
  rewrite inject_Z_plus in Hhi. change (inject_Z 1) with 1 in Hhi.
  destruct (Qcompare (x - inject_Z (Qfloor x)) (1 # 2)) eqn:C.
  - apply Qeq_alt in C.
    destruct (Z.even (Qfloor x));
      [| rewrite inject_Z_plus; change (inject_Z 1) with 1]; lra.
  - apply Qlt_alt in C. lra.
  - apply Qgt_alt in C. rewrite inject_Z_plus. change (inject_Z 1) with 1. lra.
Qed.

Lemma py_round_2_eq (x : Q) :
  py_round x 2 == inject_Z (round_half_even (x * 100)) * (1 # 100).
Proof.
  unfold py_round. simpl pow10.
  change (inject_Z 100) with 100.
  rewrite (Qmake_Qdiv (round_half_even (x * 100)) 100).
  unfold Qdiv. change (/ inject_Z 100) with (1 # 100). reflexivity.
Qed.

Lemma py_round_2_near (x : Q) :
  - (1 # 200) <= py_round x 2 - x <= 1 # 200.
Proof.
  rewrite py_round_2_eq.
  pose proof (round_half_even_near (x * 100)) as H.
  lra.
Qed.

Lemma py_round_2_abs (x : Q) : Qabs (py_round x 2 - x) <= 1 # 200.
Proof.
  apply Qabs_Qle_condition. apply py_round_2_near.
Qed.

Lemma py_round_compat (x y : Q) (n : nat) : x == y -> py_round x n = py_round y n.
Proof.
  intros E. unfold py_round. f_equal.
  apply round_half_even_compat. now rewrite E.
Qed.

Lemma py_round_2_cents (x : Q) : is_cents (py_round x 2).
Proof. eexists. unfold py_round. simpl pow10. reflexivity. Qed.

Lemma py_round_2_of_cents (x : Q) : is_cents x -> py_round x 2 == x.
Proof.
  intros [k E]. rewrite py_round_2_eq.
  rewrite (round_half_even_compat _ (inject_Z k)).
  - rewrite round_half_even_Z, E.
    rewrite (Qmake_Qdiv k 100). unfold Qdiv.
    change (/ inject_Z 100) with (1 # 100). reflexivity.
  - rewrite E, (Qmake_Qdiv k 100). unfold Qdiv.
    change (/ inject_Z 100) with (1 # 100). ring.
Qed.

Lemma py_round_2_idem (x : Q) : py_round (py_round x 2) 2 = py_round x 2.
Proof.
  unfold py_round at 1. simpl pow10.
  rewrite (round_half_even_compat _ (inject_Z (round_half_even (x * 100)))).
  - now rewrite round_half_even_Z.
  - rewrite py_round_2_eq. change (inject_Z 100) with 100. ring.
Qed.

End Rounding.

(** ** Comparisons as case analyses *)

Lemma Qle_bool_cases (a b : Q) : BoolSpec (a <= b) (b < a) (Qle_bool a b).
Proof.
  destruct (Qle_bool a b) eqn:E; constructor.
  - now apply Qle_bool_iff.
  - apply Qnot_le_lt. intros H. apply Qle_bool_iff in H. congruence.
Qed.

Lemma Qlt_bool_cases (a b : Q) : BoolSpec (a < b) (b <= a) (Qlt_bool a b).
Proof.
  unfold Qlt_bool. destruct (Qle_bool_cases b a); constructor; assumption.
Qed.

Lemma Qeq_bool_cases (a b : Q) : BoolSpec (a == b) (~ a == b) (Qeq_bool a b).
Proof.
  destruct (Qeq_bool a b) eqn:E; constructor.
  - now apply Qeq_bool_iff.
  - intros H. apply Qeq_bool_iff in H. congruence.
Qed.

Ltac qcases :=
  repeat match goal with
    | |- context [Qle_bool ?a ?b] => destruct (Qle_bool_cases a b)
    | |- context [Qlt_bool ?a ?b] => destruct (Qlt_bool_cases a b)
    | |- context [Qeq_bool ?a ?b] => destruct (Qeq_bool_cases a b)
    end.

(** ** Weight normalisation *)

Section NormalizeWeights.
Import ScoringService.

Lemma sum_of_quotients (t : Z) (vs : list Z) (acc : Q) (accz : Z) :
  acc == inject_Z accz / inject_Z t ->
  fold_left Qplus (map (fun v => inject_Z v / inject_Z t) vs) acc
  == inject_Z (fold_left Z.add vs accz) / inject_Z t.
Proof.
  revert acc accz. induction vs as [| v vs IH]; intros acc accz E; simpl.
  - exact E.
  - apply IH. rewrite E, inject_Z_plus. unfold Qdiv. ring.
Qed.

Lemma normalize_weights_keys (weights : dict Z) :
  dict_keys (normalize_weights weights) = dict_keys weights.
Proof.
  unfold normalize_weights, dict_keys.
  destruct (Z.eqb _ 0); rewrite map_map; reflexivity.
Qed.

(** C8: [normalize_weights] keeps the keys and divides every weight by the
    sum of the weights; when that sum is positive the normalised values
    add up to 1 (so within 1e-9 of it); when it is 0 every value is 0 and
    nothing is raised. *)
Theorem normalize_weights_sums_to_one (weights : dict Z) :
  let total := fold_left Z.add (dict_values weights) 0%Z in
  dict_keys (normalize_weights weights) = dict_keys weights /\
  (total <> 0%Z ->
     dict_values (normalize_weights weights)
     = map (fun v => inject_Z v / inject_Z total) (dict_values weights)) /\
  ((0 < total)%Z ->
     py_sum (dict_values (normalize_weights weights)) == 1 /\
     Qabs (py_sum (dict_values (normalize_weights weights)) - 1) <= 1 # 1000000000) /\
  (total = 0%Z ->
     dict_values (normalize_weights weights) = map (fun _ => 0) (dict_values weights)).
Proof.
  intros total. split; [apply normalize_weights_keys |].
  assert (V : total <> 0%Z ->
     dict_values (normalize_weights weights)
     = map (fun v => inject_Z v / inject_Z total) (dict_values weights)).
  { intros Hne. unfold normalize_weights, dict_values. fold (dict_values weights).
    fold total. destruct (Z.eqb_spec total 0); [contradiction |].
    unfold dict_values. now rewrite !map_map. }
  split; [exact V |]. split.
  - intros Hpos.
    assert (S1 : py_sum (dict_values (normalize_weights weights)) == 1).
    { rewrite V by lia. unfold py_sum.
      rewrite (sum_of_quotients total (dict_values weights) 0 0%Z).
      - fold total. apply Qmult_inv_r.
        intros H. unfold Qeq in H. simpl in H. lia.
      - unfold Qdiv. change (inject_Z 0) with 0. ring. }
    split; [exact S1 |]. rewrite S1. discriminate.
  - intros Hz. unfold normalize_weights, dict_values. fold (dict_values weights).
    fold total. rewrite Hz. simpl. unfold dict_values. now rewrite !map_map.
Qed.

(** The claim at a concrete weight map. *)
Lemma normalize_weights_sums_to_one_witness :
  py_sum (dict_values (normalize_weights
            [("flights", 30%Z); ("hotels", 50%Z); ("catering", 40%Z)])) == 1.
Proof.
  apply (proj1 (proj2 (proj2 (normalize_weights_sums_to_one
            [("flights", 30%Z); ("hotels", 50%Z); ("catering", 40%Z)])))).
  vm_compute. reflexivity.
Defined.

End NormalizeWeights.

(** ** Price scores *)

Section PriceScore.
Import ScoringService RankingAgent.

Lemma ratio_le (p e c : Q) : 0 < e -> (p <= e * c <-> p / e <= c).
Proof.
  intros He. split; intros H.
  - apply Qle_shift_div_r; [exact He |]. lra.
  - assert (E : p == (p / e) * e).
    { unfold Qdiv. rewrite <- Qmult_assoc, (Qmult_comm (/ e)), Qmult_inv_r; [ring |].
      intros Z. rewrite Z in He. now apply Qlt_irrefl in He. }
    rewrite E. rewrite (Qmult_comm e c).
    apply Qmult_le_compat_r; [exact H | now apply Qlt_le_weak].
Qed.

Lemma ratio_lt (p e c : Q) : 0 < e -> (e * c < p <-> c < p / e).
Proof.
  intros He. pose proof (ratio_le p e c He) as [A B]. split; intros H.
  - apply Qnot_le_lt. intros N. apply B in N. lra.
  - apply Qnot_le_lt. intros N. apply A in N. lra.
Qed.

Lemma ratio_mono (p q e : Q) : 0 < e -> p <= q -> p / e <= q / e.
Proof.
  intros He H. unfold Qdiv. apply Qmult_le_compat_r; [exact H |].
  apply Qlt_le_weak, Qinv_lt_0_compat, He.
Qed.

Lemma price_to_score_shape (p budget ratio : Q) :
  0 < budget * ratio ->
  exists s, price_to_score p budget ratio = Some s /\ s == price_shape (p / (budget * ratio)).
Proof.
  intros He. unfold price_to_score, price_shape.
  set (e := budget * ratio) in *.
  assert (Hne : ~ e == 0) by (intros Z; rewrite Z in He; now apply Qlt_irrefl in He).
  pose proof (ratio_le p e 0 He) as R0.
  pose proof (ratio_le p e 0.5 He) as R1.
  pose proof (ratio_le p e 1 He) as R2.
  pose proof (ratio_le p e 1.5 He) as R3.
  pose proof (ratio_lt p e 0 He) as S0.
  pose proof (ratio_lt p e 0.5 He) as S1.
  pose proof (ratio_lt p e 1 He) as S2.
  pose proof (ratio_lt p e 1.5 He) as S3.
  assert (D1 : (p - e) / e == p / e - 1) by (field; exact Hne).
  assert (D2 : (p - e * 1.5) / e == p / e - 1.5) by (field; exact Hne).
  destruct (Qeq_bool_cases e 0) as [Z | _]; [contradiction |].
  set (u := p / e) in *.
  destruct (Qle_bool_cases p 0) as [A0 | A0].
  { destruct (Qle_bool_cases u 0) as [B0 | B0].
    - eexists; split; [reflexivity | reflexivity].
    - exfalso. apply S0 in B0. lra. }
  destruct (Qle_bool_cases u 0) as [B0 | B0]; [exfalso; apply R0 in B0; lra |].
  destruct (Qle_bool_cases p (e * 0.5)) as [A1 | A1].
  { destruct (Qle_bool_cases u 0.5) as [B1 | B1].
    - eexists; split; reflexivity.
    - exfalso. apply S1 in B1. lra. }
  destruct (Qle_bool_cases u 0.5) as [B1 | B1]; [exfalso; apply R1 in B1; lra |].
  destruct (Qle_bool_cases p e) as [A2 | A2].
  { destruct (Qle_bool_cases u 1) as [B2 | B2].
    - eexists; split; reflexivity.
    - exfalso. apply S2 in B2. lra. }
  destruct (Qle_bool_cases u 1) as [B2 | B2]; [exfalso; apply R2 in B2; lra |].
  destruct (Qle_bool_cases p (e * 1.5)) as [A3 | A3].
  { destruct (Qle_bool_cases u 1.5) as [B3 | B3].
    - eexists; split; [reflexivity |]. rewrite D1. reflexivity.
    - exfalso. apply S3 in B3. lra. }
  destruct (Qle_bool_cases u 1.5) as [B3 | B3]; [exfalso; apply R3 in B3; lra |].
  eexists; split; [reflexivity |].
  unfold py_max. set (w := (p - e * 1.5) / e) in *.
  destruct (Qlt_bool_cases 0 (30 - w * 30));
    destruct (Qlt_bool_cases 0 (30 - (u - 1.5) * 30)); lra.
Qed.

Lemma price_shape_range (u : Q) : 0 <= price_shape u <= 100.
Proof. unfold price_shape, py_max. qcases; lra. Qed.

Lemma price_shape_mono (u v : Q) : 0 < u -> u <= v -> price_shape v <= price_shape u.
Proof. intros Hu Huv. unfold price_shape, py_max. qcases; lra. Qed.

Lemma calculate_price_score_range (p b : Q) :
  0 <= p -> 0 <= calculate_price_score p b <= 100.
Proof.
  intros Hp. unfold calculate_price_score.
  destruct (Qle_bool_cases b 0) as [Hb | Hb]; [lra |].
  assert (Hu : 0 <= p / b).
  { apply Qle_shift_div_l; [exact Hb | lra]. }
  set (u := p / b) in *. unfold py_max. qcases; lra.
Qed.

Lemma calculate_price_score_mono (p q b : Q) :
  0 < b -> 0 <= p -> p <= q -> calculate_price_score q b <= calculate_price_score p b.
Proof.
  intros Hb Hp Hpq. unfold calculate_price_score.
  destruct (Qle_bool_cases b 0) as [Hb' | _]; [lra |].
  pose proof (ratio_mono p q b Hb Hpq) as M.
  assert (Hu : 0 <= p / b) by (apply Qle_shift_div_l; [exact Hb | lra]).
  set (u := p / b) in *. set (v := q / b) in *.
  unfold py_max. qcases; lra.
Qed.

(** At half the budget [_calculate_price_score] is down to 50. *)
Lemma calculate_price_score_at_half_budget :
  calculate_price_score 500 1000 == 50 /\ calculate_price_score 0 1000 == 100.
Proof. split; vm_compute; reflexivity. Qed.

(** C5, as the code has it: for a positive reference price (budget times
    category ratio) [price_to_score] returns a score between 0 and 100; a
    price of 0 or less gets the neutral 50; over the prices above 0 the
    score never increases with the price, is 100 up to half the reference,
    at most 30 past one and a half times the reference and 0 from two and
    a half times on.  [_calculate_price_score], whose reference is the
    budget itself, stays between 0 and 100 and never increases over the
    prices from 0 on. *)
Theorem price_to_score_profile (budget ratio : Q) :
  0 < budget * ratio ->
  let e := budget * ratio in
  (forall p, exists s, price_to_score p budget ratio = Some s /\ 0 <= s <= 100) /\
  (forall p, p <= 0 -> price_to_score p budget ratio = Some 50) /\
  (forall p, 0 < p -> p <= e * 0.5 -> price_to_score p budget ratio = Some 100) /\
  (forall p q s t, 0 < p -> p <= q ->
     price_to_score p budget ratio = Some s ->
     price_to_score q budget ratio = Some t -> t <= s) /\
  (forall p s, e * 1.5 < p ->
     price_to_score p budget ratio = Some s -> 0 <= s <= 30) /\
  (forall p s, e * 2.5 <= p ->
     price_to_score p budget ratio = Some s -> s == 0) /\
  (forall b p q, 0 < b -> 0 <= p -> p <= q ->
     0 <= calculate_price_score q b /\
     calculate_price_score q b <= calculate_price_score p b /\
     calculate_price_score p b <= 100).
Proof.
  intros He e.
  assert (Hne : ~ e == 0) by (intros Z; unfold e in Z; rewrite Z in He; now apply Qlt_irrefl in He).
  split; [intros p | split; [intros p Hp | split; [intros p Hp Hh |
    split; [intros p q s t Hp Hpq Es Et | split; [intros p s Hp Es |
    split; [intros p s Hp Es | intros b p q Hb Hp Hpq]]]]]].
  - destruct (price_to_score_shape p budget ratio He) as [s [E S]].
    exists s. split; [exact E |]. rewrite S. apply price_shape_range.
  - unfold price_to_score. destruct (Qle_bool_cases p 0); [reflexivity | lra].
  - unfold price_to_score. fold e.
    destruct (Qle_bool_cases p 0); [lra |].
    destruct (Qle_bool_cases p (e * 0.5)); [reflexivity | lra].
  - destruct (price_to_score_shape p budget ratio He) as [s' [E S]].
    destruct (price_to_score_shape q budget ratio He) as [t' [E' T]].
    rewrite Es in E. rewrite Et in E'. injection E as <-. injection E' as <-.
    rewrite S, T. fold e.
    apply price_shape_mono.
    + apply (ratio_lt p e 0 He). lra.
    + now apply ratio_mono.
  - destruct (price_to_score_shape p budget ratio He) as [s' [E S]].
    rewrite Es in E. injection E as <-. rewrite S. fold e.
    apply (ratio_lt p e 1.5 He) in Hp.
    set (u := p / e) in *. unfold price_shape, py_max. qcases; lra.
  - destruct (price_to_score_shape p budget ratio He) as [s' [E S]].
    rewrite Es in E. injection E as <-. rewrite S. fold e.
    assert (U : 2.5 <= p / e).
    { apply Qle_shift_div_l; [exact He |]. fold e. lra. }
    set (u := p / e) in *. unfold price_shape, py_max. qcases; lra.
  - split; [apply calculate_price_score_range; lra |].
    split; [now apply calculate_price_score_mono |].
    now apply calculate_price_score_range.
Qed.

(** The profile at budget 1000 and ratio 1/4. *)
Lemma price_to_score_profile_witness :
  0 < 1000 * 0.25 /\ price_to_score 100 1000 0.25 = Some 100.
Proof.
  split; [reflexivity |].
  apply (proj1 (proj2 (proj2 (price_to_score_profile 1000 0.25 eq_refl))));
    vm_compute; congruence.
Defined.

(** C5 as stated fails at price 0, which is at most half of any positive
    reference: the score there is the neutral 50, not 100, and a larger
    price (100, still below half the reference 250) scores higher. *)
Lemma price_to_score_zero_price_counterexample :
  0 < 1000 * 0.25 /\
  0 <= 0 /\ 0 <= 1000 * 0.25 * 0.5 /\
  price_to_score 0 1000 0.25 = Some 50 /\
  0 <= 100 /\
  price_to_score 100 1000 0.25 = Some 100 /\
  ~ 100 <= 50 /\
  ~ (forall p, 0 <= p -> p <= 1000 * 0.25 * 0.5 ->
               price_to_score p 1000 0.25 = Some 100).
Proof.
  repeat split; try (vm_compute; congruence).
  intros H. specialize (H 0). vm_compute in H.
  assert (C : Some (50 # 1) = Some (100 # 1)) by (apply H; discriminate).
  discriminate C.
Qed.

End PriceScore.

(** ** Dictionaries *)

Section DictFacts.
Context {V : Type}.
Local Open Scope list_scope.
Implicit Types (d : dict V) (k : string) (v : V).

Lemma dict_get_set_same d k v : dict_get (dict_set d k v) k = Some v.
Proof.
  induction d as [| [k' v'] d IH]; simpl.
  - now rewrite String.eqb_refl.
  - destruct (String.eqb k' k) eqn:E; simpl; rewrite E; [reflexivity | exact IH].
Qed.

Lemma dict_get_set_other d k k' v :
  k <> k' -> dict_get (dict_set d k v) k' = dict_get d k'.
Proof.
  intros N. induction d as [| [k0 v0] d IH]; simpl.
  - destruct (String.eqb_spec k k'); [contradiction | reflexivity].
  - destruct (String.eqb_spec k0 k) as [-> | N0]; simpl.
    + destruct (String.eqb_spec k k'); [contradiction | reflexivity].
    + destruct (String.eqb_spec k0 k'); [reflexivity | exact IH].
Qed.

Lemma dict_set_fresh d k v :
  ~ In k (dict_keys d) -> dict_set d k v = (d ++ [(k, v)])%list.
Proof.
  induction d as [| [k' v'] d IH]; simpl; intros N; [reflexivity |].
  destruct (String.eqb_spec k' k) as [-> | _]; [tauto |].
  rewrite IH; [reflexivity | tauto].
Qed.

Lemma dict_set_at (before after : dict V) k v v' :
  ~ In k (dict_keys before) ->
  dict_set (before ++ (k, v) :: after) k v' = (before ++ (k, v') :: after)%list.
Proof.
  induction before as [| [k0 v0] before IH]; simpl; intros N.
  - now rewrite String.eqb_refl.
  - destruct (String.eqb_spec k0 k) as [-> | _]; [tauto |].
    rewrite IH; [reflexivity | tauto].
Qed.

Lemma dict_del_at (before after : dict V) k v :
  ~ In k (dict_keys before) ->
  dict_del (before ++ (k, v) :: after) k = (before ++ after)%list.
Proof.
  induction before as [| [k0 v0] before IH]; simpl; intros N.
  - now rewrite String.eqb_refl.
  - destruct (String.eqb_spec k0 k) as [-> | _]; [tauto |].
    rewrite IH; [reflexivity | tauto].
Qed.

Lemma dict_keys_app (d e : dict V) :
  dict_keys (d ++ e) = (dict_keys d ++ dict_keys e)%list.
Proof. apply map_app. Qed.

End DictFacts.

(** ** Quantities *)

Section Quantities.
Import CartAgent.

Lemma search_digits_none (s : string) : has_digit s = false -> search_digits s = None.
Proof.
  induction s as [| c s IH]; simpl; [reflexivity |].
  destruct (is_digit c); [discriminate | exact IH].
Qed.

Lemma take_digits_run (digits post : string) :
  all_digits digits = true -> starts_with_digit post = false ->
  take_digits (digits ++ post) = digits.
Proof.
  intros D P. induction digits as [| c digits IH]; simpl in *.
  - destruct post as [| c post]; simpl in *; [reflexivity |]. now rewrite P.
  - apply andb_prop in D as [Dc D]. rewrite Dc. f_equal. now apply IH.
Qed.

Lemma search_digits_first (pre digits post : string) :
  has_digit pre = false -> digits <> EmptyString ->
  all_digits digits = true -> starts_with_digit post = false ->
  search_digits (pre ++ digits ++ post) = Some digits.
Proof.
  intros Hpre Hne D P. induction pre as [| c pre IH]; simpl in *.
  - destruct digits as [| d digits]; [congruence |]. simpl in *.
    apply andb_prop in D as [Dd D]. rewrite Dd. f_equal. f_equal.
    now apply take_digits_run.
  - destruct (is_digit c); [discriminate |]. now apply IH.
Qed.

Lemma int_of_digits_value (s : string) (acc : Z) :
  int_of_digits acc s
  = fold_left (fun acc c => (10 * acc + digit_value c)%Z) (list_ascii_of_string s) acc.
Proof.
  revert acc. induction s as [| c s IH]; intros acc; simpl; [reflexivity |].
  rewrite IH. unfold digit_value. now rewrite (Z.mul_comm acc 10).
Qed.

Lemma ceil_half (a : Z) : (a / 2 + a mod 2)%Z = Qceiling (inject_Z a / 2).
Proof.
  unfold Qceiling.
  assert (E : - (inject_Z a / 2) == (- a) # 2).
  { unfold Qdiv, Qeq. simpl. lia. }
  rewrite E. unfold Qfloor.
  change (Z.pos 2) with 2%Z.
  pose proof (Z.div_mod a 2 ltac:(lia)).
  pose proof (Z.mod_pos_bound a 2 ltac:(lia)).
  pose proof (Z.div_mod (- a) 2 ltac:(lia)).
  pose proof (Z.mod_pos_bound (- a) 2 ltac:(lia)).
  lia.
Qed.

(** C9: the quantity of a cart line is the number of attendees for
    flights, ceil(attendees / 2) rooms times the stay-days for hotels, the
    stay-days for meeting rooms and attendees times stay-days for
    catering; the stay-days are the value of the first run of digits of
    the duration text, and 2 when the text has no digit. *)
Theorem calculate_quantity_by_category (requirements : Requirements) (item : Item) :
  let a := match attendees requirements with Some a => a | None => 50%Z end in
  let text := match duration requirements with Some d => d | None => "2 days" end in
  let days := num_days_of requirements in
  calculate_quantity "flights" item requirements = a /\
  calculate_quantity "hotels" item requirements = (Qceiling (inject_Z a / 2) * days)%Z /\
  calculate_quantity "meeting_rooms" item requirements = days /\
  calculate_quantity "catering" item requirements = (a * days)%Z /\
  (forall pre digits post,
      text = pre ++ digits ++ post ->
      has_digit pre = false -> digits <> EmptyString ->
      all_digits digits = true -> starts_with_digit post = false ->
      days = decimal_value digits) /\
  (has_digit text = false -> days = 2%Z).
Proof.
  intros a text days.
  split; [reflexivity |].
  split; [unfold calculate_quantity; simpl; fold a; fold days; now rewrite ceil_half |].
  split; [reflexivity |].
  split; [reflexivity |].
  split.
  - intros pre digits post E Hpre Hne D P.
    unfold days, num_days_of. fold text. rewrite E.
    rewrite (search_digits_first pre digits post Hpre Hne D P).
    apply int_of_digits_value.
  - intros H. unfold days, num_days_of. fold text.
    now rewrite (search_digits_none text H).
Qed.

(** The rules at 50 attendees staying ["3 days"]. *)
Lemma calculate_quantity_by_category_witness :
  num_days_of {| attendees := Some 50%Z; budget := Some 60000;
                 duration := Some "3 days"; location := Some "Miami";
                 origin := None |} = decimal_value "3".
Proof.
  refine (proj1 (proj2 (proj2 (proj2 (proj2
    (calculate_quantity_by_category
       {| attendees := Some 50%Z; budget := Some 60000;
          duration := Some "3 days"; location := Some "Miami";
          origin := None |}
       (RankingAgent.create_placeholder_item "flights"
          {| attendees := None; budget := None; duration := None;
             location := None; origin := None |}))))))
    "" "3" " days" _ _ _ _ _); try reflexivity.
  discriminate.
Defined.

End Quantities.

(** ** Cart totals *)

Section CartTotals.
Import CartAgent.

Lemma is_cents_plus (x y : Q) : is_cents x -> is_cents y -> is_cents (x + y).
Proof.
  intros [a A] [b B]. exists (a + b)%Z. rewrite A, B.
  unfold Qeq, Qplus. simpl. lia.
Qed.

Lemma is_cents_times_Z (x : Q) (n : Z) : is_cents x -> is_cents (x * inject_Z n).
Proof.
  intros [a A]. exists (a * n)%Z. rewrite A.
  unfold Qeq, Qmult, inject_Z. simpl. lia.
Qed.

Lemma is_cents_fold (xs : list Q) (acc : Q) :
  is_cents acc -> Forall is_cents xs -> is_cents (fold_left Qplus xs acc).
Proof.
  revert acc. induction xs as [| x xs IH]; intros acc A F; simpl; [exact A |].
  inversion F; subst. apply IH; [now apply is_cents_plus | assumption].
Qed.

Lemma is_cents_sum (xs : list Q) : Forall is_cents xs -> is_cents (py_sum xs).
Proof. apply is_cents_fold. exists 0%Z. reflexivity. Qed.

(** The two roundings of a subtotal and of its total are apart by at most
    half a cent for each. *)
Lemma total_gap_of_roundings (s : Q) :
  Qabs (py_round (s + s * tax_rate + s * service_fee_rate) 2
        - py_round s 2 * (1 + 0.0875 + 0.025)) <= 169 # 16000.
Proof.
  pose proof (py_round_2_near s) as A.
  pose proof (py_round_2_near (s + s * tax_rate + s * service_fee_rate)) as B.
  unfold tax_rate, service_fee_rate in *.
  apply Qabs_Qle_condition. lra.
Qed.

Lemma total_gap_of_cents (s : Q) :
  is_cents s ->
  Qabs (py_round (s + s * tax_rate + s * service_fee_rate) 2
        - py_round s 2 * (1 + 0.0875 + 0.025)) <= 1 # 200.
Proof.
  intros C. rewrite (py_round_2_of_cents s C).
  pose proof (py_round_2_near (s + s * tax_rate + s * service_fee_rate)) as B.
  unfold tax_rate, service_fee_rate in *.
  apply Qabs_Qle_condition. lra.
Qed.

Lemma build_lines_step (items : dict Item) (requirements : Requirements)
    (lines : dict CartItem) (acc : Q) :
  snd (fold_left
         (fun acc ci =>
            let '(cart_items, subtotal) := acc in
            let '(category, item) := ci in
            let price := price item in
            let quantity := calculate_quantity category item requirements in
            let item_subtotal := price * inject_Z quantity in
            (dict_set cart_items category
               {| line_item := item; quantity := quantity; unit_price := price;
                  line_subtotal := py_round item_subtotal 2 |},
             subtotal + item_subtotal))
         items (lines, acc))
  = fold_left Qplus
      (map (fun entry =>
              price (snd entry)
              * inject_Z (calculate_quantity (fst entry) (snd entry) requirements))
           items) acc.
Proof.
  revert lines acc. induction items as [| [category item] items IH]; intros lines acc.
  - reflexivity.
  - simpl. apply IH.
Qed.

Lemma build_lines_subtotal (items : dict Item) (requirements : Requirements) :
  snd (build_lines items requirements) = raw_subtotal items requirements.
Proof. apply build_lines_step. Qed.

Lemma lines_in_cents_set (lines : dict CartItem) (k : string) (line : CartItem) :
  lines_in_cents lines -> is_cents (line_subtotal line) ->
  lines_in_cents (dict_set lines k line).
Proof.
  unfold lines_in_cents. intros F C.
  induction lines as [| [k' l'] lines IH]; simpl.
  - constructor; [exact C | constructor].
  - inversion F; subst. destruct (String.eqb k' k); constructor; auto.
Qed.

Lemma lines_in_cents_del (lines : dict CartItem) (k : string) :
  lines_in_cents lines -> lines_in_cents (dict_del lines k).
Proof.
  unfold lines_in_cents. intros F.
  induction lines as [| [k' l'] lines IH]; simpl; [constructor |].
  inversion F; subst. destruct (String.eqb k' k); [assumption |].
  constructor; auto.
Qed.

Lemma build_lines_in_cents (items : dict Item) (requirements : Requirements) :
  lines_in_cents (fst (build_lines items requirements)).
Proof.
  unfold build_lines.
  assert (G : forall lines acc, lines_in_cents lines ->
    lines_in_cents (fst (fold_left
         (fun acc ci =>
            let '(cart_items, subtotal) := acc in
            let '(category, item) := ci in
            let price := price item in
            let quantity := calculate_quantity category item requirements in
            let item_subtotal := price * inject_Z quantity in
            (dict_set cart_items category
               {| line_item := item; quantity := quantity; unit_price := price;
                  line_subtotal := py_round item_subtotal 2 |},
             subtotal + item_subtotal))
         items (lines, acc)))).
  { induction items as [| [category item] items IH]; intros lines acc F; simpl.
    - exact F.
    - apply IH. apply lines_in_cents_set; [exact F |]. apply py_round_2_cents. }
  apply G. constructor.
Qed.

Lemma sum_of_lines_cents (lines : dict CartItem) :
  lines_in_cents lines -> is_cents (py_sum (map line_subtotal (dict_values lines))).
Proof.
  intros F. apply is_cents_sum. unfold dict_values.
  rewrite map_map. apply Forall_map. exact F.
Qed.

Lemma build_cart_fields (uuid now : string) (pct : Q) (package : ScoredPackage)
    (requirements : Requirements) :
  let s := raw_subtotal (items package) requirements in
  let c := build_cart uuid now pct package requirements in
  cart_items c = fst (build_lines (items package) requirements) /\
  subtotal c = py_round s 2 /\
  taxes c = py_round (s * tax_rate) 2 /\
  fees c = py_round (s * service_fee_rate) 2 /\
  total c = py_round (s + s * tax_rate + s * service_fee_rate) 2.
Proof.
  intros s c. unfold c, build_cart, s.
  rewrite <- build_lines_subtotal.
  destruct (build_lines (items package) requirements) as [lines raw]. simpl.
  repeat split.
Qed.

Lemma recalculate_totals_gap (now : string) (cart : Cart) :
  lines_in_cents (cart_items cart) ->
  total_gap (recalculate_totals now cart) <= 1 # 200.
Proof.
  intros F. unfold total_gap, recalculate_totals. simpl.
  apply total_gap_of_cents. now apply sum_of_lines_cents.
Qed.

Lemma modify_cases (now : string) (cart : Cart) (modification : Modification) :
  (~ takes_effect cart modification /\
   cart_items (modify now cart modification) = cart_items cart /\
   subtotal (modify now cart modification) = subtotal cart /\
   total (modify now cart modification) = total cart) \/
  (takes_effect cart modification /\
   exists lines, modify now cart modification
                 = recalculate_totals now (set_cart_items cart lines) /\
                 (lines_in_cents (cart_items cart) -> lines_in_cents lines)).
Proof.
  unfold modify, takes_effect.
  destruct (String.eqb_spec (action modification) "swap") as [Ea | Na].
  - unfold swap_item.
    destruct (truthy (mod_item_id modification)) as [id |] eqn:Eid.
    2:{ left. split; [| auto]. intros (i & c & l & H & _). discriminate. }
    destruct (new_item modification) as [ni |] eqn:Eni.
    2:{ left. split; [| auto].
        intros (i & c & l & _ & _ & [H | [_ H]]); [congruence | now apply H]. }
    destruct (find_line (cart_items cart) id) as [[category line] |] eqn:Ef.
    2:{ left. split; [| auto]. intros (i & c & l & H & H' & _). congruence. }
    right. split.
    + exists id, category, line. repeat split; auto. right. split; [assumption | discriminate].
    + eexists. split; [reflexivity |]. intros F.
      apply lines_in_cents_set; [exact F | apply py_round_2_cents].
  - destruct (String.eqb_spec (action modification) "remove") as [Er | Nr].
    + unfold remove_item.
      destruct (truthy (mod_item_id modification)) as [id |] eqn:Eid.
      2:{ left. split; [| auto]. intros (i & c & l & H & _). discriminate. }
      destruct (find_line (cart_items cart) id) as [[category line] |] eqn:Ef.
      2:{ left. split; [| auto]. intros (i & c & l & H & H' & _). congruence. }
      right. split.
      * exists id, category, line. repeat split; auto.
      * eexists. split; [reflexivity |]. apply lines_in_cents_del.
    + left. split.
      * intros (i & c & l & _ & _ & [H | [H _]]); congruence.
      * destruct (String.eqb (action modification) "optimize"); auto.
Qed.

Lemma total_gap_same (c c' : Cart) :
  subtotal c' = subtotal c -> total c' = total c -> total_gap c' = total_gap c.
Proof. intros S T. unfold total_gap. now rewrite S, T. Qed.

Lemma reachable_invariant (cart : Cart) :
  reachable cart ->
  lines_in_cents (cart_items cart) /\ total_gap cart <= 169 # 16000.
Proof.
  induction 1 as [uuid now pct package requirements | now cart modification R [F G]].
  - destruct (build_cart_fields uuid now pct package requirements)
      as (Ei & Es & _ & _ & Et).
    split.
    + rewrite Ei. apply build_lines_in_cents.
    + unfold total_gap. rewrite Es, Et. apply total_gap_of_roundings.
  - destruct (modify_cases now cart modification)
      as [(_ & Ei & Es & Et) | [_ (lines & E & L)]].
    + rewrite Ei, (total_gap_same _ _ Es Et). split; assumption.
    + rewrite E. split; [apply L, F |].
      apply Qle_trans with (1 # 200); [| discriminate].
      apply recalculate_totals_gap. simpl. apply L, F.
Qed.

End CartTotals.

(** ** Cart lines *)

Section CartLines.
Import CartAgent.
Local Open Scope list_scope.

Lemma build_lines_append (items : dict Item) (requirements : Requirements)
    (lines : dict CartItem) (acc : Q) :
  NoDup (dict_keys lines ++ dict_keys items) ->
  fst (fold_left
         (fun acc ci =>
            let '(cart_items, subtotal) := acc in
            let '(category, item) := ci in
            let price := price item in
            let quantity := calculate_quantity category item requirements in
            let item_subtotal := price * inject_Z quantity in
            (dict_set cart_items category
               {| line_item := item; quantity := quantity; unit_price := price;
                  line_subtotal := py_round item_subtotal 2 |},
             subtotal + item_subtotal))
         items (lines, acc))
  = lines ++ map (line_of requirements) items.
Proof.
  revert lines acc. induction items as [| [category item] items IH]; intros lines acc N.
  - simpl. now rewrite app_nil_r.
  - simpl. rewrite dict_set_fresh.
    + rewrite IH.
      * now rewrite <- app_assoc.
      * rewrite dict_keys_app. simpl. rewrite <- app_assoc. exact N.
    + simpl in N. apply NoDup_remove_2 in N.
      intros I. apply N. apply in_or_app. now left.
Qed.

Lemma build_lines_map (items : dict Item) (requirements : Requirements) :
  NoDup (dict_keys items) ->
  fst (build_lines items requirements) = map (line_of requirements) items.
Proof.
  intros N. unfold build_lines. now rewrite build_lines_append.
Qed.

Lemma fold_Qplus_compat (xs ys : list Q) (a b : Q) :
  Forall2 Qeq xs ys -> a == b -> fold_left Qplus xs a == fold_left Qplus ys b.
Proof.
  intros F. revert a b. induction F as [| x y xs ys E F IH]; intros a b Eab; simpl.
  - exact Eab.
  - apply IH. now rewrite E, Eab.
Qed.

Lemma sum_of_rounded_cents (items : dict Item) (requirements : Requirements) :
  (forall entry, In entry items -> is_cents (price (snd entry))) ->
  py_sum (map line_subtotal (dict_values (map (line_of requirements) items)))
  == raw_subtotal items requirements.
Proof.
  intros C. unfold py_sum, raw_subtotal, py_sum, dict_values.
  apply fold_Qplus_compat; [| reflexivity].
  rewrite !map_map.
  induction items as [| entry items IH]; simpl; constructor.
  - apply py_round_2_of_cents, is_cents_times_Z, C. now left.
  - apply IH. intros e I. apply C. now right.
Qed.

Lemma find_line_none (lines : dict CartItem) (id : string) :
  (forall category line, In (category, line) lines -> item_id (line_item line) <> id) ->
  find_line lines id = None.
Proof.
  induction lines as [| [category line] lines IH]; intros H; simpl; [reflexivity |].
  destruct (String.eqb_spec (item_id (line_item line)) id) as [E | _].
  - exfalso. apply (H category line); [now left | exact E].
  - apply IH. intros c l I. apply (H c l). now right.
Qed.

Lemma find_line_first (before after : dict CartItem) (category id : string)
    (line : CartItem) :
  (forall c l, In (c, l) before -> item_id (line_item l) <> id) ->
  item_id (line_item line) = id ->
  find_line (before ++ (category, line) :: after) id = Some (category, line).
Proof.
  intros H E. induction before as [| [c l] before IH]; simpl.
  - rewrite E. now rewrite String.eqb_refl.
  - destruct (String.eqb_spec (item_id (line_item l)) id) as [E' | _].
    + exfalso. apply (H c l); [now left | exact E'].
    + apply IH. intros c' l' I. apply (H c' l'). now right.
Qed.

End CartLines.

(** ** Claims on the cart totals *)

Section CartClaims.
Import CartAgent Samples.
Local Open Scope list_scope.

(** C1, as the code has it: for every cart built by [build_cart] and then
    modified any number of times by swap, remove or optimize, the stored
    total is within 0.0105625 (half a cent for each of the two roundings)
    of the stored subtotal times (1 + 0.0875 + 0.025).  The bound 0.01 of
    the claim is met by [build_cart] when all unit prices are whole cents,
    is kept by every modification, and is met after every swap or remove
    that changes the cart. *)
Theorem cart_total_within_rounding :
  (forall cart, reachable cart -> total_gap cart <= 0.0105625) /\
  (forall uuid now pct package requirements,
      (forall entry, In entry (items package) -> is_cents (price (snd entry))) ->
      total_gap (build_cart uuid now pct package requirements) < 0.01) /\
  (forall now cart modification,
      reachable cart -> total_gap cart < 0.01 ->
      total_gap (modify now cart modification) < 0.01) /\
  (forall now cart modification,
      reachable cart -> takes_effect cart modification ->
      total_gap (modify now cart modification) < 0.01).
Proof.
  split; [| split; [| split]].
  - intros cart R. apply reachable_invariant in R as [_ G].
    apply Qle_trans with (169 # 16000); [exact G | discriminate].
  - intros uuid now pct package requirements C.
    destruct (build_cart_fields uuid now pct package requirements)
      as (_ & Es & _ & _ & Et).
    unfold total_gap. rewrite Es, Et.
    apply Qle_lt_trans with (1 # 200); [| reflexivity].
    apply total_gap_of_cents. unfold raw_subtotal.
    apply is_cents_sum, Forall_map, Forall_forall.
    intros entry I. apply is_cents_times_Z, C, I.
  - intros now cart modification R G.
    apply reachable_invariant in R as [F _].
    destruct (modify_cases now cart modification)
      as [(_ & _ & Es & Et) | [_ (lines & E & L)]].
    + now rewrite (total_gap_same _ _ Es Et).
    + rewrite E. apply Qle_lt_trans with (1 # 200); [| reflexivity].
      apply recalculate_totals_gap. simpl. apply L, F.
  - intros now cart modification R T.
    apply reachable_invariant in R as [F _].
    destruct (modify_cases now cart modification)
      as [(N & _) | [_ (lines & E & L)]]; [contradiction |].
    rewrite E. apply Qle_lt_trans with (1 # 200); [| reflexivity].
    apply recalculate_totals_gap. simpl. apply L, F.
Qed.

(** The bound at a cart built from one flight and then optimized. *)
Lemma cart_total_within_rounding_witness :
  total_gap (modify sample_now
               (build_cart sample_uuid sample_now 0.125
                  (package_with_items [("flights", sample_item "flight_1" "flights" 420.5 4.5)])
                  one_person_one_day)
               {| action := "optimize"; mod_item_id := None; new_item := None;
                  optimization_goal := Some "cost"; weights := None |})
  <= 0.0105625.
Proof.
  apply (proj1 cart_total_within_rounding).
  apply reach_modify, reach_build.
Defined.

(** C1 as stated fails for [build_cart]: one meeting room at 150.3147 for
    one day gives the subtotal 150.31 and the total 167.23, which is
    0.010125 away from 150.31 * 1.1125. *)
Lemma cart_total_gap_counterexample :
  exists cart,
    sample_cart [sample_item "room_1" "meeting_rooms" 150.3147 4.5] one_person_one_day
    = Some cart /\
    subtotal cart == 150.31 /\
    total cart == 167.23 /\
    ~ Qabs (total cart - subtotal cart * (1 + 0.0875 + 0.025)) < 0.01.
Proof.
  eexists. split; [vm_compute; reflexivity |].
  split; [reflexivity |]. split; [reflexivity |].
  vm_compute. discriminate.
Qed.

(** C6, as the code has it: in [build_cart] every stored amount is
    rounded to two decimals once, when it is stored.  A line subtotal is
    the rounded product of unit price and quantity; the subtotal, the
    taxes, the fees and the total of the cart are computed from the sum of
    the products that were not rounded, and rounded at the end.  When all
    unit prices are whole cents the subtotal equals the sum of the line
    subtotals. *)
Theorem build_cart_rounds_when_stored (uuid now : string) (pct : Q)
    (package : ScoredPackage) (requirements : Requirements) :
  NoDup (dict_keys (items package)) ->
  let cart := build_cart uuid now pct package requirements in
  let raw := raw_subtotal (items package) requirements in
  cart_items cart = map (line_of requirements) (items package) /\
  (forall category line,
      In (category, line) (cart_items cart) ->
      line_subtotal line = py_round (unit_price line * inject_Z (quantity line)) 2) /\
  subtotal cart = py_round raw 2 /\
  taxes cart = py_round (raw * 0.0875) 2 /\
  fees cart = py_round (raw * 0.025) 2 /\
  total cart = py_round (raw + raw * 0.0875 + raw * 0.025) 2 /\
  ((forall entry, In entry (items package) -> is_cents (price (snd entry))) ->
   subtotal cart == sum_of_lines cart).
Proof.
  intros N cart raw.
  destruct (build_cart_fields uuid now pct package requirements)
    as (Ei & Es & Etx & Ef & Et).
  fold cart in Ei, Es, Etx, Ef, Et. fold raw in Es, Etx, Ef, Et.
  rewrite (build_lines_map _ _ N) in Ei.
  split; [exact Ei |]. split.
  - intros category line I. rewrite Ei in I.
    apply in_map_iff in I as ([c i] & E & _).
    unfold line_of in E. simpl in E. injection E as _ <-. reflexivity.
  - repeat (split; [assumption |]).
    intros C. unfold sum_of_lines. rewrite Es, Ei.
    rewrite (sum_of_rounded_cents _ _ C). fold raw.
    apply py_round_2_of_cents. unfold raw, raw_subtotal.
    apply is_cents_sum, Forall_map, Forall_forall.
    intros entry I. apply is_cents_times_Z, C, I.
Qed.

(** The rounding at a package of two whole-cent items. *)
Lemma build_cart_rounds_when_stored_witness :
  subtotal (build_cart sample_uuid sample_now 0.125
              (package_with_items
                 [("flights", sample_item "flight_1" "flights" 420.5 4.5);
                  ("hotels", sample_item "hotel_1" "hotels" 189.99 4)])
              one_person_one_day)
  = py_round (raw_subtotal
                [("flights", sample_item "flight_1" "flights" 420.5 4.5);
                 ("hotels", sample_item "hotel_1" "hotels" 189.99 4)]
                one_person_one_day) 2.
Proof.
  apply (build_cart_rounds_when_stored sample_uuid sample_now 0.125
           (package_with_items
              [("flights", sample_item "flight_1" "flights" 420.5 4.5);
               ("hotels", sample_item "hotel_1" "hotels" 189.99 4)])
           one_person_one_day).
  simpl. repeat constructor; simpl; intuition discriminate.
Defined.

(** C6 as stated fails: with a flight and a hotel at 10.126 each, one
    attendee, one day, the two line subtotals are 10.13 and 10.13 (sum
    20.26) while the cart subtotal is round(20.252) = 20.25. *)
Lemma build_cart_subtotal_counterexample :
  exists cart,
    sample_cart [sample_item "flight_1" "flights" 10.126 4.5;
                 sample_item "hotel_1" "hotels" 10.126 4] one_person_one_day
    = Some cart /\
    map (fun entry => (fst entry, Qred (line_subtotal (snd entry)))) (cart_items cart)
    = [("flights", 1013 # 100); ("hotels", 1013 # 100);
       ("meeting_rooms", 0); ("catering", 0)] /\
    sum_of_lines cart == 20.26 /\
    subtotal cart == 20.25 /\
    ~ subtotal cart == sum_of_lines cart.
Proof.
  eexists. split; [vm_compute; reflexivity |].
  split; [vm_compute; reflexivity |].
  split; [reflexivity |]. split; [reflexivity |].
  vm_compute. discriminate.
Qed.

(** C10: the subtotal, the taxes, the fees and the total of a built cart
    (and its lines) are functions of the package and the requirements
    alone: two runs that draw different identifiers, clock readings and
    random savings percentages store the same amounts. *)
Theorem build_cart_totals_deterministic
    (package : ScoredPackage) (requirements : Requirements)
    (uuid1 now1 : string) (pct1 : Q) (uuid2 now2 : string) (pct2 : Q) :
  let run1 := build_cart uuid1 now1 pct1 package requirements in
  let run2 := build_cart uuid2 now2 pct2 package requirements in
  subtotal run1 = subtotal run2 /\
  taxes run1 = taxes run2 /\
  fees run1 = fees run2 /\
  total run1 = total run2 /\
  cart_items run1 = cart_items run2.
Proof.
  intros run1 run2.
  destruct (build_cart_fields uuid1 now1 pct1 package requirements)
    as (Ei & Es & Etx & Ef & Et).
  destruct (build_cart_fields uuid2 now2 pct2 package requirements)
    as (Ei' & Es' & Etx' & Ef' & Et').
  unfold run1, run2.
  rewrite Ei, Es, Etx, Ef, Et, Ei', Es', Etx', Ef', Et'. repeat split.
Qed.

(** The random draw does reach the cart, in the savings estimate only. *)
Lemma build_cart_savings_follow_the_draw :
  let package := package_with_items [("flights", sample_item "flight_1" "flights" 420.5 4.5)] in
  savings (build_cart sample_uuid sample_now 0.10 package one_person_one_day)
  <> savings (build_cart sample_uuid sample_now 0.15 package one_person_one_day).
Proof. vm_compute. discriminate. Qed.

(** C7, as the code has it.  A swap or a remove whose [item_id] is the
    identifier of no cart line returns the cart as it was, and raises
    nothing; so does a swap that carries no [item_id] or no [new_item].
    A swap with a non-empty [item_id] and a [new_item] replaces the item
    of the first line with that identifier, keeps the quantity of the
    line, stores as its subtotal the new unit price times that quantity
    rounded to two decimals, and recomputes the totals of the cart from
    the line subtotals. *)
Theorem swap_and_remove_behaviour (now : string) (cart : Cart) (modification : Modification) :
  ((action modification = "swap" \/ action modification = "remove") ->
   (forall category line,
       In (category, line) (cart_items cart) ->
       mod_item_id modification <> Some (item_id (line_item line))) ->
   modify now cart modification = cart) /\
  (action modification = "swap" ->
   truthy (mod_item_id modification) = None \/ new_item modification = None ->
   modify now cart modification = cart) /\
  (forall id replacement before category line after,
      action modification = "swap" ->
      mod_item_id modification = Some id -> id <> EmptyString ->
      new_item modification = Some replacement ->
      NoDup (dict_keys (cart_items cart)) ->
      cart_items cart = before ++ (category, line) :: after ->
      item_id (line_item line) = id ->
      (forall c l, In (c, l) before -> item_id (line_item l) <> id) ->
      let result := modify now cart modification in
      cart_items result
      = before
        ++ (category,
            {| line_item := replacement;
               quantity := quantity line;
               unit_price := price replacement;
               line_subtotal := py_round (price replacement * inject_Z (quantity line)) 2 |})
        :: after /\
      subtotal result = py_round (sum_of_lines result) 2 /\
      taxes result = py_round (sum_of_lines result * 0.0875) 2 /\
      fees result = py_round (sum_of_lines result * 0.025) 2 /\
      total result
      = py_round (sum_of_lines result + sum_of_lines result * 0.0875
                  + sum_of_lines result * 0.025) 2 /\
      cart_id result = cart_id cart /\
      savings result = savings cart /\
      created_at result = created_at cart /\
      modified_at result = Some now).
Proof.
  split; [| split].
  - intros A H.
    assert (F : forall id, truthy (mod_item_id modification) = Some id ->
                           find_line (cart_items cart) id = None).
    { intros id T. apply find_line_none. intros c l I E.
      apply (H c l I). unfold truthy in T.
      destruct (mod_item_id modification) as [[| a s] |]; try discriminate.
      injection T as <-. now rewrite E. }
    unfold modify. destruct A as [A | A]; rewrite A; simpl.
    + unfold swap_item.
      destruct (truthy (mod_item_id modification)) as [id |] eqn:T; [| reflexivity].
      destruct (new_item modification); [| reflexivity].
      now rewrite (F id eq_refl).
    + unfold remove_item.
      destruct (truthy (mod_item_id modification)) as [id |] eqn:T; [| reflexivity].
      now rewrite (F id eq_refl).
  - intros A G. unfold modify. rewrite A. simpl. unfold swap_item.
    destruct G as [G | G]; rewrite G; [reflexivity |].
    destruct (truthy (mod_item_id modification)); reflexivity.
  - intros id replacement before category line after A Eid Hne Eni N Ei El Hb result.
    assert (T : truthy (mod_item_id modification) = Some id).
    { rewrite Eid. destruct id; [congruence | reflexivity]. }
    assert (R : result
              = recalculate_totals now
                  (set_cart_items cart
                     (before
                      ++ (category,
                          {| line_item := replacement;
                             quantity := quantity line;
                             unit_price := price replacement;
                             line_subtotal :=
                               py_round (price replacement * inject_Z (quantity line)) 2 |})
                      :: after))).
    { unfold result, modify. rewrite A. simpl. unfold swap_item.
      rewrite T, Eni, Ei, (find_line_first before after category id line Hb El).
      rewrite dict_set_at; [reflexivity |].
      rewrite Ei, dict_keys_app in N. simpl in N.
      apply NoDup_remove_2 in N. intros I. apply N, in_or_app. now left. }
    rewrite R. unfold sum_of_lines. simpl. repeat split.
Qed.

(** The replacement at a cart with a flight line, swapped for a cheaper
    flight. *)
Lemma swap_and_remove_behaviour_witness :
  let cart :=
    build_cart sample_uuid sample_now 0.125
      (package_with_items [("flights", sample_item "flight_1" "flights" 420.5 4.5)])
      {| attendees := Some 50%Z; budget := Some 60000; duration := Some "3 days";
         location := Some "Miami"; origin := None |} in
  let result :=
    modify sample_now cart
      {| action := "swap"; mod_item_id := Some "flight_1";
         new_item := Some (sample_item "flight_2" "flights" 9000 4);
         optimization_goal := None; weights := None |} in
  cart_items result
  = [("flights",
      {| line_item := sample_item "flight_2" "flights" 9000 4;
         quantity := 50;
         unit_price := 9000;
         line_subtotal := py_round (9000 * inject_Z 50) 2 |})].
Proof.
  intros cart result.
  refine (proj1 (proj2 (proj2 (swap_and_remove_behaviour sample_now cart _))
                  "flight_1" (sample_item "flight_2" "flights" 9000 4) []
                  "flights"
                  {| line_item := sample_item "flight_1" "flights" 420.5 4.5;
                     quantity := 50; unit_price := 420.5;
                     line_subtotal := py_round (420.5 * inject_Z 50) 2 |}
                  [] _ _ _ _ _ _ _ _)); try reflexivity.
  - discriminate.
  - simpl. repeat constructor. simpl. tauto.
  - intros c l [].
Defined.

(** C7 as stated fails for a swap that names a line of the cart and
    carries no [new_item] (the request model of the API has a
    [new_item_id] and no [new_item]): the line is not replaced, the cart
    comes back as it was. *)
Lemma swap_without_new_item_counterexample :
  let cart :=
    build_cart sample_uuid sample_now 0.125
      (package_with_items [("flights", sample_item "flight_1" "flights" 420.5 4.5)])
      one_person_one_day in
  let modification :=
    {| action := "swap"; mod_item_id := Some "flight_1"; new_item := None;
       optimization_goal := None; weights := None |} in
  (exists line, In ("flights", line) (cart_items cart) /\
                mod_item_id modification = Some (item_id (line_item line))) /\
  modify sample_now cart modification = cart /\
  map (fun entry => item_id (line_item (snd entry)))
      (cart_items (modify sample_now cart modification)) = ["flight_1"].
Proof.
  intros cart modification. split; [| split; reflexivity].
  eexists. split; [left; reflexivity | reflexivity].
Qed.

End CartClaims.

(** ** The stable sort *)

Section SortFacts.
Context {A : Type} (key : A -> Q).
Local Open Scope list_scope.

Lemma insert_desc_perm (x : A) (l : list A) :
  Permutation (x :: l) (insert_desc key x l).
Proof.
  induction l as [| y l IH]; simpl; [reflexivity |].
  destruct (Qle_bool (key y) (key x)); [reflexivity |].
  rewrite perm_swap. now apply perm_skip.
Qed.

Lemma sort_desc_perm (l : list A) : Permutation l (sort_desc key l).
Proof.
  induction l as [| x l IH]; simpl; [constructor |].
  rewrite <- insert_desc_perm. now apply perm_skip.
Qed.

Lemma insert_desc_sorted (x : A) (l : list A) :
  StronglySorted (descending key) l -> StronglySorted (descending key) (insert_desc key x l).
Proof.
  induction 1 as [| y l S IH F]; simpl.
  - constructor; constructor.
  - destruct (Qle_bool_cases (key y) (key x)) as [L | G].
    + constructor; [constructor; assumption |].
      constructor; [exact L |].
      eapply Forall_impl; [| exact F]. unfold descending. intros z Hz.
      now apply Qle_trans with (key y).
    + constructor; [exact IH |].
      apply (Permutation_Forall (insert_desc_perm x l)).
      constructor; [unfold descending; now apply Qlt_le_weak | exact F].
Qed.

Lemma sort_desc_sorted (l : list A) : StronglySorted (descending key) (sort_desc key l).
Proof.
  induction l as [| x l IH]; simpl; [constructor | now apply insert_desc_sorted].
Qed.

Lemma insert_desc_filter (s : Q) (x : A) (l : list A) :
  filter (fun a => Qeq_bool (key a) s) (insert_desc key x l)
  = filter (fun a => Qeq_bool (key a) s) (x :: l).
Proof.
  induction l as [| y l IH]; simpl; [reflexivity |].
  destruct (Qle_bool_cases (key y) (key x)) as [L | G]; [reflexivity |].
  simpl. rewrite IH. simpl.
  destruct (Qeq_bool_cases (key x) s) as [Ex | Nx]; [| reflexivity].
  destruct (Qeq_bool_cases (key y) s) as [Ey | Ny]; [| reflexivity].
  exfalso. rewrite Ex, Ey in G. now apply Qlt_irrefl in G.
Qed.

Lemma sort_desc_stable (s : Q) (l : list A) :
  filter (fun a => Qeq_bool (key a) s) (sort_desc key l)
  = filter (fun a => Qeq_bool (key a) s) l.
Proof.
  induction l as [| x l IH]; simpl; [reflexivity |].
  rewrite insert_desc_filter. simpl. now rewrite IH.
Qed.

Lemma sorted_adjacent (l : list A) (i : nat) (a b : A) :
  StronglySorted (descending key) l ->
  nth_error l i = Some a -> nth_error l (S i) = Some b -> key b <= key a.
Proof.
  intros S. revert i. induction S as [| x l S IH F]; intros i Ha Hb.
  - destruct i; discriminate.
  - destruct i as [| i].
    + injection Ha as <-. rewrite Forall_forall in F.
      apply F. apply (nth_error_In l 0 Hb).
    + exact (IH i Ha Hb).
Qed.

Lemma sorted_head_max (a b : A) (l : list A) :
  StronglySorted (descending key) (a :: l) -> In b (a :: l) -> key b <= key a.
Proof.
  intros S [<- | I]; [apply Qle_refl |].
  inversion S as [| ? ? _ F]; subst. rewrite Forall_forall in F. now apply F.
Qed.

End SortFacts.

Lemma nth_error_enumerate {A : Type} (l : list A) (start i : nat) :
  nth_error (enumerate start l) i
  = option_map (fun x => ((start + i)%nat, x)) (nth_error l i).
Proof.
  revert start i. induction l as [| x l IH]; intros start [| i]; simpl; try reflexivity.
  - now rewrite Nat.add_0_r.
  - rewrite IH. now rewrite Nat.add_succ_r.
Qed.

Lemma map_snd_enumerate {A : Type} (l : list A) (start : nat) :
  map snd (enumerate start l) = l.
Proof.
  revert start. induction l as [| x l IH]; intros start; simpl; [reflexivity |].
  now rewrite IH.
Qed.

(** ** Scored packages *)

Section ScoredPackages.
Import RankingAgent.
Local Open Scope list_scope.

(** What [_score_package] has computed when it returns. *)
Lemma score_package_inv (uuid : string) (pkg : dict Item) (requirements : Requirements)
    (custom_weights : option CustomWeights) (sp : ScoredPackage) :
  score_package uuid pkg requirements custom_weights = Some sp ->
  exists cs bd read terms,
    score_categories pkg requirements custom_weights [] [] = Some (cs, bd) /\
    all_numbers (map (fun cat => dict_get_default (importance_for custom_weights) cat (Some 0))
                     (dict_keys cs)) = Some read /\
    all_numbers
      (map (fun cat =>
              match dict_get_default (importance_for custom_weights) cat (Some 25) with
              | Some weight =>
                  Some (dict_get_default cs cat 0
                        * (weight / (if Qeq_bool (py_sum read) 0 then 100 else py_sum read)))
              | None => None
              end)
           (dict_keys cs)) = Some terms /\
    sp = {| package_id := "pkg_" ++ prefix_of 8 uuid;
            final_score := py_round (py_sum terms) 2;
            category_scores := map (fun c => (fst c, py_round (snd c) 2)) cs;
            items := pkg;
            total_cost := py_round (py_sum (map price (dict_values pkg))) 2;
            explanation :=
              generate_explanation cs bd requirements
                (py_sum (map price (dict_values pkg))) (importance_for custom_weights);
            pkg_rank := None |}.
Proof.
  unfold score_package.
  destruct (score_categories pkg requirements custom_weights [] []) as [[cs bd] |];
    [| discriminate].
  cbv zeta.
  destruct (all_numbers
              (map (fun cat => dict_get_default (importance_for custom_weights) cat (Some 0))
                   (dict_keys cs))) as [read |] eqn:R; [| discriminate].
  match goal with
  | |- match ?t with _ => _ end = _ -> _ => destruct t as [terms |] eqn:T; [| discriminate]
  end.
  intros E. injection E as <-. exists cs, bd, read, terms. repeat split; assumption.
Qed.

Lemma score_package_shape (uuid : string) (pkg : dict Item) (requirements : Requirements)
    (custom_weights : option CustomWeights) (sp : ScoredPackage) :
  score_package uuid pkg requirements custom_weights = Some sp ->
  pkg_rank sp = None /\ items sp = pkg.
Proof.
  intros E. apply score_package_inv in E as (cs & bd & read & terms & _ & _ & _ & ->).
  split; reflexivity.
Qed.

Lemma score_packages_shape (uuids : nat -> string) (i : nat) (pkgs : list (dict Item))
    (requirements : Requirements) (custom_weights : option CustomWeights)
    (scored : list ScoredPackage) :
  score_packages uuids i pkgs requirements custom_weights = Some scored ->
  Forall (fun sp => pkg_rank sp = None) scored /\ map items scored = pkgs.
Proof.
  revert i scored. induction pkgs as [| pkg pkgs IH]; intros i scored; simpl.
  - intros E. injection E as <-. split; [constructor | reflexivity].
  - destruct (score_package (uuids i) pkg requirements custom_weights) as [sp |] eqn:Esp;
      [| discriminate].
    destruct (score_packages uuids (S i) pkgs requirements custom_weights) as [rest |] eqn:Er;
      [| discriminate].
    intros E. injection E as <-.
    destruct (score_package_shape _ _ _ _ _ Esp) as [R I].
    destruct (IH _ _ Er) as [F M].
    split; [constructor; assumption | simpl; now rewrite I, M].
Qed.

Lemma unranked_of_unranked (p : ScoredPackage) : pkg_rank p = None -> unranked p = p.
Proof. destruct p; simpl. intros ->. reflexivity. Qed.

Lemma map_unranked_id (l : list ScoredPackage) :
  Forall (fun sp => pkg_rank sp = None) l -> map unranked l = l.
Proof.
  induction 1 as [| p l R F IH]; simpl; [reflexivity |].
  now rewrite IH, unranked_of_unranked.
Qed.

Lemma rank_output (uuids : nat -> string) (items : list Item)
    (requirements : Requirements) (custom_weights : option CustomWeights)
    (out : list ScoredPackage) :
  rank uuids items requirements custom_weights = Some out ->
  exists generated,
    rank_scored uuids items requirements custom_weights = Some generated /\
    out = map (fun rp => set_rank (snd rp) (Some (fst rp)))
              (enumerate 1 (sort_desc final_score generated)) /\
    map unranked out = sort_desc final_score generated.
Proof.
  unfold rank.
  destruct (rank_scored uuids items requirements custom_weights) as [generated |] eqn:G;
    [| discriminate].
  intros E. injection E as <-. exists generated. split; [reflexivity |].
  split; [reflexivity |].
  rewrite map_map. simpl.
  change (fun x : nat * ScoredPackage => unranked (set_rank (snd x) (Some (fst x))))
    with (fun x : nat * ScoredPackage => unranked (snd x)).
  rewrite <- (map_map snd unranked), map_snd_enumerate.
  apply map_unranked_id.
  unfold rank_scored in G. apply score_packages_shape in G as [F _].
  apply (Permutation_Forall (sort_desc_perm final_score generated) F).
Qed.

Lemma rank_nth (generated : list ScoredPackage) (i : nat) (p : ScoredPackage) :
  nth_error (map (fun rp => set_rank (snd rp) (Some (fst rp)))
                 (enumerate 1 (sort_desc final_score generated))) i = Some p ->
  exists p0, nth_error (sort_desc final_score generated) i = Some p0 /\
             p = set_rank p0 (Some (S i)).
Proof.
  rewrite nth_error_map, nth_error_enumerate.
  destruct (nth_error (sort_desc final_score generated) i) as [p0 |]; [| discriminate].
  simpl. intros E. injection E as <-. now exists p0.
Qed.

(** C2: the list [rank] returns is in descending order of final score,
    the rank of every package is its position counted from 1, and the
    packages of equal final score are in the order in which they were
    generated. *)
Theorem rank_sorted_numbered_stable (uuids : nat -> string) (items : list Item)
    (requirements : Requirements) (custom_weights : option CustomWeights)
    (out : list ScoredPackage) :
  rank uuids items requirements custom_weights = Some out ->
  (forall i p q,
      nth_error out i = Some p -> nth_error out (S i) = Some q ->
      final_score q <= final_score p) /\
  (forall i p, nth_error out i = Some p -> pkg_rank p = Some (S i)) /\
  (exists generated,
      rank_scored uuids items requirements custom_weights = Some generated /\
      Permutation generated (map unranked out) /\
      forall s, with_score s (map unranked out) = with_score s generated).
Proof.
  intros R. destruct (rank_output _ _ _ _ _ R) as (generated & G & E & U).
  split; [| split].
  - intros i p q Hp Hq. rewrite E in Hp, Hq.
    apply rank_nth in Hp as (p0 & Hp & ->). apply rank_nth in Hq as (q0 & Hq & ->).
    simpl.
    exact (sorted_adjacent final_score _ i p0 q0 (sort_desc_sorted final_score generated) Hp Hq).
  - intros i p Hp. rewrite E in Hp. apply rank_nth in Hp as (p0 & _ & ->). reflexivity.
  - exists generated. split; [exact G |]. rewrite U. split.
    + apply sort_desc_perm.
    + intros s. unfold with_score. apply sort_desc_stable.
Qed.

End ScoredPackages.

(** ** Package generation *)

Section PackageGeneration.
Import RankingAgent.
Local Open Scope list_scope.

Lemma group_by_category_get (discovered : list Item) (acc : dict (list Item))
    (cat : string) :
  dict_get
    (fold_left
       (fun grouped item =>
          let category := Model.category item in
          let grouped :=
            match dict_get grouped category with
            | None => dict_set grouped category []
            | Some _ => grouped
            end in
          dict_set grouped category (dict_get_default grouped category [] ++ [item]))
       discovered acc) cat
  = match dict_get acc cat with
    | Some l0 => Some (l0 ++ of_category cat discovered)
    | None =>
        match of_category cat discovered with
        | [] => None
        | found => Some found
        end
    end.
Proof.
  revert acc. induction discovered as [| item discovered IH]; intros acc; simpl.
  - destruct (dict_get acc cat); [now rewrite app_nil_r | reflexivity].
  - rewrite IH. clear IH.
    destruct (String.eqb_spec (category item) cat) as [-> | N].
    + rewrite dict_get_set_same. unfold dict_get_default.
      destruct (dict_get acc cat) as [l0 |] eqn:E.
      * rewrite E. now rewrite <- app_assoc.
      * rewrite dict_get_set_same. reflexivity.
    + rewrite dict_get_set_other by exact N.
      destruct (dict_get acc (category item)); [reflexivity |].
      now rewrite dict_get_set_other by exact N.
Qed.

Lemma fill_step_get (requirements : Requirements) (cats : list string)
    (g : dict (list Item)) (cat : string) :
  dict_get
    (fold_left
       (fun grouped category =>
          match dict_get grouped category with
          | Some (_ :: _) => grouped
          | _ => dict_set grouped category [create_placeholder_item category requirements]
          end)
       cats g) cat
  = if in_dec string_dec cat cats then
      Some (match dict_get g cat with
            | Some (x :: l) => x :: l
            | _ => [create_placeholder_item cat requirements]
            end)
    else dict_get g cat.
Proof.
  revert g. induction cats as [| c cats IH]; intros g; [reflexivity |].
  simpl fold_left. rewrite IH. clear IH.
  set (g' := match dict_get g c with
             | Some (_ :: _) => g
             | _ => dict_set g c [create_placeholder_item c requirements]
             end).
  assert (Same : c = cat ->
            dict_get g' cat
            = Some (match dict_get g cat with
                    | Some (x :: l) => x :: l
                    | _ => [create_placeholder_item cat requirements]
                    end)).
  { intros <-. unfold g'. destruct (dict_get g c) as [[| x l] |] eqn:E.
    - apply dict_get_set_same.
    - exact E.
    - apply dict_get_set_same. }
  assert (Other : c <> cat -> dict_get g' cat = dict_get g cat).
  { intros N. unfold g'. destruct (dict_get g c) as [[| x l] |];
      try reflexivity; now apply dict_get_set_other. }
  destruct (in_dec string_dec cat (c :: cats)) as [I | NI];
    destruct (in_dec string_dec cat cats) as [I' | NI'].
  - destruct (string_dec c cat) as [E | N].
    + rewrite (Same E). destruct (dict_get g cat) as [[| x l] |]; reflexivity.
    + now rewrite (Other N).
  - destruct I as [E | I]; [| contradiction]. exact (Same E).
  - exfalso. apply NI. now right.
  - apply Other. intros E. apply NI. now left.
Qed.

Lemma filled_get (discovered : list Item) (requirements : Requirements) (cat : string) :
  In cat categories ->
  dict_get (fill_missing (group_by_category discovered) requirements) cat
  = Some (candidates cat discovered requirements).
Proof.
  intros I. unfold fill_missing. rewrite fill_step_get.
  destruct (in_dec string_dec cat categories) as [_ | N]; [| contradiction].
  unfold group_by_category. rewrite group_by_category_get. simpl.
  unfold candidates. destruct (of_category cat discovered); reflexivity.
Qed.

Lemma candidates_not_empty (cat : string) (discovered : list Item)
    (requirements : Requirements) :
  exists x l, candidates cat discovered requirements = x :: l.
Proof.
  unfold candidates. destruct (of_category cat discovered) as [| x l]; eauto.
Qed.

Lemma rank_packages_eq (discovered : list Item) (requirements : Requirements) :
  rank_packages discovered requirements
  = firstn 50
      (map (fun combo => combine categories combo)
           (product (map (fun cat => candidates cat discovered requirements) categories))).
Proof.
  unfold rank_packages, generate_packages.
  set (g := fill_missing (group_by_category discovered) requirements).
  assert (G : forall cat, In cat categories ->
                dict_get_default g cat [] = candidates cat discovered requirements).
  { intros cat I. unfold dict_get_default, g. now rewrite filled_get. }
  unfold categories in *. simpl map.
  rewrite !G by (simpl; tauto).
  destruct (candidates_not_empty "flights" discovered requirements) as (a & la & ->).
  destruct (candidates_not_empty "hotels" discovered requirements) as (b & lb & ->).
  destruct (candidates_not_empty "meeting_rooms" discovered requirements) as (c & lc & ->).
  destruct (candidates_not_empty "catering" discovered requirements) as (d & ld & ->).
  reflexivity.
Qed.

Lemma in_product {A : Type} (ls : list (list A)) (combo : list A) :
  In combo (product ls) -> Forall2 (fun x l => In x l) combo ls.
Proof.
  revert combo. induction ls as [| l ls IH]; intros combo; simpl.
  - intros [<- | []]. constructor.
  - intros I. apply in_flat_map in I as (x & Ix & I).
    apply in_map_iff in I as (rest & <- & Ir). constructor; [exact Ix | now apply IH].
Qed.

Lemma product_not_empty {A : Type} (ls : list (list A)) :
  Forall (fun l => l <> []) ls -> product ls <> [].
Proof.
  induction 1 as [| l ls N F IH]; simpl; [discriminate |].
  destruct l as [| x l]; [congruence |]. simpl.
  destruct (product ls) as [| combo rest]; [congruence |]. discriminate.
Qed.

Lemma in_firstn {A : Type} (n : nat) (l : list A) (x : A) :
  In x (firstn n l) -> In x l.
Proof.
  revert l. induction n as [| n IH]; intros [| y l]; simpl; try tauto.
  intros [E | I]; [now left | right; now apply IH].
Qed.

Lemma rank_packages_shape (discovered : list Item) (requirements : Requirements)
    (pkg : dict Item) :
  In pkg (rank_packages discovered requirements) ->
  exists a b c d,
    pkg = [("flights", a); ("hotels", b); ("meeting_rooms", c); ("catering", d)] /\
    In a (candidates "flights" discovered requirements) /\
    In b (candidates "hotels" discovered requirements) /\
    In c (candidates "meeting_rooms" discovered requirements) /\
    In d (candidates "catering" discovered requirements).
Proof.
  rewrite rank_packages_eq. intros I. apply in_firstn in I.
  apply in_map_iff in I as (combo & <- & I). apply in_product in I.
  unfold categories in I. simpl in I.
  inversion I as [| a ? ra ? Ha Ia]; subst.
  inversion Ia as [| b ? rb ? Hb Ib]; subst.
  inversion Ib as [| c ? rc ? Hc Ic]; subst.
  inversion Ic as [| d ? rd ? Hd Id]; subst.
  inversion Id; subst.
  exists a, b, c, d. repeat split; assumption.
Qed.

Lemma rank_packages_not_empty (discovered : list Item) (requirements : Requirements) :
  rank_packages discovered requirements <> [].
Proof.
  rewrite rank_packages_eq.
  assert (P : product (map (fun cat => candidates cat discovered requirements) categories)
              <> []).
  { apply product_not_empty, Forall_map, Forall_forall. intros cat _.
    destruct (candidates_not_empty cat discovered requirements) as (x & l & ->).
    discriminate. }
  destruct (product _) as [| combo rest]; [congruence |]. discriminate.
Qed.

End PackageGeneration.

(** ** Ranking as a whole *)

Section Ranking.
Import RankingAgent.
Local Open Scope list_scope.

Lemma get_default_number (d : dict (option Q)) (k : string) (x y : Q) :
  is_number (dict_get_default d k (Some x)) = is_number (dict_get_default d k (Some y)).
Proof. unfold dict_get_default. destruct (dict_get d k); reflexivity. Qed.

(** The loop over four components returns when the four weights are
    numbers, and raises when one is None. *)
Lemma weigh_read_four (n1 n2 n3 n4 : string) (s1 s2 s3 s4 : Q) (w1 w2 w3 w4 : option Q) :
  (is_number w1 && is_number w2 && is_number w3 && is_number w4 = true ->
   exists v1 v2 v3 v4,
     w1 = Some v1 /\ w2 = Some v2 /\ w3 = Some v3 /\ w4 = Some v4 /\
     weigh_read [(n1, s1, w1); (n2, s2, w2); (n3, s3, w3); (n4, s4, w4)]
     = Some (weigh [(n1, s1, v1); (n2, s2, v2); (n3, s3, v3); (n4, s4, v4)])) /\
  (is_number w1 && is_number w2 && is_number w3 && is_number w4 = false ->
   weigh_read [(n1, s1, w1); (n2, s2, w2); (n3, s3, w3); (n4, s4, w4)] = None).
Proof.
  unfold weigh_read.
  destruct w1 as [v1 |], w2 as [v2 |], w3 as [v3 |], w4 as [v4 |]; simpl;
    split; intros E; try discriminate; try reflexivity.
  exists v1, v2, v3, v4. repeat split; reflexivity.
Qed.

(** [_score_item] on one of the four categories: it returns when the
    weights it reads are numbers, and raises when one is None. *)
Lemma score_item_outcome (item : Item) (category : string) (requirements : Requirements)
    (custom_weights : option CustomWeights) :
  attendees requirements <> Some 0%Z ->
  (numbers_in category custom_weights = true ->
   exists score breakdown,
     score_item item category requirements custom_weights = Some (score, breakdown)) /\
  (numbers_in category custom_weights = false ->
   score_item item category requirements custom_weights = None).
Proof.
  intros N. unfold score_item, numbers_in, read_keys.
  set (weights := weights_for category custom_weights).
  assert (Keys : forall k1 d1 k2 d2 k3 d3 k4 d4,
             forallb (fun key => is_number (dict_get_default weights key (Some 0)))
               [k1; k2; k3; k4]
             = is_number (dict_get_default weights k1 (Some d1))
               && is_number (dict_get_default weights k2 (Some d2))
               && is_number (dict_get_default weights k3 (Some d3))
               && is_number (dict_get_default weights k4 (Some d4))).
  { intros. cbn [forallb]. rewrite andb_true_r, !andb_assoc.
    rewrite (get_default_number weights k1 0 d1), (get_default_number weights k2 0 d2),
      (get_default_number weights k3 0 d3), (get_default_number weights k4 0 d4).
    reflexivity. }
  assert (Done : forall n1 n2 n3 n4 s1 s2 s3 s4 k1 d1 k2 d2 k3 d3 k4 d4,
             (forallb (fun key => is_number (dict_get_default weights key (Some 0)))
                [k1; k2; k3; k4] = true ->
              exists score breakdown,
                weigh_read [(n1, s1, dict_get_default weights k1 (Some d1));
                            (n2, s2, dict_get_default weights k2 (Some d2));
                            (n3, s3, dict_get_default weights k3 (Some d3));
                            (n4, s4, dict_get_default weights k4 (Some d4))]
                = Some (score, breakdown)) /\
             (forallb (fun key => is_number (dict_get_default weights key (Some 0)))
                [k1; k2; k3; k4] = false ->
              weigh_read [(n1, s1, dict_get_default weights k1 (Some d1));
                          (n2, s2, dict_get_default weights k2 (Some d2));
                          (n3, s3, dict_get_default weights k3 (Some d3));
                          (n4, s4, dict_get_default weights k4 (Some d4))]
              = None)).
  { intros. rewrite (Keys k1 d1 k2 d2 k3 d3 k4 d4).
    destruct (weigh_read_four n1 n2 n3 n4 s1 s2 s3 s4
                (dict_get_default weights k1 (Some d1)) (dict_get_default weights k2 (Some d2))
                (dict_get_default weights k3 (Some d3)) (dict_get_default weights k4 (Some d4)))
      as [A B].
    split; [| exact B].
    intros E. destruct (A E) as (v1 & v2 & v3 & v4 & _ & _ & _ & _ & ->).
    destruct (weigh _) as [s b]. eauto. }
  destruct (String.eqb category "flights"); [apply Done |].
  destruct (String.eqb category "hotels"); [apply Done |].
  destruct (String.eqb category "meeting_rooms").
  - set (required := match attendees requirements with Some a => a | None => 50%Z end).
    destruct (Z.leb required _); [apply Done |].
    destruct (Z.eqb_spec required 0) as [E | _]; [| apply Done].
    exfalso. unfold required in E.
    destruct (attendees requirements); [subst; now apply N | discriminate].
  - destruct (String.eqb category "catering"); [apply Done |].
    split; [| discriminate]. intros _. destruct (weigh _) as [s b]. eauto.
Qed.

Lemma score_item_returns (item : Item) (category : string) (requirements : Requirements)
    (custom_weights : option CustomWeights) :
  attendees requirements <> Some 0%Z ->
  numbers_in category custom_weights = true ->
  exists score breakdown,
    score_item item category requirements custom_weights = Some (score, breakdown).
Proof. intros N R. exact (proj1 (score_item_outcome _ _ _ _ N) R). Qed.

(** The first loop of [_score_package] on a package of the four
    categories. *)
Lemma score_categories_outcome (a b c d : Item) (requirements : Requirements)
    (custom_weights : option CustomWeights) :
  attendees requirements <> Some 0%Z ->
  (forallb (fun category => numbers_in category custom_weights) categories = true ->
   exists sf sh sm sc bd,
     score_categories
       [("flights", a); ("hotels", b); ("meeting_rooms", c); ("catering", d)]
       requirements custom_weights [] []
     = Some ([("flights", sf); ("hotels", sh); ("meeting_rooms", sm); ("catering", sc)],
             bd)) /\
  (forallb (fun category => numbers_in category custom_weights) categories = false ->
   score_categories
     [("flights", a); ("hotels", b); ("meeting_rooms", c); ("catering", d)]
     requirements custom_weights [] [] = None).
Proof.
  intros N. unfold score_categories. cbn [forallb categories].
  destruct (score_item_outcome a "flights" requirements custom_weights N) as [Ta Fa].
  destruct (numbers_in "flights" custom_weights);
    [| rewrite (Fa eq_refl); split; [discriminate | reflexivity]].
  destruct (Ta eq_refl) as (sa & ba & ->). clear Ta Fa.
  destruct (score_item_outcome b "hotels" requirements custom_weights N) as [Tb Fb].
  destruct (numbers_in "hotels" custom_weights);
    [| rewrite (Fb eq_refl); split; [discriminate | reflexivity]].
  destruct (Tb eq_refl) as (sb & bb & ->). clear Tb Fb.
  destruct (score_item_outcome c "meeting_rooms" requirements custom_weights N) as [Tc Fc].
  destruct (numbers_in "meeting_rooms" custom_weights);
    [| rewrite (Fc eq_refl); split; [discriminate | reflexivity]].
  destruct (Tc eq_refl) as (sc & bc & ->). clear Tc Fc.
  destruct (score_item_outcome d "catering" requirements custom_weights N) as [Td Fd].
  destruct (numbers_in "catering" custom_weights);
    [| rewrite (Fd eq_refl); split; [discriminate | reflexivity]].
  destruct (Td eq_refl) as (sd & bd & ->). clear Td Fd.
  split; [| discriminate]. intros _.
  exists sa, sb, sc, sd. eexists. reflexivity.
Qed.

(** [_score_package] on a package of the four categories returns when the
    custom weights hold numbers where they are read, and raises when they
    hold None there. *)
Lemma score_package_outcome (uuid : string) (a b c d : Item) (requirements : Requirements)
    (custom_weights : option CustomWeights) :
  attendees requirements <> Some 0%Z ->
  (numbers_where_read custom_weights = true ->
   score_package uuid
     [("flights", a); ("hotels", b); ("meeting_rooms", c); ("catering", d)]
     requirements custom_weights <> None) /\
  (numbers_where_read custom_weights = false ->
   score_package uuid
     [("flights", a); ("hotels", b); ("meeting_rooms", c); ("catering", d)]
     requirements custom_weights = None).
Proof.
  intros N. unfold numbers_where_read, score_package.
  destruct (score_categories_outcome a b c d requirements custom_weights N) as [T F].
  destruct (forallb (fun category => numbers_in category custom_weights) categories);
    [| rewrite (F eq_refl); split; [discriminate | reflexivity]].
  destruct (T eq_refl) as (sf & sh & sm & sc & bd & ->). clear T F.
  cbn [andb forallb categories dict_keys map fst]. cbv zeta.
  unfold dict_get_default.
  destruct (dict_get (importance_for custom_weights) "flights") as [[wf |] |];
    destruct (dict_get (importance_for custom_weights) "hotels") as [[wh |] |];
    destruct (dict_get (importance_for custom_weights) "meeting_rooms") as [[wm |] |];
    destruct (dict_get (importance_for custom_weights) "catering") as [[wc |] |];
    cbn [is_number andb all_numbers];
    (split; intros E; try discriminate E; try discriminate; reflexivity).
Qed.

Lemma score_package_returns (uuid : string) (a b c d : Item) (requirements : Requirements)
    (custom_weights : option CustomWeights) :
  attendees requirements <> Some 0%Z ->
  numbers_where_read custom_weights = true ->
  score_package uuid
    [("flights", a); ("hotels", b); ("meeting_rooms", c); ("catering", d)]
    requirements custom_weights <> None.
Proof. intros N R. exact (proj1 (score_package_outcome _ _ _ _ _ _ _ N) R). Qed.

Lemma score_packages_returns (uuids : nat -> string) (i : nat) (pkgs : list (dict Item))
    (requirements : Requirements) (custom_weights : option CustomWeights) :
  attendees requirements <> Some 0%Z ->
  numbers_where_read custom_weights = true ->
  Forall four_categories pkgs ->
  score_packages uuids i pkgs requirements custom_weights <> None.
Proof.
  intros N W F. revert i. induction F as [| pkg pkgs (a & b & c & d & ->) F IH];
    intros i; simpl; [discriminate |].
  pose proof (score_package_returns (uuids i) a b c d requirements custom_weights N W) as R.
  destruct (score_package (uuids i) _ requirements custom_weights); [| congruence].
  specialize (IH (S i)).
  destruct (score_packages uuids (S i) pkgs requirements custom_weights);
    [discriminate | congruence].
Qed.

Lemma score_packages_raises (uuids : nat -> string) (i : nat) (pkgs : list (dict Item))
    (requirements : Requirements) (custom_weights : option CustomWeights) :
  attendees requirements <> Some 0%Z ->
  numbers_where_read custom_weights = false ->
  Forall four_categories pkgs -> pkgs <> [] ->
  score_packages uuids i pkgs requirements custom_weights = None.
Proof.
  intros N W F NE. destruct F as [| pkg pkgs (a & b & c & d & ->) F]; [congruence |].
  simpl.
  now rewrite (proj2 (score_package_outcome (uuids i) a b c d requirements custom_weights N) W).
Qed.

Lemma rank_packages_four (discovered : list Item) (requirements : Requirements) :
  Forall four_categories (rank_packages discovered requirements).
Proof.
  apply Forall_forall. intros pkg I.
  destruct (rank_packages_shape _ _ _ I) as (a & b & c & d & -> & _).
  exists a, b, c, d. reflexivity.
Qed.

Lemma score_packages_members (uuids : nat -> string) (i : nat) (pkgs : list (dict Item))
    (requirements : Requirements) (custom_weights : option CustomWeights)
    (scored : list ScoredPackage) (sp : ScoredPackage) :
  score_packages uuids i pkgs requirements custom_weights = Some scored ->
  In sp scored ->
  exists uuid pkg,
    In pkg pkgs /\ score_package uuid pkg requirements custom_weights = Some sp.
Proof.
  revert i scored. induction pkgs as [| pkg pkgs IH]; intros i scored; simpl.
  - intros E. injection E as <-. intros [].
  - destruct (score_package (uuids i) pkg requirements custom_weights) as [sp0 |] eqn:Esp;
      [| discriminate].
    destruct (score_packages uuids (S i) pkgs requirements custom_weights) as [rest |] eqn:Er;
      [| discriminate].
    intros E. injection E as <-. intros [<- | I].
    + exists (uuids i), pkg. split; [now left | exact Esp].
    + destruct (IH _ _ Er I) as (u & p & Ip & Ep). exists u, p. split; [now right | exact Ep].
Qed.

(** [rank] returns, and returns at least one package, whenever the number
    of attendees is not 0 and the custom weights hold numbers where they
    are read. *)
Lemma rank_returns (uuids : nat -> string) (discovered : list Item)
    (requirements : Requirements) (custom_weights : option CustomWeights) :
  attendees requirements <> Some 0%Z ->
  numbers_where_read custom_weights = true ->
  exists top rest, rank uuids discovered requirements custom_weights = Some (top :: rest).
Proof.
  intros N W. unfold rank, rank_scored.
  pose proof (score_packages_returns uuids 0 (rank_packages discovered requirements)
                requirements custom_weights N W (rank_packages_four _ _)) as R.
  destruct (score_packages uuids 0 (rank_packages discovered requirements)
              requirements custom_weights) as [scored |] eqn:E; [| congruence].
  apply score_packages_shape in E as [_ M].
  pose proof (rank_packages_not_empty discovered requirements) as NE.
  destruct scored as [| sp scored]; [simpl in M; congruence |].
  pose proof (sort_desc_perm final_score (sp :: scored)) as P.
  destruct (sort_desc final_score (sp :: scored)) as [| top rest] eqn:S.
  - apply Permutation_sym, Permutation_nil in P. discriminate.
  - simpl. eauto.
Qed.

(** [rank] raises when the custom weights hold None where they are
    read. *)
Lemma rank_raises (uuids : nat -> string) (discovered : list Item)
    (requirements : Requirements) (custom_weights : option CustomWeights) :
  attendees requirements <> Some 0%Z ->
  numbers_where_read custom_weights = false ->
  rank uuids discovered requirements custom_weights = None.
Proof.
  intros N W. unfold rank, rank_scored.
  now rewrite (score_packages_raises uuids 0 _ requirements custom_weights N W
                 (rank_packages_four _ _) (rank_packages_not_empty _ _)).
Qed.

Lemma numbers_where_read_default : numbers_where_read None = true.
Proof. reflexivity. Qed.

Lemma rank_members (uuids : nat -> string) (discovered : list Item)
    (requirements : Requirements) (custom_weights : option CustomWeights)
    (out : list ScoredPackage) (p : ScoredPackage) :
  rank uuids discovered requirements custom_weights = Some out -> In p out ->
  exists uuid pkg,
    In pkg (rank_packages discovered requirements) /\
    score_package uuid pkg requirements custom_weights = Some (unranked p).
Proof.
  intros R I. destruct (rank_output _ _ _ _ _ R) as (generated & G & _ & U).
  assert (I' : In (unranked p) generated).
  { apply (Permutation_in _ (Permutation_sym (sort_desc_perm final_score generated))).
    rewrite <- U. now apply in_map. }
  exact (score_packages_members _ _ _ _ _ _ _ G I').
Qed.

Lemma rank_head_is_best (uuids : nat -> string) (discovered : list Item)
    (requirements : Requirements) (custom_weights : option CustomWeights)
    (top : ScoredPackage) (rest : list ScoredPackage) (p : ScoredPackage) :
  rank uuids discovered requirements custom_weights = Some (top :: rest) ->
  In p (top :: rest) -> final_score p <= final_score top.
Proof.
  intros R I. destruct (rank_output _ _ _ _ _ R) as (generated & _ & _ & U).
  pose proof (sort_desc_sorted final_score generated) as S.
  rewrite <- U in S. simpl in S.
  apply (sorted_head_max final_score (unranked top) (unranked p) (map unranked rest) S).
  change (unranked top :: map unranked rest) with (map unranked (top :: rest)).
  now apply in_map.
Qed.

Lemma score_categories_four (a b c d : Item) (requirements : Requirements)
    (custom_weights : option CustomWeights) (cs : dict Q)
    (bd : dict (dict BreakdownEntry)) :
  score_categories
    [("flights", a); ("hotels", b); ("meeting_rooms", c); ("catering", d)]
    requirements custom_weights [] [] = Some (cs, bd) ->
  exists sf sh sm sc,
    cs = [("flights", sf); ("hotels", sh); ("meeting_rooms", sm); ("catering", sc)].
Proof.
  unfold score_categories.
  destruct (score_item a "flights" requirements custom_weights) as [[sf bf] |];
    [| discriminate].
  destruct (score_item b "hotels" requirements custom_weights) as [[sh bh] |];
    [| discriminate].
  destruct (score_item c "meeting_rooms" requirements custom_weights) as [[sm bm] |];
    [| discriminate].
  destruct (score_item d "catering" requirements custom_weights) as [[sc bc] |];
    [| discriminate].
  intros E. injection E as <- _. exists sf, sh, sm, sc. reflexivity.
Qed.

(** With all the importance on flights the final score of a package is
    its flights score. *)
Lemma flights_only_final_score (uuid : string) (a b c d : Item)
    (requirements : Requirements) (cw : CustomWeights) (sp : ScoredPackage) :
  category_importance cw = Some (held flights_only) ->
  score_package uuid
    [("flights", a); ("hotels", b); ("meeting_rooms", c); ("catering", d)]
    requirements (Some cw) = Some sp ->
  final_score sp = category_score sp "flights".
Proof.
  intros Ci S.
  apply score_package_inv in S as (cs & bd & read & terms & E & R & T & ->).
  destruct (score_categories_four _ _ _ _ _ _ _ _ E) as (sf & sh & sm & sc & ->).
  unfold importance_for in R, T. rewrite Ci in R, T.
  vm_compute in R. injection R as <-.
  cbn in T. injection T as <-.
  unfold category_score. simpl.
  apply py_round_compat.
  unfold py_sum, dict_get_default. simpl.
  assert (One : 100 / (0 + 100 + 0 + 0 + 0) == 1) by reflexivity.
  assert (Zero : 0 / (0 + 100 + 0 + 0 + 0) == 0) by reflexivity.
  rewrite One, Zero. ring.
Qed.

(** The flights score a scored package stores is the rounded score of
    its flight. *)
Lemma flights_score_of_package (uuid : string) (a b c d : Item)
    (requirements : Requirements) (custom_weights : option CustomWeights)
    (sp : ScoredPackage) :
  score_package uuid
    [("flights", a); ("hotels", b); ("meeting_rooms", c); ("catering", d)]
    requirements custom_weights = Some sp ->
  exists score breakdown,
    score_item a "flights" requirements custom_weights = Some (score, breakdown) /\
    category_score sp "flights" = py_round score 2.
Proof.
  intros S.
  apply score_package_inv in S as (cs & bd & read & terms & E & _ & _ & ->).
  unfold score_categories in E.
  destruct (score_item a "flights" requirements custom_weights) as [[sf bf] |];
    [| discriminate].
  destruct (score_item b "hotels" requirements custom_weights) as [[sh bh] |];
    [| discriminate].
  destruct (score_item c "meeting_rooms" requirements custom_weights) as [[sm bm] |];
    [| discriminate].
  destruct (score_item d "catering" requirements custom_weights) as [[sc bc] |];
    [| discriminate].
  injection E as <- _. exists sf, bf. split; reflexivity.
Qed.

(** The packages of a ranking are the generated packages. *)
Lemma rank_holds_generated (uuids : nat -> string) (discovered : list Item)
    (requirements : Requirements) (custom_weights : option CustomWeights)
    (out : list ScoredPackage) :
  rank uuids discovered requirements custom_weights = Some out ->
  Permutation (map items out) (rank_packages discovered requirements).
Proof.
  intros R. destruct (rank_output _ _ _ _ _ R) as (generated & G & _ & U).
  unfold rank_scored in G. apply score_packages_shape in G as [_ M].
  rewrite <- M.
  assert (I : map items out = map items (map unranked out)).
  { rewrite map_map. apply map_ext. intros p. destruct p; reflexivity. }
  rewrite I, U. apply Permutation_map, Permutation_sym, sort_desc_perm.
Qed.

End Ranking.

(** ** Claims on the ranking *)

Section RankingClaims.
Import RankingAgent CartAgent RetreatPlannerCrew Samples.
Local Open Scope list_scope.

(** The ranking of two flights of equal score with one hotel: the ranks
    are the positions. *)
Lemma rank_sorted_numbered_stable_witness :
  exists out,
    rank sample_uuids
      [sample_item "flight_1" "flights" 300 4.5;
       sample_item "flight_2" "flights" 300 4.5;
       sample_item "hotel_1" "hotels" 189.99 4] one_person_one_day None = Some out /\
    forall i p, nth_error out i = Some p -> pkg_rank p = Some (S i).
Proof.
  eexists. split; [vm_compute; reflexivity |].
  refine (proj1 (proj2 (rank_sorted_numbered_stable sample_uuids
    [sample_item "flight_1" "flights" 300 4.5;
     sample_item "flight_2" "flights" 300 4.5;
     sample_item "hotel_1" "hotels" 189.99 4] one_person_one_day None _ _))).
  vm_compute. reflexivity.
Defined.

(** C4: whatever the discovered items, [rank] generates at least one
    package, and every package it generates (and so every package it
    returns) has exactly the four canonical categories as keys.  A
    category with no discovered item is given the list of one placeholder
    (price 0, not available, rating 0), which is then the item of that
    category in every package; a category with items contributes one of
    its own items. *)
Theorem every_package_has_four_categories (discovered : list Item)
    (requirements : Requirements) :
  rank_packages discovered requirements <> [] /\
  (forall pkg,
      In pkg (rank_packages discovered requirements) ->
      dict_keys pkg = categories /\
      forall cat, In cat categories ->
        exists item,
          dict_get pkg cat = Some item /\
          (of_category cat discovered = [] ->
           item = create_placeholder_item cat requirements) /\
          (of_category cat discovered <> [] -> In item (of_category cat discovered))) /\
  (forall cat,
      In cat categories -> of_category cat discovered = [] ->
      dict_get (fill_missing (group_by_category discovered) requirements) cat
      = Some [create_placeholder_item cat requirements] /\
      price (create_placeholder_item cat requirements) = 0 /\
      availability (create_placeholder_item cat requirements) = false /\
      option_map rating (trust_score (create_placeholder_item cat requirements)) = Some 0) /\
  (forall uuids custom_weights out p,
      rank uuids discovered requirements custom_weights = Some out -> In p out ->
      In (items p) (rank_packages discovered requirements) /\
      dict_keys (items p) = categories).
Proof.
  assert (Shape : forall pkg,
      In pkg (rank_packages discovered requirements) ->
      dict_keys pkg = categories /\
      forall cat, In cat categories ->
        exists item,
          dict_get pkg cat = Some item /\
          (of_category cat discovered = [] ->
           item = create_placeholder_item cat requirements) /\
          (of_category cat discovered <> [] -> In item (of_category cat discovered))).
  { intros pkg I.
    destruct (rank_packages_shape _ _ _ I) as (a & b & c & d & -> & Ia & Ib & Ic & Id).
    split; [reflexivity |].
    assert (Slot : forall cat item,
              In item (candidates cat discovered requirements) ->
              (of_category cat discovered = [] ->
               item = create_placeholder_item cat requirements) /\
              (of_category cat discovered <> [] -> In item (of_category cat discovered))).
    { intros cat item. unfold candidates.
      destruct (of_category cat discovered) as [| x l].
      - intros [<- | []]. split; [reflexivity | congruence].
      - intros J. split; [discriminate | intros _; exact J]. }
    intros cat [<- | [<- | [<- | [<- | []]]]].
    - exists a. split; [reflexivity | now apply Slot].
    - exists b. split; [reflexivity | now apply Slot].
    - exists c. split; [reflexivity | now apply Slot].
    - exists d. split; [reflexivity | now apply Slot]. }
  split; [apply rank_packages_not_empty |].
  split; [exact Shape |]. split.
  - intros cat I E. rewrite (filled_get _ _ _ I). unfold candidates. rewrite E.
    repeat split.
  - intros uuids custom_weights out p R I.
    destruct (rank_members _ _ _ _ _ _ R I) as (u & pkg & Ip & Sp).
    apply score_package_shape in Sp as [_ It]. simpl in It. subst pkg.
    split; [exact Ip | now apply Shape].
Qed.

(** The placeholder at a list that has a flight and nothing else. *)
Lemma every_package_has_four_categories_witness :
  dict_get (fill_missing
              (group_by_category [sample_item "flight_1" "flights" 300 4.5])
              one_person_one_day) "hotels"
  = Some [create_placeholder_item "hotels" one_person_one_day].
Proof.
  apply (proj1 (proj2 (proj2 (every_package_has_four_categories
           [sample_item "flight_1" "flights" 300 4.5] one_person_one_day)))).
  - simpl. tauto.
  - reflexivity.
Defined.

(** C3: an adjust_weights modification on a session that holds a cart,
    with at least one attendee.  When the weights hold numbers where the
    ranking reads them, [modify_cart] ranks the discovered items of the
    session with the weights of the modification: the new ranking holds
    every generated package, each scored with these weights, and none
    has a higher final score than the first; it stores the ranking and
    returns and stores the cart built from the first package, whatever
    cart and ranking were held before.  With all the category importance
    on flights the first package is a generated package whose flights score
    is the rounded score of its own flight, and the flight of no generated
    package scores higher.  When the weights hold None where the ranking
    reads them, as the weights of a request hold under every weight not
    given, [modify_cart] raises and leaves the session as it was. *)
Theorem adjust_weights_rebuilds_from_top (draws : Draws) (self : Crew)
    (modification : Modification) (current : Cart) (discovered : list Item)
    (reqs : Requirements) :
  action modification = "adjust_weights" ->
  cart self = Some current ->
  discovered_items self = Some discovered ->
  requirements self = Some reqs ->
  attendees reqs <> Some 0%Z ->
  (numbers_where_read (weights modification) = true ->
   exists top rest,
     rank (package_uuids draws) discovered reqs (weights modification) = Some (top :: rest) /\
     Permutation (map items (top :: rest)) (rank_packages discovered reqs) /\
     (forall p, In p (top :: rest) ->
                (exists uuid,
                    score_package uuid (items p) reqs (weights modification)
                    = Some (unranked p)) /\
                final_score p <= final_score top) /\
     modify_cart draws self modification
     = (Ok (build_cart (cart_uuid draws) (now draws) (savings_pct draws) top reqs),
        {| requirements := Some reqs;
           discovered_items := Some discovered;
           ranked_packages := Some (top :: rest);
           cart := Some (build_cart (cart_uuid draws) (now draws) (savings_pct draws)
                           top reqs) |}) /\
     (forall edited previous_ranking,
         fst (modify_cart draws
                {| requirements := Some reqs;
                   discovered_items := Some discovered;
                   ranked_packages := previous_ranking;
                   cart := Some edited |} modification)
         = fst (modify_cart draws self modification)) /\
     (forall cw,
         weights modification = Some cw ->
         category_importance cw = Some (held flights_only) ->
         (exists flight score breakdown,
             dict_get (items top) "flights" = Some flight /\
             score_item flight "flights" reqs (Some cw) = Some (score, breakdown) /\
             category_score top "flights" = py_round score 2) /\
         (forall pkg flight,
             In pkg (rank_packages discovered reqs) ->
             dict_get pkg "flights" = Some flight ->
             exists score breakdown,
               score_item flight "flights" reqs (Some cw) = Some (score, breakdown) /\
               py_round score 2 <= category_score top "flights"))) /\
  (numbers_where_read (weights modification) = false ->
   modify_cart draws self modification = (Raised, self)).
Proof.
  intros A C D R N. split.
  - intros W.
    destruct (rank_returns (package_uuids draws) discovered reqs (weights modification) N W)
      as (top & rest & K).
    exists top, rest. split; [exact K |].
    split; [exact (rank_holds_generated _ _ _ _ _ K) |].
    split.
    { intros p I. split.
      - destruct (rank_members _ _ _ _ _ _ K I) as (u & pkg & Ip & Sp).
        exists u. pose proof (score_package_shape _ _ _ _ _ Sp) as [_ It].
        simpl in It. now rewrite It.
      - exact (rank_head_is_best _ _ _ _ _ _ _ K I). }
    assert (M : forall s,
               cart s <> None -> discovered_items s = Some discovered ->
               requirements s = Some reqs ->
               modify_cart draws s modification
               = (Ok (build_cart (cart_uuid draws) (now draws) (savings_pct draws) top reqs),
                  {| requirements := Some reqs;
                     discovered_items := Some discovered;
                     ranked_packages := Some (top :: rest);
                     cart := Some (build_cart (cart_uuid draws) (now draws)
                                     (savings_pct draws) top reqs) |})).
    { intros s Cs Ds Rs. unfold modify_cart.
      destruct (cart s); [| congruence].
      rewrite A, Ds, Rs. simpl. rewrite K. reflexivity. }
    split; [apply M; congruence |]. split.
    + intros edited previous_ranking.
      rewrite (M self) by congruence.
      rewrite M; [reflexivity | discriminate | reflexivity | reflexivity].
    + intros cw Wc Ci. rewrite Wc in K.
      assert (F : forall q, In q (top :: rest) ->
                  final_score q = category_score q "flights" /\
                  In (items q) (rank_packages discovered reqs) /\
                  exists flight score breakdown,
                    dict_get (items q) "flights" = Some flight /\
                    score_item flight "flights" reqs (Some cw) = Some (score, breakdown) /\
                    category_score q "flights" = py_round score 2).
      { intros q Iq.
        destruct (rank_members _ _ _ _ _ _ K Iq) as (u & pkg & Ip & Sp).
        destruct (rank_packages_shape _ _ _ Ip) as (a & b & c & d & -> & _).
        pose proof (score_package_shape _ _ _ _ _ Sp) as [_ It]. simpl in It.
        split; [exact (flights_only_final_score u a b c d reqs cw (unranked q) Ci Sp) |].
        split; [now rewrite It |].
        destruct (flights_score_of_package _ _ _ _ _ _ _ _ Sp) as (sf & bf & Ef & Cf).
        exists a, sf, bf. rewrite It. split; [reflexivity |]. split; [exact Ef | exact Cf]. }
      split.
      * destruct (F top (or_introl eq_refl)) as (_ & _ & flight & score & breakdown & G).
        exists flight, score, breakdown. exact G.
      * intros pkg flight Ip Gf.
        apply (Permutation_in _ (Permutation_sym (rank_holds_generated _ _ _ _ _ K))) in Ip.
        apply in_map_iff in Ip as (q & <- & Iq).
        destruct (F q Iq) as (Fq & _ & flight' & score & breakdown & G' & Ef & Cf).
        rewrite Gf in G'. injection G' as <-.
        exists score, breakdown. split; [exact Ef |].
        rewrite <- Cf, <- Fq.
        destruct (F top (or_introl eq_refl)) as (<- & _).
        exact (rank_head_is_best _ _ _ _ _ _ _ K Iq).
  - intros W. unfold modify_cart. rewrite C, A, D, R. simpl.
    now rewrite (rank_raises (package_uuids draws) discovered reqs (weights modification) N W).
Qed.

(** At a session with three discovered items: with all the importance on
    flights the cart is rebuilt, and with the weights of a request that
    gives the price weight of flights alone the call raises. *)
Lemma adjust_weights_rebuilds_from_top_witness :
  (exists top,
      fst (modify_cart sample_draws sample_crew flights_first)
      = Ok (build_cart sample_uuid sample_now 0.125 top one_person_one_day)) /\
  modify_cart sample_draws sample_crew cheaper_flights = (Raised, sample_crew).
Proof.
  split.
  - destruct (proj1 (adjust_weights_rebuilds_from_top sample_draws sample_crew flights_first
                (build_cart sample_uuid sample_now 0.125
                   (package_with_items
                      [("flights", sample_item "flight_1" "flights" 300 4.5)])
                   one_person_one_day)
                sample_discovered one_person_one_day
                eq_refl eq_refl eq_refl eq_refl ltac:(discriminate)) eq_refl)
      as (top & rest & _ & _ & _ & E & _).
    exists top. rewrite E. reflexivity.
  - exact (proj2 (adjust_weights_rebuilds_from_top sample_draws sample_crew cheaper_flights
                (build_cart sample_uuid sample_now 0.125
                   (package_with_items
                      [("flights", sample_item "flight_1" "flights" 300 4.5)])
                   one_person_one_day)
                sample_discovered one_person_one_day
                eq_refl eq_refl eq_refl eq_refl ltac:(discriminate)) eq_refl).
Defined.

End RankingClaims.

(** ** Rounding keeps the order *)

Section RoundingOrder.

Lemma round_half_even_range (x : Q) :
  (Qfloor x <= round_half_even x <= Qfloor x + 1)%Z.
Proof.
  unfold round_half_even.
  destruct (Qcompare (x - inject_Z (Qfloor x)) (1 # 2));
    [destruct (Z.even (Qfloor x)) | |]; lia.
Qed.

Lemma round_half_even_mono (x y : Q) :
  x <= y -> (round_half_even x <= round_half_even y)%Z.
Proof.
  intros L.
  pose proof (Qfloor_resp_le x y L) as F.
  pose proof (round_half_even_range x) as Rx.
  pose proof (round_half_even_range y) as Ry.
  destruct (Z.eq_dec (Qfloor x) (Qfloor y)) as [E | N]; [| lia].
  unfold round_half_even. rewrite <- E.
  destruct (Qcompare (x - inject_Z (Qfloor x)) (1 # 2)) eqn:Cx;
    destruct (Qcompare (y - inject_Z (Qfloor x)) (1 # 2)) eqn:Cy;
    try (destruct (Z.even (Qfloor x))); try lia; exfalso;
    repeat match goal with
      | H : Qcompare _ _ = Eq |- _ => apply Qeq_alt in H
      | H : Qcompare _ _ = Lt |- _ => apply Qlt_alt in H
      | H : Qcompare _ _ = Gt |- _ => apply Qgt_alt in H
      end; lra.
Qed.

Lemma py_round_mono (x y : Q) (n : nat) : x <= y -> py_round x n <= py_round y n.
Proof.
  intros L. unfold py_round, Qle. simpl.
  apply Z.mul_le_mono_nonneg_r; [lia |].
  apply round_half_even_mono.
  apply Qmult_le_compat_r; [exact L | discriminate].
Qed.

Lemma py_round_2_nonneg (x : Q) : 0 <= x -> 0 <= py_round x 2.
Proof.
  intros L. apply Qle_trans with (py_round 0 2); [discriminate |].
  now apply py_round_mono.
Qed.

Lemma py_round_2_between (x lo hi : Q) :
  lo <= x <= hi -> py_round lo 2 <= py_round x 2 <= py_round hi 2.
Proof. intros [A B]. split; now apply py_round_mono. Qed.

Lemma py_round_2_percent (x : Q) : 0 <= x <= 100 -> 0 <= py_round x 2 <= 100.
Proof.
  intros H. apply py_round_2_between in H as [A B]. split.
  - apply Qle_trans with (py_round 0 2); [discriminate | exact A].
  - apply Qle_trans with (py_round 100 2); [exact B | discriminate].
Qed.

End RoundingOrder.

(** ** The scoring utilities *)

Section ScoringUtilityFacts.
Import ScoringService ScoringUtilities.
Local Open Scope list_scope.

Lemma weighted_fold_between (t lo hi : Q) (sv : list (Q * Q)) (acc accw : Q) :
  0 < t ->
  (forall p, In p sv -> 0 <= snd p /\ lo <= fst p <= hi) ->
  lo * accw <= acc <= hi * accw ->
  lo * fold_left Qplus (map (fun p => snd p / t) sv) accw
  <= fold_left Qplus (map (fun p => fst p * (snd p / t)) sv) acc
  <= hi * fold_left Qplus (map (fun p => snd p / t) sv) accw.
Proof.
  intros Ht. revert acc accw. induction sv as [| [s v] sv IH]; intros acc accw H A; simpl.
  - exact A.
  - apply IH; [intros p I; apply H; now right |].
    destruct (H (s, v) (or_introl eq_refl)) as [Hv [Hlo Hhi]]. simpl in *.
    assert (W : 0 <= v / t).
    { apply Qle_shift_div_l; [exact Ht | lra]. }
    set (w := v / t) in *.
    pose proof (Qmult_le_compat_r lo s w Hlo W).
    pose proof (Qmult_le_compat_r s hi w Hhi W).
    lra.
Qed.

Lemma fold_left_Zadd_nonneg (vs : list Z) (acc : Z) :
  fold_left Z.add vs acc = (acc + fold_left Z.add vs 0)%Z.
Proof.
  revert acc. induction vs as [| v vs IH]; intros acc; simpl; [lia |].
  rewrite IH, (IH v). lia.
Qed.

Lemma fold_of_zero_products {A : Type} (f : A -> Q) (l : list A) (acc : Q) :
  fold_left Qplus (map (fun x => f x * 0) l) acc == acc.
Proof.
  revert acc. induction l as [| x l IH]; intros acc; simpl; [reflexivity |].
  rewrite IH. ring.
Qed.

Lemma inject_Z_nonzero (z : Z) : z <> 0%Z -> ~ inject_Z z == 0.
Proof. intros N H. unfold Qeq in H. simpl in H. lia. Qed.

(** [calculate_weighted_score] is a weighted average, rounded to two
    decimals: with weights that are not negative and not all zero, and
    scores between 0 and 100, it is less than a hundredth below any lower
    bound and less than a hundredth above any upper bound of the scores it
    reads (a missing score reads as 0); with weights that add up to 0 it
    is 0. *)
Theorem calculate_weighted_score_is_an_average (scores : dict Q) (weights : dict Z) :
  let total := fold_left Z.add (dict_values weights) 0%Z in
  (forall lo hi,
      (0 < total)%Z ->
      0 <= lo -> hi <= 100 ->
      (forall kw, In kw weights ->
         (0 <= snd kw)%Z /\ lo <= dict_get_default scores (fst kw) 0 <= hi) ->
      lo - 0.01 < calculate_weighted_score scores weights < hi + 0.01) /\
  (total = 0%Z -> calculate_weighted_score scores weights == 0).
Proof.
  intros total. split.
  - intros lo hi Hpos Hlo Hhi H.
    unfold calculate_weighted_score, normalize_weights. fold total.
    destruct (Z.eqb_spec total 0) as [E | N]; [lia |].
    match goal with
    | |- _ < py_round ?x 2 < _ =>
        pose proof (py_round_2_near x) as Near;
        cut (lo <= x <= hi); [intros Between; lra |]
    end.
    unfold py_sum. rewrite map_map. simpl.
    assert (Ht : 0 < inject_Z total).
    { unfold Qlt. simpl. lia. }
    pose proof (weighted_fold_between (inject_Z total) lo hi
                  (map (fun kw => (dict_get_default scores (fst kw) 0, inject_Z (snd kw)))
                       weights) 0 0 Ht) as B.
    rewrite !map_map in B. simpl in B.
    assert (One : fold_left Qplus
                    (map (fun x : string * Z => inject_Z (snd x) / inject_Z total) weights) 0
                  == 1).
    { pose proof (sum_of_quotients total (dict_values weights) 0 0%Z) as S.
      unfold dict_values in S. rewrite map_map in S. rewrite S.
      - fold (dict_values weights). fold total.
        apply Qmult_inv_r, inject_Z_nonzero, N.
      - unfold Qdiv. change (inject_Z 0) with 0. ring. }
    rewrite One in B. rewrite !Qmult_1_r in B. apply B.
    + intros p I. apply in_map_iff in I as (kw & <- & I). simpl.
      destruct (H kw I) as [V S]. split; [| exact S].
      unfold Qle. simpl. lia.
    + lra.
  - intros Z0. unfold calculate_weighted_score, normalize_weights. fold total.
    rewrite Z0. simpl.
    assert (S : py_sum (map (fun kw : string * Q => dict_get_default scores (fst kw) 0 * snd kw)
                            (map (fun kv : string * Z => (fst kv, 0)) weights)) == 0).
    { unfold py_sum. rewrite map_map. simpl.
      apply (fold_of_zero_products
               (fun x : string * Z => dict_get_default scores (fst x) 0)). }
    rewrite (py_round_compat _ 0 2 S). reflexivity.
Qed.

(** The weighted average at two scores with weights 30 and 70. *)
Lemma calculate_weighted_score_is_an_average_witness :
  80 - 0.01
  < calculate_weighted_score [("price", 80); ("trust", 90)]
      [("price", 30%Z); ("trust", 70%Z)]
  < 90 + 0.01.
Proof.
  apply (proj1 (calculate_weighted_score_is_an_average
                  [("price", 80); ("trust", 90)] [("price", 30%Z); ("trust", 70%Z)])).
  - reflexivity.
  - discriminate.
  - discriminate.
  - intros kw [<- | [<- | []]]; simpl; split; try lia; split; discriminate.
Defined.

Lemma fold_left_Zadd_scaled (c : Z) (vs : list Z) (acc : Z) :
  fold_left Z.add (map (Z.mul c) vs) (c * acc)%Z = (c * fold_left Z.add vs acc)%Z.
Proof.
  revert acc. induction vs as [| v vs IH]; intros acc; simpl; [reflexivity |].
  rewrite <- IH. f_equal. lia.
Qed.

(** Only the proportions of the weights count: multiplying every weight
    by the same non-zero integer leaves [calculate_weighted_score]
    unchanged. *)
Theorem calculate_weighted_score_scale (scores : dict Q) (weights : dict Z) (c : Z) :
  c <> 0%Z ->
  calculate_weighted_score scores (map (fun kv => (fst kv, (c * snd kv)%Z)) weights)
  = calculate_weighted_score scores weights.
Proof.
  intros Hc. unfold calculate_weighted_score. apply py_round_compat.
  unfold normalize_weights.
  assert (T : fold_left Z.add
                (dict_values (map (fun kv : string * Z => (fst kv, (c * snd kv)%Z)) weights))
                0%Z
              = (c * fold_left Z.add (dict_values weights) 0)%Z).
  { unfold dict_values. rewrite map_map. simpl.
    rewrite <- (map_map snd (Z.mul c)), <- fold_left_Zadd_scaled.
    now rewrite Z.mul_0_r. }
  rewrite T. clear T.
  set (total := fold_left Z.add (dict_values weights) 0%Z).
  destruct (Z.eqb_spec total 0) as [E | N].
  - rewrite E, Z.mul_0_r. simpl. rewrite !map_map. reflexivity.
  - destruct (Z.eqb_spec (c * total) 0) as [E' | _]; [lia |].
    unfold py_sum. rewrite !map_map. simpl.
    apply fold_Qplus_compat; [| reflexivity].
    clearbody total.
    induction weights as [| [k v] weights IH]; simpl; constructor; [| exact IH].
    rewrite !inject_Z_mult. field.
    split; apply inject_Z_nonzero; assumption.
Qed.

(** The same score at weights 30 and 70 and at weights 3 and 7. *)
Lemma calculate_weighted_score_scale_witness :
  calculate_weighted_score [("price", 80); ("trust", 90)]
    (map (fun kv => (fst kv, (10 * snd kv)%Z)) [("price", 3%Z); ("trust", 7%Z)])
  = calculate_weighted_score [("price", 80); ("trust", 90)]
      [("price", 3%Z); ("trust", 7%Z)].
Proof.
  apply calculate_weighted_score_scale. discriminate.
Defined.

(** [rating_to_score] on a positive scale: the score is between 0 and
    100, is 100 from the maximal rating on, never decreases as a rating
    above 0 grows, and a rating of 0 or less (unknown) gets the neutral
    50, which is more than any known rating below half the scale gets. *)
Theorem rating_to_score_profile (max_rating : Q) :
  0 < max_rating ->
  (forall rating, exists s, rating_to_score rating max_rating = Some s /\ 0 <= s <= 100) /\
  (forall rating, rating <= 0 -> rating_to_score rating max_rating = Some 50) /\
  (forall rating s, max_rating <= rating ->
     rating_to_score rating max_rating = Some s -> s == 100) /\
  (forall r1 r2 s1 s2, 0 < r1 -> r1 <= r2 ->
     rating_to_score r1 max_rating = Some s1 ->
     rating_to_score r2 max_rating = Some s2 -> s1 <= s2) /\
  (forall rating s, 0 < rating -> rating < max_rating * 0.5 ->
     rating_to_score rating max_rating = Some s -> s < 50).
Proof.
  intros Hm.
  assert (Hne : ~ max_rating == 0) by (intros Z; rewrite Z in Hm; now apply Qlt_irrefl in Hm).
  assert (Shape : forall rating, 0 < rating ->
            rating_to_score rating max_rating
            = Some (py_min 100 (rating / max_rating * 100))).
  { intros rating Hr. unfold rating_to_score.
    destruct (Qle_bool_cases rating 0); [lra |].
    destruct (Qeq_bool_cases max_rating 0); [contradiction | reflexivity]. }
  split; [intros rating | split; [intros rating Hr | split; [intros rating s Hr E |
    split; [intros r1 r2 s1 s2 H1 H12 E1 E2 | intros rating s Hr Hh E]]]].
  - destruct (Qlt_le_dec 0 rating) as [Hr | Hr].
    + rewrite (Shape rating Hr). eexists. split; [reflexivity |].
      assert (U : 0 < rating / max_rating) by (apply Qlt_shift_div_l; lra).
      set (u := rating / max_rating) in *. unfold py_min. qcases; lra.
    + unfold rating_to_score. destruct (Qle_bool_cases rating 0); [| lra].
      eexists. split; [reflexivity | lra].
  - unfold rating_to_score. destruct (Qle_bool_cases rating 0); [reflexivity | lra].
  - rewrite (Shape rating) in E by lra. injection E as <-.
    assert (U : 1 <= rating / max_rating) by (apply Qle_shift_div_l; lra).
    set (u := rating / max_rating) in *. unfold py_min. qcases; lra.
  - rewrite (Shape r1 H1) in E1. rewrite (Shape r2) in E2 by lra.
    injection E1 as <-. injection E2 as <-.
    pose proof (ratio_mono r1 r2 max_rating Hm H12) as M.
    set (u := r1 / max_rating) in *. set (v := r2 / max_rating) in *.
    unfold py_min. qcases; lra.
  - rewrite (Shape rating Hr) in E. injection E as <-.
    assert (U : rating / max_rating < 0.5).
    { apply Qlt_shift_div_r; [exact Hm | lra]. }
    set (u := rating / max_rating) in *. unfold py_min. qcases; lra.
Qed.

(** The profile on the scale of 5 at the rating 4.5. *)
Lemma rating_to_score_profile_witness :
  exists s, rating_to_score 4.5 5 = Some s /\ 0 <= s <= 100.
Proof.
  apply (proj1 (rating_to_score_profile 5 eq_refl)).
Defined.

(** [capacity_to_score] for a positive requirement: a capacity that
    covers it scores 100, 90 or 80 by the slack (up to 20%, up to 50%,
    more), a capacity from 0 up to the requirement scores 70 times the
    covered share, so less than 70; and a requirement of 0 always raises
    the division error. *)
Theorem capacity_to_score_profile (required : Z) :
  (0 < required)%Z ->
  (forall capacity, (required <= capacity)%Z ->
     capacity_to_score capacity required
     = Some (if (5 * capacity <=? 6 * required)%Z then 100
             else if (2 * capacity <=? 3 * required)%Z then 90 else 80)) /\
  (forall capacity, (0 <= capacity < required)%Z ->
     exists s, capacity_to_score capacity required = Some s /\ 0 <= s /\ s < 70) /\
  (forall c1 c2 s1 s2, (c1 <= c2 < required)%Z ->
     capacity_to_score c1 required = Some s1 ->
     capacity_to_score c2 required = Some s2 -> s1 <= s2) /\
  (forall capacity, capacity_to_score capacity 0 = None).
Proof.
  intros Hr.
  assert (Rq : 0 < inject_Z required) by (unfold Qlt, inject_Z; cbn [Qnum Qden]; lia).
  assert (R1 : forall c, inject_Z c / inject_Z required <= 6 # 5
                         <-> (5 * c <= 6 * required)%Z).
  { intros c. rewrite <- (ratio_le (inject_Z c) (inject_Z required) _ Rq).
    unfold Qle, Qmult, inject_Z. cbn [Qnum Qden]. lia. }
  assert (R2 : forall c, inject_Z c / inject_Z required <= 3 # 2
                         <-> (2 * c <= 3 * required)%Z).
  { intros c. rewrite <- (ratio_le (inject_Z c) (inject_Z required) _ Rq).
    unfold Qle, Qmult, inject_Z. cbn [Qnum Qden]. lia. }
  split; [intros capacity Hc | split; [intros capacity Hc | split;
    [intros c1 c2 s1 s2 Hc E1 E2 | intros capacity]]].
  - unfold capacity_to_score.
    destruct (Z.leb_spec required capacity); [| lia].
    destruct (Z.eqb_spec required 0); [lia |].
    destruct (Qle_bool_cases (inject_Z capacity / inject_Z required) 1.2) as [A | A].
    + assert (A' : inject_Z capacity / inject_Z required <= 6 # 5) by lra.
      apply R1 in A'. destruct (Z.leb_spec (5 * capacity) (6 * required)); [reflexivity | lia].
    + destruct (Z.leb_spec (5 * capacity) (6 * required)) as [B | B].
      { apply R1 in B. lra. }
      destruct (Qle_bool_cases (inject_Z capacity / inject_Z required) 1.5) as [C | C].
      * assert (C' : inject_Z capacity / inject_Z required <= 3 # 2) by lra.
        apply R2 in C'.
        destruct (Z.leb_spec (2 * capacity) (3 * required)); [reflexivity | lia].
      * destruct (Z.leb_spec (2 * capacity) (3 * required)) as [D | D]; [| reflexivity].
        apply R2 in D. lra.
  - unfold capacity_to_score.
    destruct (Z.leb_spec required capacity); [lia |].
    destruct (Z.eqb_spec required 0); [lia |].
    eexists. split; [reflexivity |].
    assert (L : 0 <= inject_Z capacity / inject_Z required).
    { apply Qle_shift_div_l; [exact Rq |]. unfold Qle, Qmult, inject_Z; cbn [Qnum Qden]; lia. }
    assert (U : inject_Z capacity / inject_Z required < 1).
    { apply Qlt_shift_div_r; [exact Rq |]. unfold Qlt, Qmult, inject_Z; cbn [Qnum Qden]; lia. }
    lra.
  - unfold capacity_to_score in E1, E2.
    destruct (Z.leb_spec required c1); [lia |].
    destruct (Z.leb_spec required c2); [lia |].
    destruct (Z.eqb_spec required 0); [lia |].
    injection E1 as <-. injection E2 as <-.
    assert (M : inject_Z c1 / inject_Z required <= inject_Z c2 / inject_Z required).
    { apply ratio_mono; [exact Rq |]. unfold Qle, Qmult, inject_Z; cbn [Qnum Qden]; lia. }
    lra.
  - unfold capacity_to_score. destruct (0 <=? capacity)%Z; reflexivity.
Qed.

(** A room for 60 against 50 attendees has 20% slack and scores 100. *)
Lemma capacity_to_score_profile_witness :
  capacity_to_score 60 50 = Some 100.
Proof.
  apply (proj1 (capacity_to_score_profile 50 eq_refl) 60%Z). lia.
Defined.

End ScoringUtilityFacts.

(** ** Quantities and amounts of a cart *)

Section CartAmounts.
Import CartAgent Samples.
Local Open Scope list_scope.

Lemma take_digits_all (s : string) : all_digits (take_digits s) = true.
Proof.
  induction s as [| c s IH]; simpl; [reflexivity |].
  destruct (is_digit c) eqn:D; simpl; [now rewrite D, IH | reflexivity].
Qed.

Lemma search_digits_all (s digits : string) :
  search_digits s = Some digits -> all_digits digits = true /\ digits <> EmptyString.
Proof.
  induction s as [| c s IH]; simpl; [discriminate |].
  destruct (is_digit c) eqn:D; [| exact IH].
  intros E. injection E as <-. simpl. rewrite D, take_digits_all.
  split; [reflexivity | discriminate].
Qed.

Lemma is_digit_value (c : ascii) :
  is_digit c = true -> (0 <= Z.of_nat (nat_of_ascii c) - 48 <= 9)%Z.
Proof.
  unfold is_digit. intros H. apply andb_prop in H as [A B].
  apply Nat.leb_le in A. apply Nat.leb_le in B. lia.
Qed.

Lemma int_of_digits_nonneg (s : string) (acc : Z) :
  all_digits s = true -> (0 <= acc)%Z -> (acc <= int_of_digits acc s)%Z.
Proof.
  revert acc. induction s as [| c s IH]; intros acc D A; simpl; [lia |].
  simpl in D. apply andb_prop in D as [Dc D].
  pose proof (is_digit_value c Dc).
  specialize (IH (acc * 10 + (Z.of_nat (nat_of_ascii c) - 48))%Z D). lia.
Qed.

Lemma num_days_nonneg (requirements : Requirements) : (0 <= num_days_of requirements)%Z.
Proof.
  unfold num_days_of.
  destruct (search_digits _) as [digits |] eqn:E; [| lia].
  apply search_digits_all in E as [D _].
  pose proof (int_of_digits_nonneg digits 0 D). lia.
Qed.

(** The stay-days are never negative, whatever the duration text (a sign
    before the number is not read).  With at least one attendee and at
    least one stay-day every quantity is at least 1, as the cart line of
    the API requires; a category outside the four canonical ones has the
    quantity 1. *)
Theorem quantity_at_least_one (requirements : Requirements) :
  (0 <= num_days_of requirements)%Z /\
  (forall category item,
      (forall a, attendees requirements = Some a -> (1 <= a)%Z) ->
      (1 <= num_days_of requirements)%Z ->
      (1 <= calculate_quantity category item requirements)%Z) /\
  (forall category item,
      ~ In category RankingAgent.categories ->
      calculate_quantity category item requirements = 1%Z).
Proof.
  split; [apply num_days_nonneg |]. split.
  - intros category item Ha Hd. unfold calculate_quantity.
    set (a := match attendees requirements with Some a => a | None => 50%Z end).
    assert (A : (1 <= a)%Z).
    { unfold a. destruct (attendees requirements) as [a' |]; [now apply Ha | lia]. }
    set (days := num_days_of requirements) in *.
    assert (R : (1 <= a / 2 + a mod 2)%Z).
    { pose proof (Z.div_mod a 2 ltac:(lia)). pose proof (Z.mod_pos_bound a 2 ltac:(lia)).
      lia. }
    destruct (String.eqb category "flights"); [exact A |].
    destruct (String.eqb category "hotels"); [nia |].
    destruct (String.eqb category "meeting_rooms"); [exact Hd |].
    destruct (String.eqb category "catering"); [nia | lia].
  - intros category item N. unfold calculate_quantity.
    unfold RankingAgent.categories in N. simpl in N.
    destruct (String.eqb_spec category "flights"); [subst; tauto |].
    destruct (String.eqb_spec category "hotels"); [subst; tauto |].
    destruct (String.eqb_spec category "meeting_rooms"); [subst; tauto |].
    destruct (String.eqb_spec category "catering"); [subst; tauto | reflexivity].
Qed.

(** Fifty attendees for ["3 days"]: 75 room-nights at least 1. *)
Lemma quantity_at_least_one_witness :
  Z.le 1 (calculate_quantity "hotels" (sample_item "hotel_1" "hotels" 189.99 4)
            {| attendees := Some 50%Z; budget := Some 60000; duration := Some "3 days";
               location := Some "Miami"; origin := None |}).
Proof.
  apply (proj1 (proj2 (quantity_at_least_one
           {| attendees := Some 50%Z; budget := Some 60000; duration := Some "3 days";
              location := Some "Miami"; origin := None |}))).
  - intros a E. injection E as <-. lia.
  - vm_compute. discriminate.
Defined.

Lemma quantity_nonneg (category : string) (item : Item) (requirements : Requirements) :
  (forall a, attendees requirements = Some a -> (0 <= a)%Z) ->
  (0 <= calculate_quantity category item requirements)%Z.
Proof.
  intros Ha. unfold calculate_quantity.
  set (a := match attendees requirements with Some a => a | None => 50%Z end).
  assert (A : (0 <= a)%Z).
  { unfold a. destruct (attendees requirements) as [a' |]; [now apply Ha | lia]. }
  pose proof (num_days_nonneg requirements) as D.
  set (days := num_days_of requirements) in *.
  assert (R : (0 <= a / 2 + a mod 2)%Z).
  { pose proof (Z.div_mod a 2 ltac:(lia)). pose proof (Z.mod_pos_bound a 2 ltac:(lia)).
    lia. }
  destruct (String.eqb category "flights"); [exact A |].
  destruct (String.eqb category "hotels"); [nia |].
  destruct (String.eqb category "meeting_rooms"); [exact D |].
  destruct (String.eqb category "catering"); [nia | lia].
Qed.

Lemma in_dict_set {V : Type} (d : dict V) (k : string) (v : V) (entry : string * V) :
  In entry (dict_set d k v) -> entry = (k, v) \/ In entry d.
Proof.
  induction d as [| [k' v'] d IH]; simpl.
  - intros [<- | []]. now left.
  - destruct (String.eqb_spec k' k) as [-> | _]; simpl.
    + intros [<- | I]; [now left | right; now right].
    + intros [<- | I]; [right; now left |].
      destruct (IH I) as [E | J]; [now left | right; now right].
Qed.

Lemma build_lines_origin (items : dict Item) (requirements : Requirements)
    (entry : string * CartItem) :
  In entry (fst (build_lines items requirements)) ->
  exists source, In source items /\ entry = line_of requirements source.
Proof.
  unfold build_lines.
  assert (G : forall lines acc,
    In entry (fst (fold_left
         (fun acc ci =>
            let '(cart_items, subtotal) := acc in
            let '(category, item) := ci in
            let price := price item in
            let quantity := calculate_quantity category item requirements in
            let item_subtotal := price * inject_Z quantity in
            (dict_set cart_items category
               {| line_item := item; quantity := quantity; unit_price := price;
                  line_subtotal := py_round item_subtotal 2 |},
             subtotal + item_subtotal))
         items (lines, acc))) ->
    In entry lines \/ exists source, In source items /\ entry = line_of requirements source).
  { induction items as [| [category item] items IH]; intros lines acc I; simpl in I.
    - now left.
    - destruct (IH _ _ I) as [J | (source & Is & E)].
      + apply in_dict_set in J as [E | J]; [| now left].
        right. exists (category, item). split; [now left | exact E].
      + right. exists source. split; [now right | exact E]. }
  intros I. destruct (G [] 0 I) as [[] | H]. exact H.
Qed.

Lemma raw_subtotal_nonneg (items : dict Item) (requirements : Requirements) :
  (forall entry, In entry items -> 0 <= price (snd entry)) ->
  (forall a, attendees requirements = Some a -> (0 <= a)%Z) ->
  0 <= raw_subtotal items requirements.
Proof.
  intros Hp Ha. unfold raw_subtotal, py_sum.
  assert (G : forall l acc, 0 <= acc -> Forall (fun x => 0 <= x) l ->
                            0 <= fold_left Qplus l acc).
  { induction l as [| x l IH]; intros acc A F; simpl; [exact A |].
    inversion F; subst. apply IH; [lra | assumption]. }
  apply G; [lra |]. apply Forall_map, Forall_forall. intros entry I.
  apply Qmult_le_0_compat; [now apply Hp |].
  pose proof (quantity_nonneg (fst entry) (snd entry) requirements Ha).
  unfold Qle. simpl. lia.
Qed.

(** With prices and a number of attendees that are not negative,
    [build_cart] stores no negative amount: every line has a quantity
    and a subtotal of at least 0, the subtotal, the taxes and the fees of
    the cart are at least 0, and the total is at least the subtotal. *)
Theorem build_cart_amounts_nonnegative (uuid now : string) (pct : Q)
    (package : ScoredPackage) (requirements : Requirements) :
  (forall entry, In entry (items package) -> 0 <= price (snd entry)) ->
  (forall a, attendees requirements = Some a -> (0 <= a)%Z) ->
  let cart := build_cart uuid now pct package requirements in
  (forall category line,
      In (category, line) (cart_items cart) ->
      (0 <= quantity line)%Z /\ 0 <= line_subtotal line) /\
  0 <= subtotal cart /\ 0 <= taxes cart /\ 0 <= fees cart /\
  subtotal cart <= total cart.
Proof.
  intros Hp Ha cart.
  destruct (build_cart_fields uuid now pct package requirements)
    as (Ei & Es & Etx & Ef & Et).
  fold cart in Ei, Es, Etx, Ef, Et.
  pose proof (raw_subtotal_nonneg (items package) requirements Hp Ha) as S.
  set (raw := raw_subtotal (items package) requirements) in *.
  split.
  - intros category line I. rewrite Ei in I.
    apply build_lines_origin in I as ([c item] & Is & E).
    unfold line_of in E. simpl in E. injection E as _ ->. simpl.
    pose proof (quantity_nonneg c item requirements Ha) as Q.
    split; [exact Q |]. apply py_round_2_nonneg.
    apply Qmult_le_0_compat; [exact (Hp _ Is) |]. unfold Qle. simpl. lia.
  - rewrite Es, Etx, Ef, Et. unfold tax_rate, service_fee_rate.
    repeat split; try (apply py_round_2_nonneg; lra).
    apply py_round_mono. lra.
Qed.

(** The amounts of a cart of one flight at 420.50. *)
Lemma build_cart_amounts_nonnegative_witness :
  0 <= subtotal (build_cart sample_uuid sample_now 0.125
                   (package_with_items
                      [("flights", sample_item "flight_1" "flights" 420.5 4.5)])
                   one_person_one_day).
Proof.
  apply (build_cart_amounts_nonnegative sample_uuid sample_now 0.125
           (package_with_items [("flights", sample_item "flight_1" "flights" 420.5 4.5)])
           one_person_one_day).
  - intros entry [<- | []]. discriminate.
  - intros a E. injection E as <-. lia.
Defined.

End CartAmounts.

(** ** Modifications of a cart *)

Section CartModifications.
Import CartAgent Samples.
Local Open Scope list_scope.

Lemma modify_outcome (now : string) (cart : Cart) (modification : Modification) :
  (cart_items (modify now cart modification) = cart_items cart /\
   subtotal (modify now cart modification) = subtotal cart /\
   taxes (modify now cart modification) = taxes cart /\
   fees (modify now cart modification) = fees cart /\
   total (modify now cart modification) = total cart) \/
  (takes_effect cart modification /\
   exists lines, modify now cart modification
                 = recalculate_totals now (set_cart_items cart lines) /\
                 (lines_in_cents (cart_items cart) -> lines_in_cents lines)).
Proof.
  destruct (modify_cases now cart modification) as [(N & _) | H]; [| now right].
  left. unfold modify, takes_effect in *.
  destruct (String.eqb_spec (action modification) "swap") as [Ea | Na].
  - unfold swap_item.
    destruct (truthy (mod_item_id modification)) as [id |] eqn:Eid; [| auto 6].
    destruct (new_item modification) as [ni |] eqn:Eni; [| auto 6].
    destruct (find_line (cart_items cart) id) as [[category line] |] eqn:Ef; [| auto 6].
    exfalso. apply N. exists id, category, line. repeat split; auto.
    right. split; [assumption | discriminate].
  - destruct (String.eqb_spec (action modification) "remove") as [Er | Nr].
    + unfold remove_item.
      destruct (truthy (mod_item_id modification)) as [id |] eqn:Eid; [| auto 6].
      destruct (find_line (cart_items cart) id) as [[category line] |] eqn:Ef; [| auto 6].
      exfalso. apply N. exists id, category, line. repeat split; auto.
    + destruct (String.eqb (action modification) "optimize"); auto 6.
Qed.

Lemma sum_gap_of_roundings (s : Q) :
  Qabs (py_round (s + s * tax_rate + s * service_fee_rate) 2
        - (py_round s 2 + py_round (s * tax_rate) 2 + py_round (s * service_fee_rate) 2))
  <= 0.02.
Proof.
  pose proof (py_round_2_near s).
  pose proof (py_round_2_near (s * tax_rate)).
  pose proof (py_round_2_near (s * service_fee_rate)).
  pose proof (py_round_2_near (s + s * tax_rate + s * service_fee_rate)).
  apply Qabs_Qle_condition. lra.
Qed.

Lemma sum_gap_of_cents (s : Q) :
  is_cents s ->
  Qabs (py_round (s + s * tax_rate + s * service_fee_rate) 2
        - (py_round s 2 + py_round (s * tax_rate) 2 + py_round (s * service_fee_rate) 2))
  <= 0.015.
Proof.
  intros C. rewrite (py_round_2_of_cents s C).
  pose proof (py_round_2_near (s * tax_rate)).
  pose proof (py_round_2_near (s * service_fee_rate)).
  pose proof (py_round_2_near (s + s * tax_rate + s * service_fee_rate)).
  apply Qabs_Qle_condition. lra.
Qed.

Lemma reachable_sum_gap (cart : Cart) : reachable cart -> sum_gap cart <= 0.02.
Proof.
  induction 1 as [uuid now pct package requirements | now cart modification R G].
  - destruct (build_cart_fields uuid now pct package requirements)
      as (_ & Es & Etx & Ef & Et).
    unfold sum_gap. rewrite Es, Etx, Ef, Et. apply sum_gap_of_roundings.
  - destruct (modify_outcome now cart modification)
      as [(_ & Es & Etx & Ef & Et) | [_ (lines & E & _)]].
    + unfold sum_gap in *. now rewrite Es, Etx, Ef, Et.
    + rewrite E. unfold sum_gap, recalculate_totals. simpl. apply sum_gap_of_roundings.
Qed.

(** The amounts a cart shows add up within rounding: for every cart
    built by [build_cart] and modified any number of times, the total is
    within 2 cents of subtotal + taxes + fees, and within 1.5 cents after
    a swap or remove that changes the cart. *)
Theorem cart_amounts_add_up :
  (forall cart, reachable cart -> sum_gap cart <= 0.02) /\
  (forall now cart modification,
      reachable cart -> takes_effect cart modification ->
      sum_gap (modify now cart modification) <= 0.015).
Proof.
  split; [exact reachable_sum_gap |].
  intros now cart modification R T.
  apply reachable_invariant in R as [F _].
  destruct (modify_cases now cart modification)
    as [(N & _) | [_ (lines & E & L)]]; [contradiction |].
  rewrite E. unfold sum_gap, recalculate_totals. simpl.
  apply sum_gap_of_cents, sum_of_lines_cents, L, F.
Qed.

(** The sum at a cart of one flight that was then optimized. *)
Lemma cart_amounts_add_up_witness :
  sum_gap (modify sample_now
             (build_cart sample_uuid sample_now 0.125
                (package_with_items [("flights", sample_item "flight_1" "flights" 420.5 4.5)])
                one_person_one_day)
             {| action := "optimize"; mod_item_id := None; new_item := None;
                optimization_goal := Some "cost"; weights := None |})
  <= 0.02.
Proof.
  apply (proj1 cart_amounts_add_up). apply reach_modify, reach_build.
Defined.

(** The savings of a built cart are an estimate from the total cost of
    the package (the sum of its unit prices) alone: none when that cost
    is not positive; otherwise, for a draw between 10% and 15%, an amount
    in whole cents within half a cent of 10% to 15% of that cost.  The
    quantities play no part: the same package gives the same savings
    under any requirements. *)
Theorem build_cart_savings (uuid now : string) (pct : Q) (package : ScoredPackage)
    (requirements : Requirements) :
  let cart := build_cart uuid now pct package requirements in
  (total_cost package <= 0 -> savings cart = None) /\
  (0 < total_cost package -> 0.10 <= pct <= 0.15 ->
   exists s, savings cart = Some s /\ is_cents s /\
             0.10 * total_cost package - 0.005 <= s <= 0.15 * total_cost package + 0.005) /\
  (forall uuid' now' requirements',
      savings (build_cart uuid' now' pct package requirements') = savings cart).
Proof.
  intros cart.
  assert (S : forall u n r, savings (build_cart u n pct package r)
                            = calculate_savings pct package r).
  { intros u n r. unfold build_cart. destruct (build_lines _ _). reflexivity. }
  split; [| split].
  - intros L. unfold cart. rewrite S. unfold calculate_savings.
    destruct (Qlt_bool_cases 0 (total_cost package)); [lra | reflexivity].
  - intros L [P1 P2]. unfold cart. rewrite S. unfold calculate_savings.
    destruct (Qlt_bool_cases 0 (total_cost package)); [| lra].
    eexists. split; [reflexivity |]. split; [apply py_round_2_cents |].
    pose proof (py_round_2_near (total_cost package * pct)) as N.
    set (tc := total_cost package) in *.
    pose proof (Qmult_le_compat_r 0.10 pct tc P1 ltac:(lra)).
    pose proof (Qmult_le_compat_r pct 0.15 tc P2 ltac:(lra)).
    lra.
  - intros u n r. unfold cart. rewrite !S. reflexivity.
Qed.

(** The savings at a package costing 420.50 and a draw of 12.5%. *)
Lemma build_cart_savings_witness :
  exists s,
    savings (build_cart sample_uuid sample_now 0.125
               (package_with_items [("flights", sample_item "flight_1" "flights" 420.5 4.5)])
               one_person_one_day) = Some s /\
    is_cents s /\
    0.10 * total_cost (package_with_items
                         [("flights", sample_item "flight_1" "flights" 420.5 4.5)]) - 0.005
    <= s
    <= 0.15 * total_cost (package_with_items
                            [("flights", sample_item "flight_1" "flights" 420.5 4.5)]) + 0.005.
Proof.
  apply (proj1 (proj2 (build_cart_savings sample_uuid sample_now 0.125
           (package_with_items [("flights", sample_item "flight_1" "flights" 420.5 4.5)])
           one_person_one_day))).
  - reflexivity.
  - split; discriminate.
Defined.

End CartModifications.

(** ** Swap and remove, line by line *)

Section SwapAndRemove.
Import CartAgent Samples.
Local Open Scope list_scope.

Lemma not_in_before {V : Type} (before after : dict V) (k : string) (v : V) :
  NoDup (dict_keys (before ++ (k, v) :: after)) -> ~ In k (dict_keys before).
Proof.
  rewrite dict_keys_app. simpl. intros N I.
  apply NoDup_remove_2 in N. apply N, in_or_app. now left.
Qed.

Lemma truthy_some (id : string) : id <> EmptyString -> truthy (Some id) = Some id.
Proof. destruct id; [congruence | reflexivity]. Qed.

Lemma swap_effect (now : string) (cart : Cart) (id : string) (replacement : Item)
    (before after : dict CartItem) (category : string) (line : CartItem) :
  id <> EmptyString ->
  NoDup (dict_keys (cart_items cart)) ->
  cart_items cart = before ++ (category, line) :: after ->
  item_id (line_item line) = id ->
  id_absent id before ->
  modify now cart (swap_request id replacement)
  = recalculate_totals now
      (set_cart_items cart
         (before ++ (category, line_for replacement (quantity line)) :: after)).
Proof.
  intros Hne N Ei El Hb. unfold modify, swap_request, swap_item.
  cbn -[truthy find_line dict_set recalculate_totals set_cart_items].
  rewrite (truthy_some id Hne), Ei, (find_line_first before after category id line Hb El).
  rewrite dict_set_at; [reflexivity |].
  rewrite Ei in N. exact (not_in_before _ _ _ _ N).
Qed.

Lemma remove_effect (now : string) (cart : Cart) (id : string)
    (before after : dict CartItem) (category : string) (line : CartItem) :
  id <> EmptyString ->
  NoDup (dict_keys (cart_items cart)) ->
  cart_items cart = before ++ (category, line) :: after ->
  item_id (line_item line) = id ->
  id_absent id before ->
  modify now cart (remove_request id)
  = recalculate_totals now (set_cart_items cart (before ++ after)).
Proof.
  intros Hne N Ei El Hb. unfold modify, remove_request, remove_item.
  cbn -[truthy find_line dict_del recalculate_totals set_cart_items].
  rewrite (truthy_some id Hne), Ei, (find_line_first before after category id line Hb El).
  rewrite dict_del_at; [reflexivity |].
  rewrite Ei in N. exact (not_in_before _ _ _ _ N).
Qed.

Lemma fold_Qplus_shift (xs : list Q) (acc x : Q) :
  fold_left Qplus xs (acc + x) == fold_left Qplus xs acc + x.
Proof.
  revert acc. induction xs as [| y xs IH]; intros acc; simpl; [reflexivity |].
  rewrite <- IH. apply fold_Qplus_compat; [| ring].
  clear. induction xs; constructor; [reflexivity | assumption].
Qed.

Lemma py_sum_without (xs ys : list Q) (x : Q) :
  py_sum (xs ++ x :: ys) == py_sum (xs ++ ys) + x.
Proof.
  unfold py_sum. rewrite !fold_left_app. simpl. apply fold_Qplus_shift.
Qed.

(** A remove that names a line takes exactly that line out: the other
    lines stay in their order, the subtotal is recomputed from them (in a
    cart whose line subtotals are whole cents it goes down by the
    subtotal of the removed line), and when no other line holds the
    identifier a second remove of it changes nothing any more. *)
Theorem remove_takes_the_line_out (now : string) (cart : Cart) (id : string)
    (before after : dict CartItem) (category : string) (line : CartItem) :
  id <> EmptyString ->
  NoDup (dict_keys (cart_items cart)) ->
  cart_items cart = before ++ (category, line) :: after ->
  item_id (line_item line) = id ->
  id_absent id before ->
  let result := modify now cart (remove_request id) in
  cart_items result = before ++ after /\
  subtotal result = py_round (sum_of_lines result) 2 /\
  (lines_in_cents (cart_items cart) ->
   subtotal result == sum_of_lines cart - line_subtotal line) /\
  (id_absent id after ->
   forall later, modify later result (remove_request id) = result).
Proof.
  intros Hne N Ei El Hb result.
  assert (R : result = recalculate_totals now (set_cart_items cart (before ++ after)))
    by (apply (remove_effect now cart id before after category line); assumption).
  rewrite R. split; [reflexivity |]. split; [reflexivity |]. split.
  - intros F. unfold sum_of_lines at 1. simpl.
    rewrite py_round_2_of_cents.
    + unfold sum_of_lines. rewrite Ei. unfold dict_values.
      rewrite !map_app. simpl. rewrite py_sum_without. ring.
    + apply sum_of_lines_cents. rewrite Ei in F. unfold lines_in_cents in *.
      apply Forall_app in F as [F1 F2]. inversion F2; subst.
      apply Forall_app. split; assumption.
  - intros Ha later. unfold modify, remove_request, remove_item.
    cbn -[truthy find_line dict_del recalculate_totals set_cart_items].
    rewrite (truthy_some id Hne), find_line_none; [reflexivity |].
    intros c l I. apply in_app_or in I as [I | I]; [exact (Hb c l I) | exact (Ha c l I)].
Qed.

(** The removal of the flight from a cart of a flight and a hotel. *)
Lemma remove_takes_the_line_out_witness :
  cart_items
    (modify sample_now
       (build_cart sample_uuid sample_now 0.125
          (package_with_items
             [("flights", sample_item "flight_1" "flights" 420.5 4.5);
              ("hotels", sample_item "hotel_1" "hotels" 189.99 4)])
          one_person_one_day)
       (remove_request "flight_1"))
  = [("hotels", line_for (sample_item "hotel_1" "hotels" 189.99 4) 1)].
Proof.
  refine (proj1 (remove_takes_the_line_out sample_now
    (build_cart sample_uuid sample_now 0.125
       (package_with_items
          [("flights", sample_item "flight_1" "flights" 420.5 4.5);
           ("hotels", sample_item "hotel_1" "hotels" 189.99 4)])
       one_person_one_day)
    "flight_1" [] [("hotels", line_for (sample_item "hotel_1" "hotels" 189.99 4) 1)]
    "flights" (line_for (sample_item "flight_1" "flights" 420.5 4.5) 1) _ _ _ _ _)).
  - discriminate.
  - simpl. repeat constructor; simpl; intuition discriminate.
  - reflexivity.
  - reflexivity.
  - intros c l [].
Defined.

(** Swapping an item out and back in restores the lines: after the swap
    of the item [a] of a line for [b] and the swap of [b] for [a], the
    lines of the cart are what they were. *)
Theorem swap_back_restores_the_lines (now1 now2 : string) (cart : Cart) (a b : Item)
    (q : Z) (before after : dict CartItem) (category : string) :
  item_id a <> EmptyString -> item_id b <> EmptyString ->
  NoDup (dict_keys (cart_items cart)) ->
  cart_items cart = before ++ (category, line_for a q) :: after ->
  id_absent (item_id a) before -> id_absent (item_id b) before ->
  cart_items
    (modify now2 (modify now1 cart (swap_request (item_id a) b))
       (swap_request (item_id b) a))
  = cart_items cart.
Proof.
  intros Ha Hb N Ei Aa Ab.
  rewrite (swap_effect now1 cart (item_id a) b before after category (line_for a q)
             Ha N Ei eq_refl Aa).
  simpl quantity.
  rewrite (swap_effect now2 _ (item_id b) a before after category (line_for b q) Hb).
  - simpl. now rewrite Ei.
  - simpl. rewrite Ei in N. rewrite dict_keys_app in *. exact N.
  - reflexivity.
  - reflexivity.
  - exact Ab.
Qed.

(** A flight swapped for another flight and back. *)
Lemma swap_back_restores_the_lines_witness :
  let cart :=
    build_cart sample_uuid sample_now 0.125
      (package_with_items [("flights", sample_item "flight_1" "flights" 420.5 4.5)])
      one_person_one_day in
  cart_items
    (modify sample_now
       (modify sample_now cart
          (swap_request "flight_1" (sample_item "flight_2" "flights" 380 4)))
       (swap_request "flight_2" (sample_item "flight_1" "flights" 420.5 4.5)))
  = cart_items cart.
Proof.
  intros cart.
  refine (swap_back_restores_the_lines sample_now sample_now cart
            (sample_item "flight_1" "flights" 420.5 4.5)
            (sample_item "flight_2" "flights" 380 4) 1 [] [] "flights" _ _ _ _ _ _).
  - discriminate.
  - discriminate.
  - simpl. repeat constructor. simpl. tauto.
  - reflexivity.
  - intros c l [].
  - intros c l [].
Defined.

End SwapAndRemove.

(** ** A built cart and its first recalculation *)

Section BuiltCart.
Import CartAgent Samples.
Local Open Scope list_scope.

Lemma line_of_keys (requirements : Requirements) (items : dict Item) :
  dict_keys (map (line_of requirements) items) = dict_keys items.
Proof. unfold dict_keys. rewrite map_map. reflexivity. Qed.

(** In a cart just built from a package whose unit prices are whole
    cents, swapping the item of a line for the same item changes no line
    and not the subtotal, and moves the taxes, the fees and the total by
    less than two cents each.  [build_cart] takes the taxes, the fees and
    the total from the sum of the products of price and quantity and
    [_recalculate_totals] from the sum of the rounded line subtotals; the
    two sums are the same number of whole cents, whose share can lie
    halfway between two cents. *)
Theorem swap_for_the_same_item (uuid now later : string) (pct : Q)
    (package : ScoredPackage) (requirements : Requirements)
    (a : Item) (before after : dict Item) (category : string) :
  NoDup (dict_keys (items package)) ->
  (forall entry, In entry (items package) -> is_cents (price (snd entry))) ->
  items package = before ++ (category, a) :: after ->
  item_id a <> EmptyString ->
  (forall entry, In entry before -> item_id (snd entry) <> item_id a) ->
  let cart := build_cart uuid now pct package requirements in
  let result := modify later cart (swap_request (item_id a) a) in
  cart_items result = cart_items cart /\
  subtotal result = subtotal cart /\
  Qabs (taxes result - taxes cart) < 0.02 /\
  Qabs (fees result - fees cart) < 0.02 /\
  Qabs (total result - total cart) < 0.02.
Proof.
  intros N C Ei Ha Hb cart result.
  destruct (build_cart_fields uuid now pct package requirements)
    as (Eitems & Es & Etx & Ef & Et).
  fold cart in Eitems, Es, Etx, Ef, Et.
  rewrite (build_lines_map _ _ N) in Eitems.
  assert (Split : cart_items cart
                  = map (line_of requirements) before
                    ++ (category,
                        line_for a (calculate_quantity category a requirements))
                    :: map (line_of requirements) after).
  { rewrite Eitems, Ei, map_app. reflexivity. }
  assert (R : result
              = recalculate_totals later (set_cart_items cart (cart_items cart))).
  { unfold result.
    rewrite (swap_effect later cart (item_id a) a
               (map (line_of requirements) before) (map (line_of requirements) after)
               category (line_for a (calculate_quantity category a requirements)) Ha).
    - simpl quantity. now rewrite <- Split.
    - rewrite Eitems, line_of_keys. exact N.
    - exact Split.
    - reflexivity.
    - intros c l I. apply in_map_iff in I as (entry & E & I).
      unfold line_of in E. injection E as _ <-. simpl. now apply Hb. }
  assert (S : py_sum (map line_subtotal (dict_values (cart_items cart)))
              == raw_subtotal (items package) requirements).
  { rewrite Eitems. now apply sum_of_rounded_cents. }
  assert (Close : forall x y : Q, x = y -> Qabs (x - y) < 0.02).
  { intros x y ->. apply Qabs_Qlt_condition. split; lra. }
  assert (Same : cart_items result = cart_items cart /\
                 subtotal result = subtotal cart /\
                 taxes result = taxes cart /\
                 fees result = fees cart /\
                 total result = total cart).
  { rewrite R. unfold recalculate_totals. simpl.
    rewrite Es, Etx, Ef, Et.
    repeat split; apply py_round_compat; rewrite S; reflexivity. }
  destruct Same as (Sl & Ss & Sx & Sf & St).
  split; [exact Sl |]. split; [exact Ss |].
  split; [| split]; apply Close; assumption.
Qed.

(** The flight of a one-flight cart swapped for itself. *)
Lemma swap_for_the_same_item_witness :
  let cart :=
    build_cart sample_uuid sample_now 0.125
      (package_with_items [("flights", sample_item "flight_1" "flights" 420.5 4.5)])
      one_person_one_day in
  subtotal (modify sample_now cart
              (swap_request "flight_1" (sample_item "flight_1" "flights" 420.5 4.5)))
  = subtotal cart.
Proof.
  intros cart.
  refine (proj1 (proj2
    (swap_for_the_same_item sample_uuid sample_now sample_now 0.125
       (package_with_items [("flights", sample_item "flight_1" "flights" 420.5 4.5)])
       one_person_one_day (sample_item "flight_1" "flights" 420.5 4.5) [] [] "flights"
       _ _ _ _ _))).
  - simpl. repeat constructor. simpl. tauto.
  - intros entry [<- | []]. exists 42050%Z. reflexivity.
  - reflexivity.
  - discriminate.
  - intros entry [].
Defined.

End BuiltCart.

(** ** How many packages *)

Section PackageCount.
Import RankingAgent Samples.
Local Open Scope list_scope.

Lemma product_length {A : Type} (ls : list (list A)) :
  List.length (product ls) = combinations ls.
Proof.
  induction ls as [| l ls IH]; simpl; [reflexivity |].
  rewrite <- IH. clear IH.
  induction l as [| x l IHl]; simpl; [reflexivity |].
  now rewrite length_app, length_map, IHl.
Qed.

Lemma product_cons {A : Type} (x : A) (l : list A) (rest : list (list A)) :
  product ((x :: l) :: rest) = map (cons x) (product rest) ++ product (l :: rest).
Proof. reflexivity. Qed.

Lemma enumerate_length {A : Type} (l : list A) (start : nat) :
  List.length (enumerate start l) = List.length l.
Proof.
  revert start. induction l as [| x l IH]; intros start; simpl; [reflexivity |].
  now rewrite IH.
Qed.

Lemma rank_length (uuids : nat -> string) (discovered : list Item)
    (requirements : Requirements) (custom_weights : option CustomWeights)
    (out : list ScoredPackage) :
  rank uuids discovered requirements custom_weights = Some out ->
  List.length out = List.length (rank_packages discovered requirements).
Proof.
  intros R. destruct (rank_output _ _ _ _ _ R) as (generated & G & -> & _).
  rewrite length_map, enumerate_length.
  rewrite <- (Permutation_length (sort_desc_perm final_score generated)).
  unfold rank_scored in G. apply score_packages_shape in G as [_ M].
  rewrite <- M. now rewrite length_map.
Qed.

Lemma firstn_in_first_block {A : Type} (n : nat) (block rest : list A) (x : A) :
  (n <= List.length block)%nat -> In x (firstn n (block ++ rest)) -> In x block.
Proof.
  intros L I. rewrite firstn_app in I.
  replace (n - List.length block)%nat with 0%nat in I by lia.
  simpl in I. rewrite app_nil_r in I. exact (in_firstn _ _ _ I).
Qed.

(** [rank] returns as many packages as there are combinations of one
    candidate per category, capped at 50: never none, never more than 50.
    The cap keeps the first combinations in the order of generation:
    when hotels, meeting rooms and caterers alone allow 50 combinations
    or more, every package returned holds the first flight candidate, and
    no other flight is ever offered. *)
Theorem rank_returns_the_first_fifty (uuids : nat -> string) (discovered : list Item)
    (requirements : Requirements) (custom_weights : option CustomWeights)
    (out : list ScoredPackage) :
  rank uuids discovered requirements custom_weights = Some out ->
  List.length out = Nat.min 50 (combinations (candidate_lists discovered requirements)) /\
  (1 <= List.length out <= 50)%nat /\
  (forall first others,
      candidates "flights" discovered requirements = first :: others ->
      (50 <= combinations (tl (candidate_lists discovered requirements)))%nat ->
      forall p, In p out -> dict_get (items p) "flights" = Some first).
Proof.
  intros R.
  assert (L : List.length out
              = Nat.min 50 (combinations (candidate_lists discovered requirements))).
  { rewrite (rank_length _ _ _ _ _ R), rank_packages_eq.
    rewrite length_firstn, length_map, product_length. reflexivity. }
  split; [exact L |]. split.
  - pose proof (rank_packages_not_empty discovered requirements) as NE.
    pose proof (rank_length _ _ _ _ _ R) as Len.
    destruct (rank_packages discovered requirements) as [| pkg pkgs]; [congruence |].
    simpl in Len. split; [lia |]. rewrite L. apply Nat.le_min_l.
  - intros first others Ef Hc p I.
    destruct (rank_members _ _ _ _ _ _ R I) as (u & pkg & Ip & Sp).
    apply score_package_shape in Sp as [_ It]. simpl in It. rewrite It. clear It.
    rewrite rank_packages_eq in Ip.
    change (map (fun cat => candidates cat discovered requirements) categories)
      with (candidates "flights" discovered requirements
            :: tl (candidate_lists discovered requirements)) in Ip.
    rewrite Ef, product_cons, map_app in Ip.
    apply firstn_in_first_block in Ip.
    + apply in_map_iff in Ip as (combo & <- & Ic).
      apply in_map_iff in Ic as (rest & <- & _). reflexivity.
    + rewrite !length_map, product_length. exact Hc.
Qed.

(** Three discovered items give two packages. *)
Lemma rank_returns_the_first_fifty_witness :
  exists out,
    rank sample_uuids sample_discovered one_person_one_day None = Some out /\
    List.length out
    = Nat.min 50 (combinations (candidate_lists sample_discovered one_person_one_day)).
Proof.
  eexists. split; [vm_compute; reflexivity |].
  refine (proj1 (rank_returns_the_first_fifty sample_uuids sample_discovered
                   one_person_one_day None _ _)).
  vm_compute. reflexivity.
Defined.

End PackageCount.

(** ** Scores stay between 0 and 100 *)

Section ScoreRange.
Import RankingAgent Samples.
Local Open Scope list_scope.

Lemma dict_get_in {V : Type} (d : dict V) (k : string) (v : V) :
  dict_get d k = Some v -> In (k, v) d.
Proof.
  induction d as [| [k' v'] d IH]; simpl; [discriminate |].
  destruct (String.eqb_spec k' k) as [-> | _].
  - intros E. injection E as <-. now left.
  - intros E. right. now apply IH.
Qed.

Lemma in_dict_update {V : Type} (e d : dict V) (entry : string * V) :
  In entry (dict_update d e) -> In entry d \/ In entry e.
Proof.
  unfold dict_update. revert d. induction e as [| [k v] e IH]; intros d; simpl.
  - now left.
  - intros I. destruct (IH _ I) as [J | J]; [| right; now right].
    apply in_dict_set in J as [-> | J]; [right; now left | now left].
Qed.

Lemma weights_nonneg_update (d e : dict (option Q)) :
  weights_nonneg d -> weights_nonneg e -> weights_nonneg (dict_update d e).
Proof.
  intros D E k v I. apply in_dict_update in I as [I | I]; [exact (D k v I) | exact (E k v I)].
Qed.

Lemma weights_nonneg_get (d : dict (option Q)) (k : string) (default : Q) :
  weights_nonneg d -> 0 <= default ->
  exists q, dict_get_default d k (Some default) = Some q /\ 0 <= q.
Proof.
  intros D Hd. unfold dict_get_default.
  destruct (dict_get d k) as [v |] eqn:E; [| exists default; split; [reflexivity | exact Hd]].
  exact (D k v (dict_get_in _ _ _ E)).
Qed.

Lemma default_category_weights_nonneg (category : string) :
  weights_nonneg (held (dict_get_default default_category_weights category [])).
Proof.
  unfold dict_get_default.
  destruct (dict_get default_category_weights category) as [w |] eqn:E;
    [| intros k v []].
  apply dict_get_in in E. unfold default_category_weights in E. simpl in E.
  intros k v I.
  repeat (destruct E as [E | E]; [injection E as _ <-; simpl in I;
    repeat (destruct I as [I | I];
            [injection I as _ <-; eexists; split; [reflexivity | discriminate] |]);
    destruct I |]).
  destruct E.
Qed.

Lemma default_category_importance_nonneg :
  weights_nonneg (held default_category_importance).
Proof.
  intros k v I. unfold default_category_importance in I. simpl in I.
  repeat (destruct I as [I | I];
          [injection I as _ <-; eexists; split; [reflexivity | discriminate] |]).
  destruct I.
Qed.

Lemma weights_for_nonneg (category : string) (custom_weights : option CustomWeights) :
  custom_weights_nonneg custom_weights ->
  weights_nonneg (weights_for category custom_weights).
Proof.
  intros Hw. unfold weights_for.
  pose proof (default_category_weights_nonneg category) as D.
  destruct custom_weights as [cw |]; [| exact D].
  destruct (dict_get (component_weights cw) category) as [w |] eqn:E; [| exact D].
  apply weights_nonneg_update; [exact D |].
  destruct (Hw cw eq_refl) as [_ C]. apply (C category w), dict_get_in, E.
Qed.

Lemma importance_for_nonneg (custom_weights : option CustomWeights) :
  custom_weights_nonneg custom_weights ->
  weights_nonneg (importance_for custom_weights).
Proof.
  intros Hw. unfold importance_for.
  pose proof default_category_importance_nonneg as D.
  destruct custom_weights as [cw |]; [| exact D].
  destruct (category_importance cw) as [ci |] eqn:E; [| exact D].
  apply weights_nonneg_update; [exact D |].
  destruct (Hw cw eq_refl) as [C _]. exact (C ci E).
Qed.

(** Weights that are numbers and not negative hold numbers where they
    are read. *)
Lemma nonneg_numbers_where_read (custom_weights : option CustomWeights) :
  custom_weights_nonneg custom_weights -> numbers_where_read custom_weights = true.
Proof.
  intros Hw. unfold numbers_where_read, numbers_in.
  apply andb_true_iff. split.
  - apply forallb_forall. intros category _. apply forallb_forall. intros key _.
    destruct (weights_nonneg_get _ key 0 (weights_for_nonneg category _ Hw) ltac:(lra))
      as (q & -> & _).
    reflexivity.
  - apply forallb_forall. intros cat _.
    destruct (weights_nonneg_get _ cat 0 (importance_for_nonneg _ Hw) ltac:(lra))
      as (q & -> & _).
    reflexivity.
Qed.

Lemma weigh_fold_range (components : list (string * Q * Q))
    (f t : Q) (b : dict BreakdownEntry) :
  Forall (fun c => 0 <= snd (fst c) <= 100 /\ 0 <= snd c) components ->
  0 <= f <= 100 * t ->
  let '(f', t', _) :=
    fold_left
      (fun acc c =>
         let '(final_score, total_weight, breakdown) := acc in
         let '(name, score, weight) := c in
         (final_score + score * weight,
          total_weight + weight,
          dict_set breakdown name {| bd_score := py_round score 1; bd_weight := weight |}))
      components (f, t, b) in
  0 <= f' <= 100 * t'.
Proof.
  intros F. revert f t b. induction F as [| [[name s] w] components [Hs Hw] F IH];
    intros f t b H; simpl.
  - exact H.
  - apply IH. simpl in Hs, Hw.
    pose proof (Qmult_le_0_compat s w ltac:(lra) Hw).
    pose proof (Qmult_le_compat_r s 100 w ltac:(lra) Hw).
    lra.
Qed.

Lemma weigh_range (components : list (string * Q * Q)) :
  Forall (fun c => 0 <= snd (fst c) <= 100 /\ 0 <= snd c) components ->
  0 <= fst (weigh components) <= 100.
Proof.
  intros F. unfold weigh.
  pose proof (weigh_fold_range components 0 0 [] F ltac:(lra)) as H.
  match goal with
  | |- context [fold_left ?step components ?start] =>
      change (let '(f', t', _) := fold_left step components start in
              0 <= f' <= 100 * t') in H;
      destruct (fold_left step components start) as [[f t] b]
  end. simpl in H. simpl.
  apply py_round_2_percent.
  destruct (Qlt_bool_cases 0 t) as [Ht | Ht].
  - split.
    + apply Qle_shift_div_l; [exact Ht | lra].
    + apply Qle_shift_div_r; [exact Ht | lra].
  - lra.
Qed.

Lemma py_min_percent (x : Q) : 0 <= x -> 0 <= py_min 100 x <= 100.
Proof. intros H. unfold py_min. qcases; lra. Qed.

Lemma len_nonneg {A : Type} (l : option (list A)) : 0 <= len l.
Proof. unfold len, Qle. simpl. lia. Qed.

(** The score of an item is between 0 and 100 when its price is not
    negative, its rating is between 0 and 5, its capacity is not
    negative, there is at least one attendee and no custom weight is
    negative; the scorer then does not raise either. *)
Theorem item_score_in_range (item : Item) (category : string)
    (requirements : Requirements) (custom_weights : option CustomWeights) :
  item_in_range item ->
  (forall a, attendees requirements = Some a -> (1 <= a)%Z) ->
  custom_weights_nonneg custom_weights ->
  exists score breakdown,
    score_item item category requirements custom_weights = Some (score, breakdown) /\
    0 <= score <= 100.
Proof.
  intros (Hp & Hr & Hc) Ha Hw.
  unfold score_item.
  set (weights := weights_for category custom_weights).
  assert (W : weights_nonneg weights) by (now apply weights_for_nonneg).
  assert (P : 0 <= calculate_price_score (price item)
                     (match budget requirements with Some b => b | None => 100000 end)
              <= 100)
    by (apply calculate_price_score_range, Hp).
  assert (T : 0 <= match trust_score item with
                   | Some ts => rating ts * 20
                   | None => 60
                   end <= 100).
  { destruct (trust_score item) as [ts |]; [| lra].
    pose proof (Hr ts eq_refl). lra. }
  assert (Done : forall components,
            Forall (fun c => 0 <= snd (fst c) <= 100 /\ 0 <= snd c) components ->
            exists score breakdown,
              Some (weigh components) = Some (score, breakdown) /\ 0 <= score <= 100).
  { intros components F. pose proof (weigh_range components F) as R.
    destruct (weigh components) as [s b]. exists s, b. split; [reflexivity | exact R]. }
  assert (Read : forall n1 n2 n3 n4 s1 s2 s3 s4 k1 d1 k2 d2 k3 d3 k4 d4,
            0 <= s1 <= 100 -> 0 <= s2 <= 100 -> 0 <= s3 <= 100 -> 0 <= s4 <= 100 ->
            0 <= d1 -> 0 <= d2 -> 0 <= d3 -> 0 <= d4 ->
            exists score breakdown,
              weigh_read [(n1, s1, dict_get_default weights k1 (Some d1));
                          (n2, s2, dict_get_default weights k2 (Some d2));
                          (n3, s3, dict_get_default weights k3 (Some d3));
                          (n4, s4, dict_get_default weights k4 (Some d4))]
              = Some (score, breakdown) /\ 0 <= score <= 100).
  { intros n1 n2 n3 n4 s1 s2 s3 s4 k1 d1 k2 d2 k3 d3 k4 d4 S1 S2 S3 S4 D1 D2 D3 D4.
    destruct (weights_nonneg_get weights k1 d1 W D1) as (q1 & -> & Q1).
    destruct (weights_nonneg_get weights k2 d2 W D2) as (q2 & -> & Q2).
    destruct (weights_nonneg_get weights k3 d3 W D3) as (q3 & -> & Q3).
    destruct (weights_nonneg_get weights k4 d4 W D4) as (q4 & -> & Q4).
    unfold weigh_read. cbn [numbers].
    apply Done. repeat (apply Forall_cons; [split; simpl; assumption |]). apply Forall_nil. }
  destruct (String.eqb category "flights").
  { apply Read; try lra; apply P || apply T. }
  destruct (String.eqb category "hotels").
  { pose proof (py_min_percent (len (amenities (metadata item)) * 12)
                  ltac:(pose proof (len_nonneg (amenities (metadata item))); lra)).
    apply Read; try lra; try assumption; apply P || apply T. }
  destruct (String.eqb category "meeting_rooms").
  { set (cap := match capacity (metadata item) with Some c => c | None => 50%Z end).
    set (required := match attendees requirements with Some a => a | None => 50%Z end).
    assert (Hcap : (0 <= cap)%Z).
    { unfold cap. destruct (capacity (metadata item)) as [c |]; [now apply Hc | lia]. }
    assert (Hreq : (1 <= required)%Z).
    { unfold required. destruct (attendees requirements) as [a |]; [now apply Ha | lia]. }
    pose proof (py_min_percent (len (equipment (metadata item)) * 25)
                  ltac:(pose proof (len_nonneg (equipment (metadata item))); lra)).
    destruct (Z.leb_spec required cap).
    - apply Read; try lra; try assumption; apply P || apply T.
    - destruct (Z.eqb_spec required 0); [lia |].
      assert (Rq : 0 < inject_Z required) by (unfold Qlt, inject_Z; cbn [Qnum Qden]; lia).
      assert (L : 0 <= inject_Z cap / inject_Z required).
      { apply Qle_shift_div_l; [exact Rq |].
        unfold Qle, Qmult, inject_Z; cbn [Qnum Qden]; lia. }
      assert (U : inject_Z cap / inject_Z required <= 1).
      { apply Qle_shift_div_r; [exact Rq |].
        unfold Qle, Qmult, inject_Z; cbn [Qnum Qden]; lia. }
      apply Read; try lra; try assumption; apply P || apply T. }
  destruct (String.eqb category "catering").
  { pose proof (py_min_percent (len (dietary_options (metadata item)) * 20)
                  ltac:(pose proof (len_nonneg (dietary_options (metadata item))); lra)).
    apply Read; try lra; try assumption; apply P || apply T. }
  apply Done. repeat constructor; simpl; try lra; apply P || apply T.
Qed.

(** The score of a four-star hotel with two amenities. *)
Lemma item_score_in_range_witness :
  exists score breakdown,
    score_item (sample_item "hotel_1" "hotels" 189.99 4) "hotels" one_person_one_day None
    = Some (score, breakdown) /\
    0 <= score <= 100.
Proof.
  apply item_score_in_range.
  - split; [discriminate |]. split.
    + intros ts E. injection E as <-. split; discriminate.
    + intros c E. discriminate.
  - intros a E. injection E as <-. lia.
  - intros cw E. discriminate.
Defined.

Lemma score_categories_four_scores (a b c d : Item) (requirements : Requirements)
    (custom_weights : option CustomWeights) (cs : dict Q)
    (bd : dict (dict BreakdownEntry)) :
  score_categories
    [("flights", a); ("hotels", b); ("meeting_rooms", c); ("catering", d)]
    requirements custom_weights [] [] = Some (cs, bd) ->
  exists sf sh sm sc bf bh bm bc,
    score_item a "flights" requirements custom_weights = Some (sf, bf) /\
    score_item b "hotels" requirements custom_weights = Some (sh, bh) /\
    score_item c "meeting_rooms" requirements custom_weights = Some (sm, bm) /\
    score_item d "catering" requirements custom_weights = Some (sc, bc) /\
    cs = [("flights", sf); ("hotels", sh); ("meeting_rooms", sm); ("catering", sc)].
Proof.
  unfold score_categories.
  destruct (score_item a "flights" requirements custom_weights) as [[sf bf] |];
    [| discriminate].
  destruct (score_item b "hotels" requirements custom_weights) as [[sh bh] |];
    [| discriminate].
  destruct (score_item c "meeting_rooms" requirements custom_weights) as [[sm bm] |];
    [| discriminate].
  destruct (score_item d "catering" requirements custom_weights) as [[sc bc] |];
    [| discriminate].
  intros E. injection E as <- _. exists sf, sh, sm, sc, bf, bh, bm, bc.
  repeat split; reflexivity.
Qed.

Lemma dict_update_keeps_keys {V : Type} (e d : dict V) (k : string) :
  dict_get d k <> None -> dict_get (dict_update d e) k <> None.
Proof.
  unfold dict_update. revert d. induction e as [| [k' v'] e IH]; intros d H; simpl.
  - exact H.
  - apply IH. destruct (String.eqb_spec k' k) as [-> | N].
    + rewrite dict_get_set_same. discriminate.
    + now rewrite dict_get_set_other.
Qed.

Lemma get_default_present {V : Type} (d : dict V) (k : string) (x y : V) :
  dict_get d k <> None -> dict_get_default d k x = dict_get_default d k y.
Proof.
  unfold dict_get_default. destruct (dict_get d k); [reflexivity | congruence].
Qed.

(** The importance of one of the four categories, read with any default. *)
Lemma importance_reads (custom_weights : option CustomWeights) (cat : string) :
  custom_weights_nonneg custom_weights ->
  In cat categories ->
  exists q,
    0 <= q /\
    forall default,
      dict_get_default (importance_for custom_weights) cat (Some default) = Some q.
Proof.
  intros Hw I.
  assert (P : dict_get (importance_for custom_weights) cat <> None).
  { assert (D : dict_get (held default_category_importance) cat <> None).
    { unfold categories in I. simpl in I.
      destruct I as [<- | [<- | [<- | [<- | []]]]]; discriminate. }
    unfold importance_for. destruct custom_weights as [cw |]; [| exact D].
    destruct (category_importance cw); [| exact D].
    now apply dict_update_keeps_keys. }
  destruct (dict_get (importance_for custom_weights) cat) as [v |] eqn:E; [| congruence].
  destruct (importance_for_nonneg custom_weights Hw cat v (dict_get_in _ _ _ E))
    as (q & -> & Q).
  exists q. split; [exact Q |]. intros default. unfold dict_get_default. now rewrite E.
Qed.

Lemma weighted_four_range (sf sh sm sc wf wh wm wc : Q) :
  0 <= sf <= 100 -> 0 <= sh <= 100 -> 0 <= sm <= 100 -> 0 <= sc <= 100 ->
  0 <= wf -> 0 <= wh -> 0 <= wm -> 0 <= wc ->
  let total := 0 + wf + wh + wm + wc in
  let total := if Qeq_bool total 0 then 100 else total in
  0 <= 0 + sf * (wf / total) + sh * (wh / total) + sm * (wm / total) + sc * (wc / total)
  <= 100.
Proof.
  intros Hf Hh Hm Hc Wf Wh Wm Wc. simpl.
  destruct (Qeq_bool_cases (0 + wf + wh + wm + wc) 0) as [Z | N].
  - assert (Ef : wf == 0) by lra. assert (Eh : wh == 0) by lra.
    assert (Em : wm == 0) by lra. assert (Ec : wc == 0) by lra.
    rewrite Ef, Eh, Em, Ec. unfold Qdiv. split; ring_simplify; discriminate.
  - set (t := 0 + wf + wh + wm + wc) in *.
    assert (Ht : 0 < t) by (unfold t in *; lra).
    assert (S : wf / t + wh / t + wm / t + wc / t == 1).
    { unfold t. field. intros Z. apply N. unfold t. lra. }
    assert (Uf : 0 <= wf / t) by (apply Qle_shift_div_l; lra).
    assert (Uh : 0 <= wh / t) by (apply Qle_shift_div_l; lra).
    assert (Um : 0 <= wm / t) by (apply Qle_shift_div_l; lra).
    assert (Uc : 0 <= wc / t) by (apply Qle_shift_div_l; lra).
    set (uf := wf / t) in *. set (uh := wh / t) in *.
    set (um := wm / t) in *. set (uc := wc / t) in *.
    pose proof (Qmult_le_0_compat sf uf ltac:(lra) Uf).
    pose proof (Qmult_le_0_compat sh uh ltac:(lra) Uh).
    pose proof (Qmult_le_0_compat sm um ltac:(lra) Um).
    pose proof (Qmult_le_0_compat sc uc ltac:(lra) Uc).
    pose proof (Qmult_le_compat_r sf 100 uf ltac:(lra) Uf).
    pose proof (Qmult_le_compat_r sh 100 uh ltac:(lra) Uh).
    pose proof (Qmult_le_compat_r sm 100 um ltac:(lra) Um).
    pose proof (Qmult_le_compat_r sc 100 uc ltac:(lra) Uc).
    lra.
Qed.

Lemma placeholder_in_range (category : string) (requirements : Requirements) :
  item_in_range (create_placeholder_item category requirements).
Proof.
  split; [discriminate |]. split.
  - intros ts E. injection E as <-. split; discriminate.
  - intros c E. discriminate.
Qed.

Lemma candidates_in_range (category : string) (discovered : list Item)
    (requirements : Requirements) (item : Item) :
  (forall i, In i discovered -> item_in_range i) ->
  In item (candidates category discovered requirements) -> item_in_range item.
Proof.
  intros H. unfold candidates.
  destruct (of_category category discovered) as [| x l] eqn:E.
  - intros [<- | []]. apply placeholder_in_range.
  - intros I. rewrite <- E in I. unfold of_category in I.
    apply filter_In in I as [I _]. now apply H.
Qed.

Lemma fold_Qplus_nonneg (xs : list Q) (acc : Q) :
  0 <= acc -> Forall (fun x => 0 <= x) xs -> 0 <= fold_left Qplus xs acc.
Proof.
  intros A F. revert acc A.
  induction F as [| x xs Hx F IH]; intros acc A; simpl; [exact A |].
  apply IH. lra.
Qed.

Lemma py_sum_nonneg (xs : list Q) : Forall (fun x => 0 <= x) xs -> 0 <= py_sum xs.
Proof. apply fold_Qplus_nonneg. apply Qle_refl. Qed.

Lemma score_package_range (uuid : string) (a b c d : Item)
    (requirements : Requirements) (custom_weights : option CustomWeights)
    (sp : ScoredPackage) :
  item_in_range a -> item_in_range b -> item_in_range c -> item_in_range d ->
  (forall n, attendees requirements = Some n -> (1 <= n)%Z) ->
  custom_weights_nonneg custom_weights ->
  score_package uuid
    [("flights", a); ("hotels", b); ("meeting_rooms", c); ("catering", d)]
    requirements custom_weights = Some sp ->
  0 <= final_score sp <= 100 /\
  (forall cat s, In (cat, s) (category_scores sp) -> 0 <= s <= 100) /\
  0 <= total_cost sp.
Proof.
  intros Ra Rb Rc Rd Ha Hw S.
  apply score_package_inv in S as (cs & bd & read & terms & E & R & T & ->).
  destruct (score_categories_four_scores _ _ _ _ _ _ _ _ E)
    as (sf & sh & sm & sc & bf & bh & bm & bc & Ef & Eh & Em & Ec & ->).
  destruct (item_score_in_range a "flights" requirements custom_weights Ra Ha Hw)
    as (sf' & bf' & Ef' & Sf).
  destruct (item_score_in_range b "hotels" requirements custom_weights Rb Ha Hw)
    as (sh' & bh' & Eh' & Sh).
  destruct (item_score_in_range c "meeting_rooms" requirements custom_weights Rc Ha Hw)
    as (sm' & bm' & Em' & Sm).
  destruct (item_score_in_range d "catering" requirements custom_weights Rd Ha Hw)
    as (sc' & bc' & Ec' & Sc).
  rewrite Ef in Ef'. rewrite Eh in Eh'. rewrite Em in Em'. rewrite Ec in Ec'.
  injection Ef' as <- _. injection Eh' as <- _. injection Em' as <- _. injection Ec' as <- _.
  destruct (importance_reads custom_weights "flights" Hw ltac:(simpl; tauto))
    as (wf & Wf & If).
  destruct (importance_reads custom_weights "hotels" Hw ltac:(simpl; tauto))
    as (wh & Wh & Ih).
  destruct (importance_reads custom_weights "meeting_rooms" Hw ltac:(simpl; tauto))
    as (wm & Wm & Im).
  destruct (importance_reads custom_weights "catering" Hw ltac:(simpl; tauto))
    as (wc & Wc & Ic).
  cbn [dict_keys map fst] in R, T.
  rewrite !If, !Ih, !Im, !Ic in R, T. cbn [all_numbers] in R, T.
  injection R as <-. injection T as <-. simpl.
  split; [| split].
  - apply py_round_2_percent. unfold py_sum. simpl.
    unfold dict_get_default. simpl.
    apply weighted_four_range; assumption.
  - intros cat s [I | [I | [I | [I | []]]]]; injection I as _ <-;
      now apply py_round_2_percent.
  - apply py_round_2_nonneg, py_sum_nonneg. simpl.
    repeat constructor;
      [exact (proj1 Ra) | exact (proj1 Rb) | exact (proj1 Rc) | exact (proj1 Rd)].
Qed.

(** Every package [rank] returns has a final score and category scores
    between 0 and 100 and a total cost of at least 0, as the ranked
    package of the API requires, when every discovered item has a price
    of at least 0, a rating between 0 and 5 and a capacity of at least 0,
    the attendees are at least 1 and no custom weight is negative; [rank]
    does return then. *)
Theorem ranked_scores_in_range (uuids : nat -> string) (discovered : list Item)
    (requirements : Requirements) (custom_weights : option CustomWeights) :
  (forall item, In item discovered -> item_in_range item) ->
  (forall n, attendees requirements = Some n -> (1 <= n)%Z) ->
  custom_weights_nonneg custom_weights ->
  exists out,
    rank uuids discovered requirements custom_weights = Some out /\
    forall p, In p out ->
      0 <= final_score p <= 100 /\
      (forall cat s, In (cat, s) (category_scores p) -> 0 <= s <= 100) /\
      0 <= total_cost p.
Proof.
  intros Hd Ha Hw.
  assert (N : attendees requirements <> Some 0%Z).
  { intros E. specialize (Ha _ E). lia. }
  destruct (rank_returns uuids discovered requirements custom_weights N
              (nonneg_numbers_where_read _ Hw))
    as (top & rest & R).
  exists (top :: rest). split; [exact R |]. intros p I.
  destruct (rank_members _ _ _ _ _ _ R I) as (u & pkg & Ip & Sp).
  destruct (rank_packages_shape _ _ _ Ip) as (a & b & c & d & -> & Ia & Ib & Ic & Id).
  exact (score_package_range u a b c d requirements custom_weights (unranked p)
           (candidates_in_range _ _ _ _ Hd Ia) (candidates_in_range _ _ _ _ Hd Ib)
           (candidates_in_range _ _ _ _ Hd Ic) (candidates_in_range _ _ _ _ Hd Id)
           Ha Hw Sp).
Qed.

Lemma sample_item_in_range (id category : string) (p r : Q) :
  0 <= p -> 0 <= r <= 5 -> item_in_range (sample_item id category p r).
Proof.
  intros Hp Hr. split; [exact Hp |]. split.
  - intros ts E. injection E as <-. exact Hr.
  - intros c E. discriminate.
Qed.

(** The scores of the ranking of three discovered items. *)
Lemma ranked_scores_in_range_witness :
  exists out,
    rank sample_uuids sample_discovered one_person_one_day None = Some out /\
    forall p, In p out ->
      0 <= final_score p <= 100 /\
      (forall cat s, In (cat, s) (category_scores p) -> 0 <= s <= 100) /\
      0 <= total_cost p.
Proof.
  apply ranked_scores_in_range.
  - intros item [<- | [<- | [<- | []]]]; apply sample_item_in_range;
      try split; discriminate.
  - intros n E. injection E as <-. lia.
  - intros cw E. discriminate.
Defined.

End ScoreRange.

(** ** What a ranking depends on *)

Section RankingDependence.
Import RankingAgent Samples.
Local Open Scope list_scope.

Lemma insert_desc_map {A B : Type} (h : A -> B) (keyA : A -> Q) (keyB : B -> Q)
    (x : A) (l : list A) :
  (forall a, keyB (h a) = keyA a) ->
  map h (insert_desc keyA x l) = insert_desc keyB (h x) (map h l).
Proof.
  intros K. induction l as [| y l IH]; simpl; [reflexivity |].
  rewrite !K. destruct (Qle_bool (keyA y) (keyA x)); simpl; [reflexivity |].
  now rewrite IH.
Qed.

Lemma sort_desc_map {A B : Type} (h : A -> B) (keyA : A -> Q) (keyB : B -> Q)
    (l : list A) :
  (forall a, keyB (h a) = keyA a) ->
  map h (sort_desc keyA l) = sort_desc keyB (map h l).
Proof.
  intros K. induction l as [| x l IH]; simpl; [reflexivity |].
  now rewrite (insert_desc_map h keyA keyB), IH.
Qed.

Lemma sort_desc_all_equal {A : Type} (key : A -> Q) (k : Q) (l : list A) :
  (forall x, In x l -> key x == k) -> sort_desc key l = l.
Proof.
  induction l as [| x l IH]; intros H; simpl; [reflexivity |].
  rewrite IH by (intros y I; apply H; now right).
  destruct l as [| y l]; simpl; [reflexivity |].
  destruct (Qle_bool_cases (key y) (key x)) as [_ | L]; [reflexivity |].
  exfalso. rewrite (H x), (H y) in L by (simpl; tauto). now apply Qlt_irrefl in L.
Qed.

Lemma ranked_map {B : Type} (h : ScoredPackage -> B) (g : B -> nat -> B)
    (l1 l2 : list ScoredPackage) (start : nat) :
  (forall p r, h (set_rank p (Some r)) = g (h p) r) ->
  map h l1 = map h l2 ->
  map h (map (fun rp => set_rank (snd rp) (Some (fst rp))) (enumerate start l1))
  = map h (map (fun rp => set_rank (snd rp) (Some (fst rp))) (enumerate start l2)).
Proof.
  intros G. revert l2 start. induction l1 as [| p l1 IH]; intros [| q l2] start E;
    simpl in *; try discriminate; [reflexivity |].
  injection E as Ep El. rewrite !G, Ep. f_equal. now apply IH.
Qed.

(** Two rankings whose scored packages agree under a view [h] that shows
    the final score agree under that view after sorting and numbering. *)
Lemma rank_view {B : Type} (h : ScoredPackage -> B) (keyB : B -> Q) (g : B -> nat -> B)
    (uuids1 uuids2 : nat -> string) (discovered : list Item) (requirements : Requirements)
    (cw1 cw2 : option CustomWeights) (gen1 gen2 out1 out2 : list ScoredPackage) :
  (forall p, keyB (h p) = final_score p) ->
  (forall p r, h (set_rank p (Some r)) = g (h p) r) ->
  rank_scored uuids1 discovered requirements cw1 = Some gen1 ->
  rank_scored uuids2 discovered requirements cw2 = Some gen2 ->
  map h gen1 = map h gen2 ->
  rank uuids1 discovered requirements cw1 = Some out1 ->
  rank uuids2 discovered requirements cw2 = Some out2 ->
  map h out1 = map h out2.
Proof.
  intros K G G1 G2 E R1 R2. unfold rank in R1, R2. rewrite G1 in R1. rewrite G2 in R2.
  injection R1 as <-. injection R2 as <-.
  apply (ranked_map h g); [exact G |].
  rewrite !(sort_desc_map h final_score keyB) by exact K. now rewrite E.
Qed.

Lemma score_packages_view {B : Type} (h : ScoredPackage -> B)
    (uuids1 uuids2 : nat -> string) (requirements : Requirements)
    (cw1 cw2 : option CustomWeights) (pkgs : list (dict Item)) :
  (forall u1 u2 pkg sp1 sp2,
      In pkg pkgs ->
      score_package u1 pkg requirements cw1 = Some sp1 ->
      score_package u2 pkg requirements cw2 = Some sp2 -> h sp1 = h sp2) ->
  forall i gen1 gen2,
    score_packages uuids1 i pkgs requirements cw1 = Some gen1 ->
    score_packages uuids2 i pkgs requirements cw2 = Some gen2 ->
    map h gen1 = map h gen2.
Proof.
  induction pkgs as [| pkg pkgs IH]; intros H i gen1 gen2; simpl.
  - intros E1 E2. injection E1 as <-. injection E2 as <-. reflexivity.
  - destruct (score_package (uuids1 i) pkg requirements cw1) as [sp1 |] eqn:S1;
      [| discriminate].
    destruct (score_package (uuids2 i) pkg requirements cw2) as [sp2 |] eqn:S2;
      [| discriminate].
    destruct (score_packages uuids1 (S i) pkgs requirements cw1) as [r1 |] eqn:T1;
      [| discriminate].
    destruct (score_packages uuids2 (S i) pkgs requirements cw2) as [r2 |] eqn:T2;
      [| discriminate].
    intros E1 E2. injection E1 as <-. injection E2 as <-. simpl.
    rewrite (H _ _ pkg sp1 sp2 (or_introl eq_refl) S1 S2). f_equal.
    apply (IH (fun u1 u2 p s1 s2 I => H u1 u2 p s1 s2 (or_intror I)) (S i)); assumption.
Qed.

Lemma score_package_without_id (u1 u2 : string) (pkg : dict Item)
    (requirements : Requirements) (cw : option CustomWeights) (sp1 sp2 : ScoredPackage) :
  score_package u1 pkg requirements cw = Some sp1 ->
  score_package u2 pkg requirements cw = Some sp2 ->
  without_id sp1 = without_id sp2.
Proof.
  intros S1 S2.
  apply score_package_inv in S1 as (cs & bd & read & terms & E & R & T & ->).
  apply score_package_inv in S2 as (cs' & bd' & read' & terms' & E' & R' & T' & ->).
  rewrite E in E'. injection E' as <- <-.
  rewrite R in R'. injection R' as <-.
  rewrite T in T'. injection T' as <-.
  reflexivity.
Qed.

Lemma rank_without_id (uuids1 uuids2 : nat -> string) (discovered : list Item)
    (requirements : Requirements) (custom_weights : option CustomWeights)
    (out1 out2 : list ScoredPackage) :
  rank uuids1 discovered requirements custom_weights = Some out1 ->
  rank uuids2 discovered requirements custom_weights = Some out2 ->
  map without_id out1 = map without_id out2.
Proof.
  intros R1 R2.
  destruct (rank_output _ _ _ _ _ R1) as (gen1 & G1 & _).
  destruct (rank_output _ _ _ _ _ R2) as (gen2 & G2 & _).
  apply (rank_view without_id final_score (fun b r => set_rank b (Some r))
           uuids1 uuids2 discovered requirements custom_weights custom_weights
           gen1 gen2 out1 out2); try assumption; try reflexivity.
  unfold rank_scored in G1, G2.
  apply (score_packages_view without_id uuids1 uuids2 requirements
           custom_weights custom_weights (rank_packages discovered requirements)
           (fun u1 u2 pkg sp1 sp2 _ => score_package_without_id u1 u2 pkg requirements
                                         custom_weights sp1 sp2) 0%nat); assumption.
Qed.

Lemma zero_importance_final_score (uuid : string) (a b c d : Item)
    (requirements : Requirements) (cw : CustomWeights) (sp : ScoredPackage) :
  category_importance cw = Some (importance_of 0 0 0 0) ->
  score_package uuid
    [("flights", a); ("hotels", b); ("meeting_rooms", c); ("catering", d)]
    requirements (Some cw) = Some sp ->
  final_score sp = py_round 0 2.
Proof.
  intros Ci S.
  apply score_package_inv in S as (cs & bd & read & terms & E & R & T & ->).
  destruct (score_categories_four _ _ _ _ _ _ _ _ E) as (sf & sh & sm & sc & ->).
  unfold importance_for in R, T. rewrite Ci in R, T.
  vm_compute in R. injection R as <-.
  cbn in T. injection T as <-. simpl.
  apply py_round_compat.
  unfold py_sum, dict_get_default. simpl.
  assert (Zero : 0 / 100 == 0) by reflexivity.
  rewrite Zero. ring.
Qed.

(** With a category importance of 0 for all four categories [rank] does
    not divide by zero: every package gets the final score 0, and the
    packages come back in the order in which they were generated. *)
Theorem zero_importance_keeps_generation_order (uuids : nat -> string)
    (discovered : list Item) (requirements : Requirements) (cw : CustomWeights)
    (out : list ScoredPackage) :
  category_importance cw = Some (importance_of 0 0 0 0) ->
  rank uuids discovered requirements (Some cw) = Some out ->
  (forall p, In p out -> final_score p == 0) /\
  rank_scored uuids discovered requirements (Some cw) = Some (map unranked out).
Proof.
  intros Ci R.
  assert (F : forall p, In p out -> final_score p = py_round 0 2).
  { intros p I.
    destruct (rank_members _ _ _ _ _ _ R I) as (u & pkg & Ip & Sp).
    destruct (rank_packages_shape _ _ _ Ip) as (a & b & c & d & -> & _).
    exact (zero_importance_final_score u a b c d requirements cw (unranked p) Ci Sp). }
  split.
  - intros p I. rewrite (F p I). reflexivity.
  - destruct (rank_output _ _ _ _ _ R) as (generated & G & _ & U).
    rewrite G. f_equal. rewrite U. symmetry.
    apply (sort_desc_all_equal final_score (py_round 0 2)).
    intros x I.
    assert (I' : In x (map unranked out)).
    { rewrite U.
      apply (Permutation_in _ (sort_desc_perm final_score generated) I). }
    apply in_map_iff in I' as (p & <- & Ip). simpl. rewrite (F p Ip). reflexivity.
Qed.

(** The ranking of three items with no importance anywhere. *)
Lemma zero_importance_keeps_generation_order_witness :
  exists out,
    rank sample_uuids sample_discovered one_person_one_day
      (Some (importance_only (importance_of 0 0 0 0))) = Some out /\
    forall p, In p out -> final_score p == 0.
Proof.
  eexists. split; [vm_compute; reflexivity |].
  refine (proj1 (zero_importance_keeps_generation_order sample_uuids sample_discovered
                   one_person_one_day (importance_only (importance_of 0 0 0 0)) _ _ _)).
  - reflexivity.
  - vm_compute. reflexivity.
Defined.







End RankingDependence.

(** ** The session of the crew *)

Section CrewSessions.
Import RankingAgent CartAgent RetreatPlannerCrew RequirementsAnalystAgent CrewSession Samples.
Local Open Scope list_scope.

Lemma validated_attendees (r : Requirements) :
  validate_requirements r = Ok tt -> exists a, attendees r = Some a /\ (1 <= a)%Z.
Proof.
  unfold validate_requirements. intros V.
  destruct (attendees r) as [a |].
  - exists a. split; [reflexivity |].
    destruct (Z.leb_spec a 0); [discriminate | lia].
  - discriminate.
Qed.

Lemma validated_budget (r : Requirements) :
  validate_requirements r = Ok tt -> exists b, budget r = Some b /\ 0 < b.
Proof.
  unfold validate_requirements. intros V.
  destruct ((match attendees r with Some a => a | None => 0 end) <=? 0)%Z;
    [discriminate |].
  destruct (budget r) as [b |].
  - exists b. split; [reflexivity |].
    destruct (Qle_bool_cases b 0); [discriminate | lra].
  - discriminate.
Qed.

Lemma validated_not_zero (r : Requirements) :
  validate_requirements r = Ok tt -> attendees r <> Some 0%Z.
Proof.
  intros V E. destruct (validated_attendees r V) as (a & Ea & La).
  rewrite E in Ea. injection Ea as <-. lia.
Qed.

Lemma analyze_outcome (ensured : Requirements) :
  (analyze ensured = Ok ensured /\ validate_requirements ensured = Ok tt) \/
  (exists message, analyze ensured = ValueError message).
Proof.
  unfold analyze, validate_requirements.
  destruct ((match attendees ensured with Some a => a | None => 0 end) <=? 0)%Z;
    [right; eauto |].
  destruct (Qle_bool (match budget ensured with Some b => b | None => 0 end) 0);
    [right; eauto |].
  destruct (truthy (location ensured)); [| right; eauto].
  destruct (truthy (duration ensured)); [| right; eauto].
  left. split; reflexivity.
Qed.

Lemma rank_bounds (uuids : nat -> string) (discovered : list Item)
    (requirements : Requirements) (custom_weights : option CustomWeights)
    (out : list ScoredPackage) :
  rank uuids discovered requirements custom_weights = Some out ->
  out <> [] /\ (List.length out <= 50)%nat /\
  forall p, In p out -> dict_keys (items p) = categories.
Proof.
  intros R. pose proof (rank_length _ _ _ _ _ R) as L. split; [| split].
  - pose proof (rank_packages_not_empty discovered requirements) as NE.
    intros ->. destruct (rank_packages discovered requirements); [congruence | discriminate].
  - rewrite L, rank_packages_eq, length_firstn. apply Nat.le_min_l.
  - intros p I.
    destruct (rank_members _ _ _ _ _ _ R I) as (u & pkg & Ip & Sp).
    apply score_package_shape in Sp as [_ It]. simpl in It. rewrite It.
    destruct (rank_packages_shape _ _ _ Ip) as (a & b & c & d & -> & _). reflexivity.
Qed.

Lemma NoDup_categories : NoDup categories.
Proof.
  unfold categories. repeat constructor; simpl; intuition discriminate.
Qed.

Lemma build_cart_line_categories (uuid now : string) (pct : Q) (p : ScoredPackage)
    (requirements : Requirements) :
  dict_keys (items p) = categories ->
  line_categories (build_cart uuid now pct p requirements) = categories.
Proof.
  intros K. unfold line_categories.
  destruct (build_cart_fields uuid now pct p requirements) as (-> & _).
  rewrite build_lines_map by (rewrite K; exact NoDup_categories).
  unfold dict_keys in *. rewrite map_map. simpl. exact K.
Qed.

Lemma dict_set_keys_present {V : Type} (d : dict V) (k : string) (v : V) :
  In k (dict_keys d) -> dict_keys (dict_set d k v) = dict_keys d.
Proof.
  induction d as [| [k' v'] d IH]; simpl; [tauto |].
  destruct (String.eqb_spec k' k) as [-> | N]; simpl; [reflexivity |].
  intros [E | I]; [congruence | now rewrite IH].
Qed.

Lemma dict_del_keys_incl {V : Type} (d : dict V) (k : string) :
  incl (dict_keys (dict_del d k)) (dict_keys d).
Proof.
  induction d as [| [k' v'] d IH]; simpl; [apply incl_refl |].
  destruct (String.eqb k' k); simpl.
  - apply incl_tl, incl_refl.
  - intros x [E | I]; [now left | right; now apply IH].
Qed.

Lemma dict_del_keys_NoDup {V : Type} (d : dict V) (k : string) :
  NoDup (dict_keys d) -> NoDup (dict_keys (dict_del d k)).
Proof.
  induction d as [| [k' v'] d IH]; simpl; [tauto |].
  intros N. inversion N as [| ? ? Nk Nd]; subst.
  destruct (String.eqb k' k); simpl; [exact Nd |].
  constructor; [| now apply IH].
  intros I. apply Nk. exact (dict_del_keys_incl d k _ I).
Qed.

Lemma find_line_key (lines : dict CartItem) (id category : string) (line : CartItem) :
  find_line lines id = Some (category, line) -> In category (dict_keys lines).
Proof.
  induction lines as [| [c l] lines IH]; simpl; [discriminate |].
  destruct (String.eqb (item_id (line_item l)) id).
  - intros E. injection E as -> _. now left.
  - intros E. right. now apply IH.
Qed.

Lemma modify_line_categories (now : string) (c : Cart) (m : Modification) :
  incl (line_categories (modify now c m)) (line_categories c) /\
  (NoDup (line_categories c) -> NoDup (line_categories (modify now c m))).
Proof.
  assert (Same : incl (line_categories c) (line_categories c) /\
                 (NoDup (line_categories c) -> NoDup (line_categories c)))
    by (split; [apply incl_refl | tauto]).
  unfold modify.
  destruct (String.eqb (action m) "swap").
  { unfold swap_item.
    destruct (truthy (mod_item_id m)) as [id |]; [| exact Same].
    destruct (new_item m) as [replacement |]; [| exact Same].
    destruct (find_line (cart_items c) id) as [[category line] |] eqn:F; [| exact Same].
    unfold line_categories. simpl.
    rewrite (dict_set_keys_present _ _ _ (find_line_key _ _ _ _ F)). exact Same. }
  destruct (String.eqb (action m) "remove").
  { unfold remove_item.
    destruct (truthy (mod_item_id m)) as [id |]; [| exact Same].
    destruct (find_line (cart_items c) id) as [[category line] |] eqn:F; [| exact Same].
    unfold line_categories. simpl. split.
    - apply dict_del_keys_incl.
    - apply dict_del_keys_NoDup. }
  destruct (String.eqb (action m) "optimize"); exact Same.
Qed.

Lemma new_session_ok : session_ok new_session.
Proof. repeat split; simpl in *; try discriminate; congruence. Qed.

Lemma run_requirements_analyst_ok (ensured : Requirements) (s : Crew) :
  session_ok s ->
  session_ok (snd (run_requirements_analyst ensured s)) /\
  fst (run_requirements_analyst ensured s) <> Raised.
Proof.
  intros Ok. pose proof Ok as (Hr & Hd & Hk & Hc). unfold run_requirements_analyst.
  destruct (analyze_outcome ensured) as [[-> V] | [message ->]]; simpl.
  - split; [| discriminate]. split; [| split; [| split]]; simpl.
    + intros r E. injection E as <-. exact V.
    + discriminate.
    + intros l E. destruct (Hk l E) as (_ & D & R). split; [discriminate |].
      split; [exact D | exact R].
    + exact Hc.
  - split; [exact Ok | discriminate].
Qed.

Lemma run_discovery_agent_ok (found : list Item) (s : Crew) :
  session_ok s ->
  session_ok (snd (run_discovery_agent found s)) /\
  fst (run_discovery_agent found s) <> Raised.
Proof.
  intros Ok. pose proof Ok as (Hr & Hd & Hk & Hc). unfold run_discovery_agent.
  destruct (requirements s) as [r |] eqn:E; simpl.
  - split; [| discriminate]. split; [| split; [| split]]; simpl.
    + intros r0 K. apply Hr. congruence.
    + discriminate.
    + intros l K. destruct (Hk l K) as (_ & _ & R).
      split; [discriminate |]. split; [discriminate | exact R].
    + exact Hc.
  - split; [exact Ok | discriminate].
Qed.

Lemma run_ranking_agent_ok (draws : Draws) (custom_weights : option CustomWeights)
    (s : Crew) :
  session_ok s ->
  session_ok (snd (run_ranking_agent draws custom_weights s)) /\
  (fst (run_ranking_agent draws custom_weights s) = Raised ->
   numbers_where_read custom_weights = false /\
   snd (run_ranking_agent draws custom_weights s) = s).
Proof.
  intros Ok. pose proof Ok as (Hr & Hd & Hk & Hc). unfold run_ranking_agent.
  destruct (discovered_items s) as [[| item discovered] |] eqn:D; simpl;
    try (split; [exact Ok | discriminate]).
  destruct (requirements s) as [r |] eqn:E;
    [| exfalso; apply Hd; [discriminate | reflexivity]].
  destruct (numbers_where_read custom_weights) eqn:W;
    [| rewrite (rank_raises (package_uuids draws) (item :: discovered) r custom_weights
                  (validated_not_zero r (Hr r eq_refl)) W);
       simpl; split; [exact Ok | split; reflexivity]].
  destruct (rank_returns (package_uuids draws) (item :: discovered) r custom_weights
              (validated_not_zero r (Hr r eq_refl)) W) as (top & rest & R).
  rewrite R. simpl. split; [| discriminate]. split; [| split; [| split]]; simpl.
  - intros r0 K. apply Hr. congruence.
  - discriminate.
  - intros l K. injection K as <-.
    split; [discriminate |]. split; [discriminate |].
    exact (rank_bounds _ _ _ _ _ R).
  - intros c C. destruct (Hc c C) as (_ & Rc). split; [discriminate | exact Rc].
Qed.

Lemma run_cart_agent_ok (draws : Draws) (package_id : string) (s : Crew) :
  session_ok s ->
  session_ok (snd (run_cart_agent draws package_id s)) /\
  fst (run_cart_agent draws package_id s) <> Raised.
Proof.
  intros Ok. pose proof Ok as (Hr & Hd & Hk & Hc). unfold run_cart_agent.
  destruct (ranked_packages s) as [[| top rest] |] eqn:K;
    try (split; [exact Ok | discriminate]).
  destruct (find _ (top :: rest)) as [selected |] eqn:F;
    [| split; [exact Ok | discriminate]].
  destruct (Hk _ eq_refl) as (Nr & Nd & _ & _ & Keys).
  destruct (requirements s) as [r |] eqn:E; [| congruence].
  simpl. split; [| discriminate]. split; [| split; [| split]]; simpl.
  - intros r0 E0. apply Hr. congruence.
  - intros _. discriminate.
  - intros l E0. injection E0 as <-. destruct (Hk _ eq_refl) as (_ & R).
    split; [discriminate | exact R].
  - intros c E0. injection E0 as <-. split; [discriminate |]. split; [constructor |].
    rewrite (build_cart_line_categories _ _ _ selected r
               (Keys selected (proj1 (find_some _ _ F)))).
    split; [exact NoDup_categories | apply incl_refl].
Qed.

Lemma modify_cart_ok (draws : Draws) (modification : Modification) (s : Crew) :
  session_ok s ->
  session_ok (snd (modify_cart draws s modification)) /\
  (fst (modify_cart draws s modification) = Raised ->
   action modification = "adjust_weights" /\
   numbers_where_read (weights modification) = false /\
   snd (modify_cart draws s modification) = s).
Proof.
  intros Ok. pose proof Ok as (Hr & Hd & Hk & Hc). unfold modify_cart.
  destruct (cart s) as [current |] eqn:C; [| split; [exact Ok | discriminate]].
  destruct (Hc current eq_refl) as (Nk & Rc & Nc & Ic).
  destruct (ranked_packages s) as [ranked |] eqn:K; [| congruence].
  destruct (Hk ranked eq_refl) as (Nr & Nd & Rk).
  destruct (discovered_items s) as [discovered |] eqn:D; [| congruence].
  destruct (requirements s) as [r |] eqn:E; [| congruence].
  destruct (String.eqb_spec (action modification) "adjust_weights") as [A | A].
  - destruct (numbers_where_read (weights modification)) eqn:W;
      [| rewrite (rank_raises (package_uuids draws) discovered r (weights modification)
                    (validated_not_zero r (Hr r eq_refl)) W);
         simpl; split; [exact Ok | repeat split; assumption]].
    destruct (rank_returns (package_uuids draws) discovered r (weights modification)
                (validated_not_zero r (Hr r eq_refl)) W) as (top & rest & R).
    rewrite R. simpl. split; [| discriminate].
    destruct (rank_bounds _ _ _ _ _ R) as (B1 & B2 & B3).
    split; [| split; [| split]]; simpl.
    + intros r0 E0. apply Hr. congruence.
    + intros _. discriminate.
    + intros l E0. injection E0 as <-.
      split; [discriminate |]. split; [discriminate |]. now split; [| split].
    + intros c E0. injection E0 as <-. split; [discriminate |]. split; [constructor |].
      rewrite (build_cart_line_categories _ _ _ top r (B3 top (or_introl eq_refl))).
      split; [exact NoDup_categories | apply incl_refl].
  - simpl. split; [| discriminate]. split; [| split; [| split]]; simpl.
    + intros r0 E0. apply Hr. congruence.
    + intros _. discriminate.
    + intros l E0. injection E0 as <-.
      split; [discriminate |]. split; [discriminate | exact Rk].
    + intros c E0. injection E0 as <-. split; [discriminate |].
      split; [now constructor |].
      destruct (modify_line_categories (now draws) current modification) as [I N].
      split; [exact (N Nc) |].
      intros x Ix. apply Ic, I, Ix.
Qed.

Lemma process_checkout_not_raised (draws : CheckoutAgent.CheckoutDraws) (c : Cart)
    (data : CheckoutAgent.CheckoutData) :
  CheckoutAgent.process_checkout draws c data <> Raised.
Proof.
  unfold CheckoutAgent.process_checkout, CheckoutAgent.validate_checkout_data.
  destruct (truthy _); [| discriminate].
  destruct (truthy _); [| discriminate].
  destruct (_ || _); [discriminate |].
  destruct (negb _); [discriminate |].
  destruct (negb _); discriminate.
Qed.

Lemma run_checkout_agent_ok (draws : CheckoutAgent.CheckoutDraws)
    (data : CheckoutAgent.CheckoutData) (s : Crew) :
  snd (run_checkout_agent draws data s) = s /\
  fst (run_checkout_agent draws data s) <> Raised.
Proof.
  unfold run_checkout_agent. destruct (cart s) as [c |]; simpl.
  - split; [reflexivity | apply process_checkout_not_raised].
  - split; [reflexivity | discriminate].
Qed.

(** The calls that rank, with the weights they rank with. *)
Lemma perform_ok (call : Call) (s : Crew) :
  session_ok s ->
  session_ok (snd (perform call s)) /\
  (fst (perform call s) = RaisedOther ->
   snd (perform call s) = s /\
   exists draws custom_weights,
     numbers_where_read custom_weights = false /\
     (call = call_ranking_agent draws custom_weights \/
      exists modification,
        call = call_modify_cart draws modification /\
        action modification = "adjust_weights" /\
        weights modification = custom_weights)).
Proof.
  intros Ok.
  assert (E : forall A (r : result A), ending r = RaisedOther -> r = Raised)
    by (intros A [v | m |]; simpl; congruence).
  destruct call as [ensured | found | draws cw | draws id | draws m | draws data]; simpl.
  - destruct (run_requirements_analyst_ok ensured s Ok) as [S R].
    destruct (run_requirements_analyst ensured s) as [r s']; simpl in *.
    split; [exact S |]. intros F. elim (R (E _ _ F)).
  - destruct (run_discovery_agent_ok found s Ok) as [S R].
    destruct (run_discovery_agent found s) as [r s']; simpl in *.
    split; [exact S |]. intros F. elim (R (E _ _ F)).
  - destruct (run_ranking_agent_ok draws cw s Ok) as [S R].
    destruct (run_ranking_agent draws cw s) as [r s']; simpl in *.
    split; [exact S |]. intros F. destruct (R (E _ _ F)) as [W U].
    split; [exact U |]. exists draws, cw. split; [exact W | now left].
  - destruct (run_cart_agent_ok draws id s Ok) as [S R].
    destruct (run_cart_agent draws id s) as [r s']; simpl in *.
    split; [exact S |]. intros F. elim (R (E _ _ F)).
  - destruct (modify_cart_ok draws m s Ok) as [S R].
    destruct (modify_cart draws s m) as [r s']; simpl in *.
    split; [exact S |]. intros F. destruct (R (E _ _ F)) as (A & W & U).
    split; [exact U |]. exists draws, (weights m). split; [exact W |].
    right. exists m. repeat split. exact A.
  - destruct (run_checkout_agent_ok draws data s) as [S R].
    destruct (run_checkout_agent draws data s) as [r s']; simpl in *.
    split; [now subst |]. intros F. elim (R (E _ _ F)).
Qed.

Lemma session_after_ok (calls : list Call) : session_ok (session_after calls).
Proof.
  unfold session_after.
  assert (G : forall s, session_ok s ->
                        session_ok (fold_left (fun self call => snd (perform call self))
                                      calls s)).
  { induction calls as [| call calls IH]; intros s Ok; simpl; [exact Ok |].
    apply IH. exact (proj1 (perform_ok call s Ok)). }
  apply G, new_session_ok.
Qed.

(** In whatever order the methods of the crew are called on a new crew,
    with arguments of the shapes the records give them (requirements
    with numeric attendees and budget, items with numeric prices,
    modifications and checkout data as the request models dump them),
    the only call that ends with an exception other than the ValueError
    of a guard, of the analyst's validation or of the checkout is a
    ranking, by [run_ranking_agent] or by an adjust_weights modification,
    with weights that hold None where the ranking reads them (the
    TypeError of a score multiplied by None), and such a call leaves the
    session as it was.  The ranking never divides by zero and never meets
    a missing list or requirements record, because the requirements
    stored were validated (at least one attendee) and each step is refused
    until the one before it has run. *)
Theorem session_calls_raise_only_value_errors (calls : list Call) (call : Call) :
  fst (perform call (session_after calls)) = RaisedOther ->
  snd (perform call (session_after calls)) = session_after calls /\
  exists draws custom_weights,
    numbers_where_read custom_weights = false /\
    (call = call_ranking_agent draws custom_weights \/
     exists modification,
       call = call_modify_cart draws modification /\
       action modification = "adjust_weights" /\
       weights modification = custom_weights).
Proof. exact (proj2 (perform_ok call _ (session_after_ok calls))). Qed.

(** The sample session, then the modification that gives the price weight
    of flights alone: the call raises and the session keeps its cart. *)
Lemma session_calls_raise_only_value_errors_witness :
  fst (perform (call_modify_cart sample_draws cheaper_flights)
         (session_after sample_calls)) = RaisedOther /\
  snd (perform (call_modify_cart sample_draws cheaper_flights)
         (session_after sample_calls)) = session_after sample_calls.
Proof.
  assert (F : fst (perform (call_modify_cart sample_draws cheaper_flights)
                     (session_after sample_calls)) = RaisedOther)
    by (vm_compute; reflexivity).
  split; [exact F |].
  exact (proj1 (session_calls_raise_only_value_errors sample_calls
                  (call_modify_cart sample_draws cheaper_flights) F)).
Defined.

(** The state [get_session_state] reports is consistent after any
    sequence of calls on a new crew: a cart implies ranked packages,
    ranked packages imply requirements, discovered items imply
    requirements, and there are never more than 50 ranked packages. *)
Theorem session_state_is_consistent (calls : list Call) :
  let state := get_session_state (session_after calls) in
  (has_cart state = true -> (1 <= ranked_packages_count state)%nat) /\
  (ranked_packages_count state <= 50)%nat /\
  ((1 <= ranked_packages_count state)%nat -> has_requirements state = true) /\
  ((1 <= discovered_items_count state)%nat -> has_requirements state = true).
Proof.
  destruct (session_after_ok calls) as (Hr & Hd & Hk & Hc).
  unfold get_session_state. simpl.
  destruct (cart (session_after calls)) as [c |] eqn:C;
    destruct (ranked_packages (session_after calls)) as [l |] eqn:K;
    destruct (discovered_items (session_after calls)) as [d |] eqn:D;
    destruct (requirements (session_after calls)) as [r |] eqn:E;
    try (destruct (Hk l eq_refl) as (Nr & Nd & Nl & Ll & _));
    try (destruct (Hc c eq_refl) as (Nk & _));
    try congruence;
    try (exfalso; apply Hd; [discriminate | reflexivity]);
    repeat split; simpl; try lia; try congruence; try discriminate;
    try (destruct l; [congruence | simpl; lia]).
Qed.

(** The cart a session holds, after any sequence of calls on a new crew,
    was built by [build_cart] and modified by [modify]; it has at most one
    line per category and lines for the four categories only, so at most
    four lines. *)
Theorem session_cart_lines (calls : list Call) (c : Cart) :
  cart (session_after calls) = Some c ->
  reachable c /\
  NoDup (line_categories c) /\ incl (line_categories c) categories /\
  (List.length (cart_items c) <= 4)%nat.
Proof.
  intros C. destruct (session_after_ok calls) as (_ & _ & _ & Hc).
  destruct (Hc c C) as (_ & R & N & I).
  split; [exact R |]. split; [exact N |]. split; [exact I |].
  pose proof (NoDup_incl_length N I) as L.
  unfold line_categories, dict_keys in L. rewrite length_map in L. exact L.
Qed.

(** The cart of the sample session has four lines. *)
Lemma session_cart_lines_witness :
  exists c,
    cart (session_after sample_calls) = Some c /\
    (List.length (cart_items c) <= 4)%nat.
Proof.
  eexists. split; [vm_compute; reflexivity |].
  refine (proj2 (proj2 (proj2 (session_cart_lines sample_calls _ _)))).
  vm_compute. reflexivity.
Defined.

Lemma find_unique {A : Type} (f : A -> bool) (l : list A) (x : A) :
  In x l -> f x = true -> (forall y, In y l -> f y = true -> y = x) ->
  find f l = Some x.
Proof.
  induction l as [| y l IH]; simpl; [tauto |].
  intros I Fx U. destruct (f y) eqn:Fy.
  - f_equal. apply U; [now left | exact Fy].
  - destruct I as [-> | I]; [congruence |].
    apply IH; [exact I | exact Fx |]. intros z Iz. apply U. now right.
Qed.

Lemma NoDup_map_unique {A B : Type} (f : A -> B) (l : list A) (x y : A) :
  NoDup (map f l) -> In x l -> In y l -> f x = f y -> x = y.
Proof.
  induction l as [| z l IH]; simpl; [tauto |].
  intros N. inversion N as [| ? ? Nz Nl]; subst.
  intros [-> | Ix] [-> | Iy] E; try reflexivity.
  - exfalso. apply Nz. rewrite E. now apply in_map.
  - exfalso. apply Nz. rewrite <- E. now apply in_map.
  - now apply IH.
Qed.

(** [run_cart_agent] builds the cart from the ranked package whose
    identifier it is given, when the identifiers of the ranked packages
    differ, and stores it; given an identifier that no ranked package has
    it raises ValueError and leaves the session as it was. *)
Theorem run_cart_agent_selects (draws : Draws) (self : Crew)
    (ranked : list ScoredPackage) (reqs : Requirements) :
  ranked_packages self = Some ranked ->
  requirements self = Some reqs ->
  (forall p, In p ranked -> NoDup (map package_id ranked) ->
     let built :=
       build_cart (cart_uuid draws) (now draws) (savings_pct draws) p reqs in
     run_cart_agent draws (package_id p) self
     = (Ok built,
        {| requirements := requirements self;
           discovered_items := discovered_items self;
           ranked_packages := ranked_packages self;
           cart := Some built |})) /\
  (forall id, (forall q, In q ranked -> package_id q <> id) ->
     exists message, run_cart_agent draws id self = (ValueError message, self)).
Proof.
  intros K E. split.
  - intros p I N. unfold run_cart_agent. rewrite K, E.
    destruct ranked as [| top rest]; [destruct I |].
    rewrite (find_unique (fun q => String.eqb (package_id q) (package_id p))
               (top :: rest) p I (String.eqb_refl _)).
    + reflexivity.
    + intros y Iy Ey. apply String.eqb_eq in Ey.
      exact (NoDup_map_unique package_id (top :: rest) y p N Iy I Ey).
  - intros id Hid. unfold run_cart_agent. rewrite K.
    destruct ranked as [| top rest]; [eauto |].
    destruct (find _ (top :: rest)) as [q |] eqn:F; [| eauto].
    apply find_some in F as [Iq Eq]. apply String.eqb_eq in Eq.
    exfalso. exact (Hid q Iq Eq).
Qed.

(** In the sample session the second package is asked for and obtained. *)
Lemma run_cart_agent_selects_witness :
  exists ranked p,
    ranked_packages (session_after (firstn 3 sample_calls)) = Some ranked /\
    nth_error ranked 1 = Some p /\
    fst (run_cart_agent distinct_draws (package_id p)
           (session_after (firstn 3 sample_calls)))
    = Ok (build_cart sample_uuid sample_now 0.125 p one_person_one_day).
Proof.
  destruct (ranked_packages (session_after (firstn 3 sample_calls)))
    as [ranked |] eqn:K; [| vm_compute in K; discriminate].
  pose proof K as K'. vm_compute in K'. injection K' as <-.
  eexists. eexists. split; [reflexivity |]. split; [reflexivity |].
  refine (f_equal fst
            (proj1 (run_cart_agent_selects distinct_draws
                      (session_after (firstn 3 sample_calls)) _ one_person_one_day
                      K eq_refl) _ _ _)).
  - right. left. reflexivity.
  - repeat constructor; simpl; intuition discriminate.
Defined.

Lemma rank_of_nothing (uuids : nat -> string) (reqs : Requirements)
    (custom_weights : option CustomWeights) (out : list ScoredPackage) :
  rank uuids [] reqs custom_weights = Some out ->
  exists p, out = [p] /\
            items p = map (fun cat => (cat, create_placeholder_item cat reqs)) categories.
Proof.
  intros R. pose proof (rank_length _ _ _ _ _ R) as L.
  assert (P : rank_packages [] reqs
              = [map (fun cat => (cat, create_placeholder_item cat reqs)) categories])
    by (rewrite rank_packages_eq; reflexivity).
  rewrite P in L. destruct out as [| p [| q out]]; try discriminate.
  exists p. split; [reflexivity |].
  destruct (rank_members _ _ _ _ _ p R (or_introl eq_refl)) as (u & pkg & Ip & Sp).
  rewrite P in Ip. destruct Ip as [<- | []].
  apply score_package_shape in Sp as [_ It]. exact It.
Qed.

(** A search that finds nothing is handled in two ways.  In a session
    that holds a cart and whose last search returned no item,
    [run_ranking_agent] raises ValueError and changes nothing, but an
    adjust_weights modification, with weights that hold numbers where
    the ranking reads them, ranks the empty list: the ranking is one
    package of four placeholders, and the cart of the session becomes the
    cart of that package, four placeholder lines and a total of 0. *)
Theorem adjust_weights_after_empty_search (calls : list Call) (draws : Draws)
    (w : option CustomWeights) (current : Cart) (reqs : Requirements) :
  let self := session_after calls in
  cart self = Some current ->
  discovered_items self = Some [] ->
  requirements self = Some reqs ->
  (exists message, run_ranking_agent draws w self = (ValueError message, self)) /\
  (numbers_where_read w = true ->
   exists p c,
     modify_cart draws self (adjust_weights_request w)
     = (Ok c,
        {| requirements := Some reqs; discovered_items := Some [];
           ranked_packages := Some [p]; cart := Some c |}) /\
     map (fun line => line_item (snd line)) (cart_items c)
     = map (fun cat => create_placeholder_item cat reqs) categories /\
     total c == 0).
Proof.
  intros self C D E. split.
  - unfold run_ranking_agent. rewrite D. eauto.
  - intros W. destruct (session_after_ok calls) as (Hr & _).
    destruct (rank_returns (package_uuids draws) [] reqs w
                (validated_not_zero reqs (Hr reqs E)) W) as (top & rest & R).
    destruct (rank_of_nothing _ _ _ _ R) as (p & Ep & Ip).
    injection Ep as <- ->.
    exists top, (build_cart (cart_uuid draws) (now draws) (savings_pct draws) top reqs).
    split; [| split].
    + unfold modify_cart. fold self. rewrite C, D, E. simpl. rewrite R. reflexivity.
    + destruct (build_cart_fields (cart_uuid draws) (now draws) (savings_pct draws)
                  top reqs) as (-> & _).
      rewrite build_lines_map by (rewrite Ip; exact NoDup_categories).
      rewrite Ip, !map_map. reflexivity.
    + destruct (build_cart_fields (cart_uuid draws) (now draws) (savings_pct draws)
                  top reqs) as (_ & _ & _ & _ & ->).
      assert (Z : raw_subtotal (items top) reqs == 0).
      { rewrite Ip. unfold raw_subtotal, py_sum. cbn [map fold_left categories fst snd].
        cbn [create_placeholder_item price]. ring. }
      rewrite (py_round_compat _ 0 2); [reflexivity |].
      rewrite Z. ring.
Qed.

(** The sample session after a search that found nothing. *)
Lemma adjust_weights_after_empty_search_witness :
  exists c,
    fst (modify_cart distinct_draws (session_after sample_calls_empty_search)
           (adjust_weights_request None)) = Ok c /\
    total c == 0.
Proof.
  destruct (cart (session_after sample_calls_empty_search)) as [current |] eqn:C;
    [| vm_compute in C; discriminate].
  destruct (proj2 (adjust_weights_after_empty_search sample_calls_empty_search
                     distinct_draws None current one_person_one_day
                     C eq_refl eq_refl) eq_refl) as (p & c & M & _ & T).
  exists c. rewrite M. split; [reflexivity | exact T].
Defined.

End CrewSessions.

(** ** Checkout *)

Section Checkout.
Import CartAgent RetreatPlannerCrew CheckoutAgent Validators CrewSession Samples.
Local Open Scope list_scope.

Lemma contains_char_app (c : ascii) (s t : string) :
  contains_char c (s ++ t)%string = contains_char c s || contains_char c t.
Proof.
  induction s as [| a s IH]; simpl; [reflexivity |].
  rewrite IH. now rewrite orb_assoc.
Qed.

Lemma split_at_sign_spec (s before after : string) :
  split_at_sign s = Some (before, after) ->
  s = (before ++ "@" ++ after)%string /\ contains_char "@" before = false.
Proof.
  revert before. induction s as [| c s IH]; intros before; simpl; [discriminate |].
  destruct (Ascii.eqb_spec c "@") as [-> | N].
  - intros E. injection E as <- <-. split; reflexivity.
  - destruct (split_at_sign s) as [[b a] |]; [| discriminate].
    intros E. injection E as <- <-. destruct (IH b eq_refl) as [-> F].
    split; [reflexivity |]. simpl. rewrite F.
    destruct (Ascii.eqb_spec c "@"); [contradiction | reflexivity].
Qed.

Lemma split_at_sign_first (before after : string) :
  contains_char "@" before = false ->
  split_at_sign (before ++ "@" ++ after)%string = Some (before, after).
Proof.
  induction before as [| c before IH]; simpl in *; [reflexivity |].
  destruct (Ascii.eqb c "@"); simpl; [discriminate |].
  intros F. now rewrite IH.
Qed.

Lemma dot_before_end_spec (s : string) :
  dot_before_end s = true <->
  exists x y, s = (x ++ "." ++ y)%string /\ y <> EmptyString.
Proof.
  induction s as [| c s IH]; simpl.
  - split; [discriminate |]. intros (x & y & E & _). destruct x; discriminate.
  - rewrite orb_true_iff, andb_true_iff, negb_true_iff, IH. split.
    + intros [[Ec Es] | (x & y & -> & Ny)].
      * apply Ascii.eqb_eq in Ec as ->. exists EmptyString, s. split; [reflexivity |].
        intros ->. discriminate.
      * exists (String c x), y. split; [reflexivity | exact Ny].
    + intros (x & y & E & Ny). destruct x as [| a x]; simpl in E.
      * injection E as -> ->. left. split; [reflexivity |].
        destruct y; [contradiction | reflexivity].
      * injection E as -> ->. right. exists x, y. split; [reflexivity | exact Ny].
Qed.

(** The function that stands for the pattern accepts the strings of the
    shape the pattern describes, and no other. *)
Lemma matches_email_pattern_spec (s : string) :
  matches_email_pattern s = true <-> email_shape s.
Proof.
  unfold matches_email_pattern, email_shape. split.
  - destruct (split_at_sign s) as [[before after] |] eqn:E; [| discriminate].
    destruct (split_at_sign_spec _ _ _ E) as [-> F].
    destruct before as [| b before]; [discriminate |].
    destruct after as [| a after]; [discriminate |].
    rewrite andb_true_iff, negb_true_iff, dot_before_end_spec.
    intros [A (x & y & -> & Ny)].
    exists (String b before), (String a x), y.
    change (contains_char "@" (String a x ++ "." ++ y)%string = false) in A.
    rewrite !contains_char_app, !orb_false_iff in A.
    destruct A as (Ax & _ & Ay).
    repeat split; try assumption; discriminate.
  - intros (l & x & y & -> & Nl & Nx & Ny & Fl & Fx & Fy).
    rewrite (split_at_sign_first l _ Fl).
    destruct l as [| a l]; [contradiction |].
    destruct x as [| b x]; [contradiction |].
    change ((String b x ++ "." ++ y)%string) with (String b (x ++ "." ++ y)%string).
    rewrite andb_true_iff, negb_true_iff. split.
    + change (contains_char "@" (String b x ++ "." ++ y)%string = false).
      rewrite !contains_char_app, Fx, Fy. reflexivity.
    + apply dot_before_end_spec. exists x, y. split; [reflexivity | exact Ny].
Qed.

Lemma email_shape_has_both (s : string) :
  matches_email_pattern s = true ->
  contains_char "@" s = true /\ contains_char "." s = true.
Proof.
  intros M. apply matches_email_pattern_spec in M
    as (l & x & y & -> & _).
  rewrite !contains_char_app. simpl. rewrite !orb_true_r. split; reflexivity.
Qed.

Lemma agent_validation_passes (data : CheckoutData) :
  CheckoutAgent.validate_checkout_data data = Ok tt <->
  exists n e,
    truthy (contact_get name data) = Some n /\
    truthy (contact_get email data) = Some e /\
    contains_char "@" e = true /\ contains_char "." e = true /\
    terms_accepted data = Some true.
Proof.
  unfold CheckoutAgent.validate_checkout_data. split.
  - destruct (truthy (contact_get name data)) as [n |]; [| discriminate].
    destruct (truthy (contact_get email data)) as [e |]; [| discriminate].
    destruct (contains_char "@" e) eqn:A; [| discriminate].
    destruct (contains_char "." e) eqn:D; [| discriminate].
    destruct (terms_accepted data) as [[|] |]; try discriminate.
    intros _. exists n, e. repeat split; assumption.
  - intros (n & e & -> & -> & -> & -> & ->). reflexivity.
Qed.

Lemma agent_validation_never_raises_other (data : CheckoutData) :
  CheckoutAgent.validate_checkout_data data <> Raised.
Proof.
  unfold CheckoutAgent.validate_checkout_data.
  destruct (truthy (contact_get name data)); [| discriminate].
  destruct (truthy (contact_get email data)) as [e |]; [| discriminate].
  destruct (negb (contains_char "@" e) || negb (contains_char "." e)); [discriminate |].
  destruct (negb _); discriminate.
Qed.

Lemma payment_succeeds (uuid now : string) (amount : Q) (p : Payment) :
  success (process_payment uuid now amount p) = true <->
  let m := match method p with Some m => m | None => "stripe" end in
  m = "stripe" \/ m = "invoice" \/ (m = "po" /\ truthy (po_number p) <> None).
Proof.
  unfold process_payment. cbv zeta.
  set (m := match method p with Some m => m | None => "stripe" end). clearbody m.
  destruct (String.eqb_spec m "stripe") as [E1 | N1]; [simpl; tauto |].
  destruct (String.eqb_spec m "invoice") as [E2 | N2]; [simpl; tauto |].
  destruct (String.eqb_spec m "po") as [E3 | N3].
  - destruct (truthy (po_number p)) as [number |]; simpl.
    + split; [| reflexivity]. intros _. right. right. split; [exact E3 | discriminate].
    + split; [discriminate |]. intros [E | [E | [_ E]]]; congruence.
  - simpl. split; [discriminate |]. intros [E | [E | [E _]]]; contradiction.
Qed.

Lemma process_checkout_returns (draws : CheckoutDraws) (cart : Cart)
    (data : CheckoutData) :
  (exists confirmation, process_checkout draws cart data = Ok confirmation) <->
  CheckoutAgent.validate_checkout_data data = Ok tt /\
  success (process_payment (payment_uuid draws) (payment_now draws) (total cart)
             (payment_of data)) = true.
Proof.
  unfold process_checkout. split.
  - intros [confirmation E].
    destruct (CheckoutAgent.validate_checkout_data data) as [[] | message |];
      try discriminate.
    split; [reflexivity |]. destruct (success _); [reflexivity | discriminate].
  - intros [-> ->]. simpl. eauto.
Qed.

Lemma in_appended (c : bool) (l : list string) (m e : string) :
  In e (if c then l ++ [m] else l) <-> In e l \/ (c = true /\ e = m).
Proof.
  destruct c; [rewrite in_app_iff; simpl |]; intuition congruence.
Qed.

Lemma validator_errors (data : CheckoutData) (e : string) :
  let m := match method (payment_of data) with Some m => m | None => "stripe" end in
  In e (snd (Validators.validate_checkout_data data)) <->
  (e = "Contact name is required" /\ truthy (contact_get name data) = None) \/
  (e = "Contact name must be at least 2 characters" /\
   exists n, truthy (contact_get name data) = Some n /\ (String.length n < 2)%nat) \/
  (e = "Contact email is required" /\ truthy (contact_get email data) = None) \/
  (e = "Invalid email format" /\
   exists a, truthy (contact_get email data) = Some a /\ matches_email_pattern a = false) \/
  (e = "Invalid payment method. Must be one of: stripe, invoice, po" /\
   m <> "stripe" /\ m <> "invoice" /\ m <> "po") \/
  (e = "PO number required for purchase order payment" /\
   m = "po" /\ truthy (po_number (payment_of data)) = None) \/
  (e = "Terms and conditions must be accepted" /\ terms_accepted data <> Some true).
Proof.
  intros m. unfold Validators.validate_checkout_data. cbv zeta. fold m.
  cbn [snd]. rewrite !in_appended.
  assert (Name :
    forall l : list string,
      In e (match truthy (contact_get name data) with
            | None => l ++ ["Contact name is required"]
            | Some n =>
                if (String.length n <? 2)%nat
                then l ++ ["Contact name must be at least 2 characters"] else l
            end) <->
      In e l \/
      (e = "Contact name is required" /\ truthy (contact_get name data) = None) \/
      (e = "Contact name must be at least 2 characters" /\
       exists n, truthy (contact_get name data) = Some n /\ (String.length n < 2)%nat)).
  { intros l. destruct (truthy (contact_get name data)) as [n |].
    - rewrite in_appended. destruct (Nat.ltb_spec (String.length n) 2) as [L | L].
      + split; [intros [I | [_ ->]]; eauto 10 |].
        intros [I | [[_ N] | [-> _]]]; try discriminate; auto.
      + split; [intros [I | [N _]]; [auto | discriminate] |].
        intros [I | [[_ N] | [_ (n' & N & L')]]]; try discriminate; auto.
        injection N as <-. lia.
    - rewrite in_app_iff. simpl. split.
      + intros [I | [<- | []]]; auto.
      + intros [I | [[-> _] | [_ (n' & N & _)]]]; try discriminate; auto. }
  assert (Email :
    forall l : list string,
      In e (match truthy (contact_get email data) with
            | None => l ++ ["Contact email is required"]
            | Some a =>
                if negb (matches_email_pattern a)
                then l ++ ["Invalid email format"] else l
            end) <->
      In e l \/
      (e = "Contact email is required" /\ truthy (contact_get email data) = None) \/
      (e = "Invalid email format" /\
       exists a, truthy (contact_get email data) = Some a /\
                 matches_email_pattern a = false)).
  { intros l. destruct (truthy (contact_get email data)) as [a |].
    - rewrite in_appended, negb_true_iff. split.
      + intros [I | [M ->]]; eauto 10.
      + intros [I | [[_ N] | [-> (a' & N & M)]]]; try discriminate; auto.
        injection N as <-. auto.
    - rewrite in_app_iff. simpl. split.
      + intros [I | [<- | []]]; auto.
      + intros [I | [[-> _] | [_ (a' & N & _)]]]; try discriminate; auto. }
  rewrite Email, Name. cbn [existsb In].
  rewrite !negb_true_iff, !orb_false_iff, andb_true_iff, !String.eqb_neq, String.eqb_eq.
  assert (Po : match truthy (po_number (payment_of data)) with
               | Some _ => false
               | None => true
               end = true <-> truthy (po_number (payment_of data)) = None)
    by (destruct (truthy (po_number (payment_of data))); split; congruence).
  assert (Terms : match terms_accepted data with Some b => b | None => false end = false
                  <-> terms_accepted data <> Some true)
    by (destruct (terms_accepted data) as [[|] |]; split; congruence).
  rewrite Po, Terms. intuition (subst; auto).
Qed.

Lemma validator_valid (data : CheckoutData) :
  fst (Validators.validate_checkout_data data) = true <->
  snd (Validators.validate_checkout_data data) = [].
Proof.
  unfold Validators.validate_checkout_data. cbv zeta. cbn [fst snd].
  match goal with |- (List.length ?l =? 0)%nat = true <-> _ => destruct l end;
    simpl; split; congruence.
Qed.

(** Checkout data that the validator of the utilities finds valid is
    processed by the checkout agent, whatever the cart: neither the
    agent's own validation nor the payment step raises.  The agent
    accepts more: when it returns a confirmation, the only errors the
    validator can report are a contact name of one character and an email
    that contains an at sign and a dot without having the shape local part,
    at sign, domain with an inner dot. *)
Theorem validated_checkout_is_processed (draws : CheckoutDraws) (cart : Cart)
    (data : CheckoutData) :
  (fst (Validators.validate_checkout_data data) = true ->
   exists confirmation, process_checkout draws cart data = Ok confirmation) /\
  ((exists confirmation, process_checkout draws cart data = Ok confirmation) ->
   forall e, In e (snd (Validators.validate_checkout_data data)) ->
     e = "Contact name must be at least 2 characters" \/ e = "Invalid email format").
Proof.
  pose proof (validator_errors data) as V. cbv zeta in V.
  set (m := match method (payment_of data) with Some m => m | None => "stripe" end) in V.
  split.
  - intros F. apply validator_valid in F.
    assert (None_in : forall e, ~ In e (snd (Validators.validate_checkout_data data)))
      by (rewrite F; intros e []).
    apply process_checkout_returns. split.
    + apply agent_validation_passes.
      destruct (truthy (contact_get name data)) as [n |] eqn:En;
        [| exfalso; eapply None_in, V; left; eauto].
      destruct (truthy (contact_get email data)) as [a |] eqn:Ea;
        [| exfalso; eapply None_in, V; right; right; left; eauto].
      destruct (matches_email_pattern a) eqn:M;
        [| exfalso; eapply None_in, V; right; right; right; left; eauto].
      destruct (email_shape_has_both a M) as [A D].
      exists n, a. repeat split; try assumption.
      destruct (terms_accepted data) as [[|] |] eqn:T; [reflexivity | |];
        exfalso; eapply None_in, V; do 6 right; split; [reflexivity | | reflexivity |];
        discriminate.
    + apply payment_succeeds. cbv zeta. fold m.
      destruct (String.eqb_spec m "stripe") as [E1 | N1]; [now left |].
      destruct (String.eqb_spec m "invoice") as [E2 | N2]; [now right; left |].
      destruct (String.eqb_spec m "po") as [E3 | N3];
        [| exfalso; eapply None_in, V; do 4 right; left; eauto].
      right. right. split; [exact E3 |]. intros P.
      eapply None_in, V. do 5 right. left. eauto.
  - intros R e I. apply process_checkout_returns in R as [A P].
    apply agent_validation_passes in A as (n & a & En & Ea & _ & _ & T).
    apply payment_succeeds in P. cbv zeta in P. fold m in P.
    apply V in I.
    destruct I as [[_ H] | [[-> _] | [[_ H] | [[-> _] | [[_ H] | [[_ H] | [_ H]]]]]]];
      try congruence; try (now left); try (now right).
    + destruct H as (H1 & H2 & H3). destruct P as [P | [P | [P _]]]; contradiction.
    + destruct H as (H1 & H2). destruct P as [P | [P | [_ P]]]; congruence.
Qed.

(** The sample checkout data is valid and is processed for the sample cart. *)
Lemma validated_checkout_is_processed_witness :
  exists confirmation,
    process_checkout sample_checkout_draws one_flight_cart sample_checkout = Ok confirmation.
Proof.
  apply (validated_checkout_is_processed sample_checkout_draws one_flight_cart sample_checkout).
  reflexivity.
Defined.

Lemma booked_lines (uuids : nat -> string) (lines : dict CartItem) :
  (forall line, In line lines -> In (fst line) RankingAgent.categories) ->
  forall i,
    Forall2 (fun line rc => confirms line rc /\ known_category rc) lines
      (map (fun numbered : nat * (string * CartItem) =>
              let '(i, (category, cart_item)) := numbered in
              book_with_retailer (uuids i) category (line_item cart_item) cart_item)
           (enumerate i lines)).
Proof.
  induction lines as [| [category line] lines IH]; intros K i; simpl; constructor.
  - split; [repeat split |].
    assert (C : In category RankingAgent.categories) by (apply (K (category, line)); now left).
    unfold known_category, book_with_retailer, get_cancellation_policy. simpl in C.
    destruct C as [<- | [<- | [<- | [<- | []]]]]; simpl; split;
      first [discriminate | tauto].
  - apply IH. intros l I. apply K. now right.
Qed.

(** Checking out the cart of a session, after any sequence of calls on a
    new crew: when [process_checkout] returns, the booking charges the
    total of the cart and holds one retailer confirmation for each line
    of the cart, in the order of the lines, with the category, vendor,
    title, quantity and subtotal of the line; every confirmation carries
    the prefix and the cancellation policy of one of the four categories,
    never the ones kept for an unknown category. *)
Theorem session_checkout_confirms_every_line (calls : list Call) (c : Cart)
    (draws : CheckoutDraws) (data : CheckoutData) (booking : BookingConfirmation) :
  cart (session_after calls) = Some c ->
  process_checkout draws c data = Ok booking ->
  total_cost booking = total c /\
  status booking = "confirmed" /\
  Forall2 (fun line rc => confirms line rc /\ known_category rc)
    (cart_items c) (retailer_confirmations booking).
Proof.
  intros C P. destruct (session_after_ok calls) as (_ & _ & _ & Hc).
  destruct (Hc c C) as (_ & _ & _ & I).
  unfold process_checkout in P.
  destruct (CheckoutAgent.validate_checkout_data data) as [[] | message |];
    try discriminate.
  destruct (negb _); [discriminate |]. injection P as <-. simpl.
  split; [reflexivity |]. split; [reflexivity |].
  apply booked_lines. intros line Il. apply I.
  unfold line_categories, dict_keys. now apply in_map.
Qed.

(** The sample session, checked out with the sample data. *)
Lemma session_checkout_confirms_every_line_witness :
  exists c booking,
    cart (session_after sample_calls) = Some c /\
    process_checkout sample_checkout_draws c sample_checkout = Ok booking /\
    total_cost booking = total c.
Proof.
  destruct (cart (session_after sample_calls)) as [c |] eqn:C;
    [| vm_compute in C; discriminate].
  destruct (proj2 (process_checkout_returns sample_checkout_draws c sample_checkout)
              (conj eq_refl eq_refl)) as [booking P].
  exists c, booking. split; [reflexivity |]. split; [exact P |].
  exact (proj1 (session_checkout_confirms_every_line sample_calls c
                  sample_checkout_draws sample_checkout booking C P)).
Defined.

End Checkout.

(** ** The vendor ranking *)

Section Grouping.
Import VendorRanking VendorVocabulary.
Local Open Scope list_scope.
Context {A : Type} (key : A -> string).

Lemma dict_get_split {V : Type} (d : dict V) (k : string) (v : V) :
  dict_get d k = Some v ->
  exists before after, d = before ++ (k, v) :: after /\ ~ In k (dict_keys before).
Proof.
  induction d as [| [k' v'] d IH]; simpl; [discriminate |].
  destruct (String.eqb_spec k' k) as [-> | N].
  - intros E. injection E as <-. exists [], d. split; [reflexivity | simpl; tauto].
  - intros E. destruct (IH E) as (before & after & -> & Nb).
    exists ((k', v') :: before), after. split; [reflexivity |].
    simpl. intros [F | F]; [contradiction | exact (Nb F)].
Qed.

Lemma dict_get_absent {V : Type} (d : dict V) (k : string) :
  dict_get d k = None -> ~ In k (dict_keys d).
Proof.
  induction d as [| [k' v'] d IH]; simpl; [tauto |].
  destruct (String.eqb_spec k' k) as [-> | N]; [discriminate |].
  intros E [F | F]; [contradiction | exact (IH E F)].
Qed.

Lemma group_step_cases (groups : dict (list A)) (x : A) :
  (~ In (key x) (dict_keys groups) /\ group_step key groups x = groups ++ [(key x, [x])]) \/
  (exists before g after,
      groups = before ++ (key x, g) :: after /\ ~ In (key x) (dict_keys before) /\
      group_step key groups x = before ++ (key x, g ++ [x]) :: after).
Proof.
  unfold group_step. destruct (dict_get groups (key x)) as [g |] eqn:E.
  - right. destruct (dict_get_split _ _ _ E) as (before & after & -> & N).
    exists before, g, after. split; [reflexivity |]. split; [exact N |].
    unfold dict_get_default. rewrite E. now apply dict_set_at.
  - left. pose proof (dict_get_absent _ _ E) as N. split; [exact N |].
    rewrite (dict_set_fresh groups (key x) [] N).
    unfold dict_get_default.
    replace (dict_get (groups ++ [(key x, [])]) (key x)) with (Some (@nil A)).
    + simpl. rewrite <- (app_nil_r (groups ++ [(key x, [])])) at 1.
      rewrite <- app_assoc. simpl.
      rewrite (dict_set_at groups [] (key x) [] [x] N). reflexivity.
    + symmetry. rewrite <- (dict_set_fresh groups (key x) [] N).
      apply dict_get_set_same.
Qed.

Lemma filter_none (f : A -> bool) (l : list A) :
  (forall y, In y l -> f y = false) -> filter f l = [].
Proof.
  induction l as [| y l IH]; simpl; intros H; [reflexivity |].
  rewrite (H y (or_introl eq_refl)). apply IH. intros z Iz. apply H. now right.
Qed.

Lemma filter_snoc (f : A -> bool) (l : list A) (x : A) :
  filter f (l ++ [x]) = filter f l ++ (if f x then [x] else []).
Proof. rewrite filter_app. reflexivity. Qed.

Lemma group_step_grouped (groups : dict (list A)) (seen : list A) (x : A) :
  grouped key groups seen -> grouped key (group_step key groups x) (seen ++ [x]).
Proof.
  intros (N & M & P).
  destruct (group_step_cases groups x)
    as [[Nx ->] | (before & g & after & -> & Nb & ->)].
  - split; [| split].
    + rewrite dict_keys_app. simpl.
      apply NoDup_app; [exact N | repeat constructor; simpl; tauto |].
      intros k Ik [<- | []]. exact (Nx Ik).
    + intros k g I. apply in_app_or in I as [I | [E | []]].
      * destruct (M k g I) as [-> Ne]. split; [| exact Ne].
        rewrite filter_snoc.
        destruct (String.eqb_spec (key x) k) as [<- | _]; [| now rewrite app_nil_r].
        exfalso. apply Nx. unfold dict_keys. apply in_map_iff.
        exists (key x, filter (fun y => String.eqb (key y) (key x)) seen). now split.
      * injection E as <- <-. split; [| discriminate].
        rewrite filter_snoc, String.eqb_refl.
        replace (filter (fun y => String.eqb (key y) (key x)) seen) with (@nil A);
          [reflexivity |].
        symmetry. apply filter_none. intros y Iy.
        destruct (String.eqb_spec (key y) (key x)) as [E | _]; [| reflexivity].
        exfalso. apply Nx.
        assert (Iy' : In y (flat_map snd groups))
          by (apply (Permutation_in _ (Permutation_sym P)), Iy).
        apply in_flat_map in Iy' as ((k & g) & Ig & Iyg). simpl in Iyg.
        destruct (M k g Ig) as [-> _]. apply filter_In in Iyg as [_ Ek].
        apply String.eqb_eq in Ek. rewrite <- E, Ek.
        unfold dict_keys. apply in_map_iff. exists (k, filter (fun x0 => String.eqb (key x0) k) seen).
        now split.
    + rewrite flat_map_app. simpl. now apply Permutation_app_tail.
  - split; [| split].
    + rewrite dict_keys_app in *. simpl in *. exact N.
    + intros k g' I. apply in_app_or in I as [I | [E | I]].
      * destruct (M k g' (in_or_app _ _ _ (or_introl I))) as [-> Ne].
        split; [| exact Ne]. rewrite filter_snoc.
        destruct (String.eqb_spec (key x) k) as [<- | _]; [| now rewrite app_nil_r].
        exfalso. apply Nb. unfold dict_keys. apply in_map_iff.
        exists (key x, filter (fun y => String.eqb (key y) (key x)) seen). now split.
      * injection E as <- <-.
        destruct (M (key x) g (in_elt _ _ _))
          as [Eg Ne].
        split; [| destruct g; discriminate].
        rewrite filter_snoc, String.eqb_refl, <- Eg. reflexivity.
      * destruct (M k g' (in_or_app _ _ _ (or_intror (in_cons _ _ _ I)))) as [-> Ne].
        split; [| exact Ne]. rewrite filter_snoc.
        destruct (String.eqb_spec (key x) k) as [<- | _]; [| now rewrite app_nil_r].
        exfalso. rewrite dict_keys_app in N. simpl in N.
        apply NoDup_remove_2 in N. apply N, in_or_app. right.
        unfold dict_keys. apply in_map_iff.
        exists (key x, filter (fun y => String.eqb (key y) (key x)) seen). now split.
    + rewrite flat_map_app in *. simpl in *.
      rewrite <- P. rewrite <- !app_assoc. simpl.
      do 2 apply Permutation_app_head. apply Permutation_cons_append.
Qed.

Lemma group_by_grouped (l : list A) : grouped key (group_by key l) l.
Proof.
  unfold group_by.
  assert (G : forall rest groups seen,
             grouped key groups seen ->
             grouped key (fold_left (group_step key) rest groups) (seen ++ rest)).
  { induction rest as [| x rest IH]; intros groups seen H; simpl.
    - now rewrite app_nil_r.
    - replace (seen ++ x :: rest) with ((seen ++ [x]) ++ rest)
        by (rewrite <- app_assoc; reflexivity).
      apply IH, group_step_grouped, H. }
  apply (G l [] []). split; [constructor |]. split; [intros k g [] | constructor].
Qed.

End Grouping.

Section VendorRankingFacts.
Import VendorModels VendorRanking VendorVocabulary.
Local Open Scope list_scope.

Lemma list_min_fold (xs : list Q) (m : Q) :
  let r := fold_left (fun m y => if Qlt_bool y m then y else m) xs m in
  r <= m /\ (forall v, In v xs -> r <= v) /\ In r (m :: xs).
Proof.
  revert m. induction xs as [| y xs IH]; intros m; simpl.
  - split; [apply Qle_refl |]. split; [intros v [] | now left].
  - destruct (IH (if Qlt_bool y m then y else m)) as (A & B & C).
    destruct (Qlt_bool_cases y m) as [L | L].
    + split; [lra |]. split.
      * intros v [<- | I]; [exact A | exact (B v I)].
      * destruct C as [C | C]; [right; left; exact C | right; right; exact C].
    + split; [exact A |]. split.
      * intros v [<- | I]; [lra | exact (B v I)].
      * destruct C as [C | C]; [left; exact C | right; right; exact C].
Qed.

Lemma list_max_fold (xs : list Q) (m : Q) :
  let r := fold_left (fun m y => if Qlt_bool m y then y else m) xs m in
  m <= r /\ (forall v, In v xs -> v <= r) /\ In r (m :: xs).
Proof.
  revert m. induction xs as [| y xs IH]; intros m; simpl.
  - split; [apply Qle_refl |]. split; [intros v [] | now left].
  - destruct (IH (if Qlt_bool m y then y else m)) as (A & B & C).
    destruct (Qlt_bool_cases m y) as [L | L].
    + split; [lra |]. split.
      * intros v [<- | I]; [exact A | exact (B v I)].
      * destruct C as [C | C]; [right; left; exact C | right; right; exact C].
    + split; [exact A |]. split.
      * intros v [<- | I]; [lra | exact (B v I)].
      * destruct C as [C | C]; [left; exact C | right; right; exact C].
Qed.

Lemma list_min_le (x : Q) (xs : list Q) (v : Q) :
  In v (x :: xs) -> list_min x xs <= v.
Proof.
  destruct (list_min_fold xs x) as (A & B & _).
  intros [<- | I]; [exact A | exact (B v I)].
Qed.

Lemma list_max_ge (x : Q) (xs : list Q) (v : Q) :
  In v (x :: xs) -> v <= list_max x xs.
Proof.
  destruct (list_max_fold xs x) as (A & B & _).
  intros [<- | I]; [exact A | exact (B v I)].
Qed.

Lemma list_min_in (x : Q) (xs : list Q) : In (list_min x xs) (x :: xs).
Proof. exact (proj2 (proj2 (list_min_fold xs x))). Qed.

Lemma list_max_in (x : Q) (xs : list Q) : In (list_max x xs) (x :: xs).
Proof. exact (proj2 (proj2 (list_max_fold xs x))). Qed.

Lemma spread_range (lo hi v : Q) :
  lo < hi -> lo <= v <= hi -> 0 <= (v - lo) / (hi - lo) <= 1.
Proof.
  intros L [A B]. split.
  - apply Qle_shift_div_l; lra.
  - apply Qle_shift_div_r; lra.
Qed.

Lemma spread_mono (lo hi v v' : Q) :
  lo < hi -> v <= v' -> (v - lo) / (hi - lo) <= (v' - lo) / (hi - lo).
Proof. intros L H. apply ratio_mono; lra. Qed.

Lemma spread_strict (lo hi v v' : Q) :
  lo < hi -> v < v' -> (v - lo) / (hi - lo) < (v' - lo) / (hi - lo).
Proof.
  intros L H. unfold Qdiv. apply Qmult_lt_compat_r; [| lra].
  apply Qinv_lt_0_compat. lra.
Qed.

Lemma value_injective (a b : ItemType) : value a = value b -> a = b.
Proof. destruct a, b; simpl; intros E; try reflexivity; discriminate. Qed.

(** What [_score_item_group] stores for an item of the group. *)
Lemma group_member (st : Settings) (g : list VendorItem)
    (r : RetreatRequirements) (s : ScoredItem) :
  In s (score_item_group (weights st) g r) ->
  exists first others,
    g = first :: others /\ In (item s) g /\
    let min_price := list_min (price first) (map price others) in
    let max_price := list_max (price first) (map price others) in
    let min_rating := list_min (rating first) (map rating others) in
    let max_rating := list_max (rating first) (map rating others) in
    let min_distance := list_min (distance_of first) (map distance_of others) in
    let max_distance := list_max (distance_of first) (map distance_of others) in
    score_for "price" s
    = (if Qlt_bool min_price max_price
       then 1 - ((price (item s) - min_price) / (max_price - min_price)) else 1) /\
    score_for "availability" s
    = (if (num_participants r <=? capacity (item s))%Z then 1 else 0.5) /\
    score_for "quality" s
    = (if Qlt_bool min_rating max_rating
       then (rating (item s) - min_rating) / (max_rating - min_rating) else 1) /\
    score_for "time" s = rating (item s) / 5 /\
    score_for "risk" s = rating (item s) / 5 /\
    score_for "distance" s
    = (if Qlt_bool min_distance max_distance
       then 1 - ((distance_of (item s) - min_distance) / (max_distance - min_distance))
       else 1) /\
    weighted_score s = total_score s /\
    total_score s
    = 0 + score_for "price" s * weight_price st
      + score_for "availability" s * weight_availability st
      + score_for "quality" s * weight_quality st
      + score_for "time" s * weight_time st
      + score_for "risk" s * weight_risk st
      + score_for "distance" s * weight_distance st.
Proof.
  destruct g as [| first others]; [intros [] |].
  unfold score_item_group. intros I. apply in_map_iff in I as (x & <- & Ix).
  exists first, others. split; [reflexivity |]. split; [exact Ix |].
  cbv zeta. repeat split; reflexivity.
Qed.

Lemma group_items (w : dict Q) (g : list VendorItem) (r : RetreatRequirements) :
  map item (score_item_group w g r) = g.
Proof.
  destruct g as [| first others]; [reflexivity |].
  unfold score_item_group. rewrite map_map. simpl. f_equal. apply map_id.
Qed.

Lemma map_of_flat_map {A B C : Type} (f : B -> C) (h : A -> list B) (l : list A) :
  map f (flat_map h l) = flat_map (fun x => map f (h x)) l.
Proof.
  induction l as [| x l IH]; simpl; [reflexivity |]. now rewrite map_app, IH.
Qed.

Lemma flat_map_same {A B : Type} (f h : A -> list B) (l : list A) :
  (forall x, f x = h x) -> flat_map f l = flat_map h l.
Proof.
  intros E. induction l as [| x l IH]; simpl; [reflexivity |]. now rewrite E, IH.
Qed.

Lemma rank_items_data (w : dict Q) (items : list VendorItem) (r : RetreatRequirements) :
  data (rank_items w items r)
  = sort_desc total_score
      (flat_map (fun group => score_item_group w (snd group) r)
         (group_by (fun x => value (item_type x)) items)).
Proof. destruct items; reflexivity. Qed.

(** A ranked item was scored in the group of the items of its type. *)
Lemma rank_items_member (w : dict Q) (items : list VendorItem)
    (r : RetreatRequirements) (s : ScoredItem) :
  In s (data (rank_items w items r)) ->
  In s (score_item_group w (of_type (item s) items) r).
Proof.
  rewrite rank_items_data. intros I.
  apply (Permutation_in _ (Permutation_sym (sort_desc_perm total_score _))) in I.
  apply in_flat_map in I as ((k & g) & Ig & Is). simpl in Is.
  destruct (group_by_grouped (fun x => value (item_type x)) items) as (_ & M & _).
  destruct (M k g Ig) as [Eg _].
  assert (Ix : In (item s) g).
  { rewrite <- (group_items w g r). now apply in_map. }
  rewrite Eg in Ix. apply filter_In in Ix as [_ Ek]. apply String.eqb_eq in Ek.
  unfold of_type. rewrite Ek, <- Eg. exact Is.
Qed.

(** [rank_items] always succeeds; what it returns is in descending order
    of total score and holds every item it was given exactly once,
    whatever the types of the items, with the weighted score as total
    score. *)
Theorem rank_items_sorted_permutation (st : Settings) (items : list VendorItem)
    (r : RetreatRequirements) :
  let response := rank_items (weights st) items r in
  success response = true /\ errors response = [] /\
  StronglySorted (descending total_score) (data response) /\
  Permutation (map item (data response)) items /\
  (forall s, In s (data response) -> weighted_score s = total_score s).
Proof.
  cbv zeta. split; [destruct items; reflexivity |].
  split; [destruct items; reflexivity |].
  rewrite rank_items_data. split; [apply sort_desc_sorted |]. split.
  - rewrite <- (Permutation_map item (sort_desc_perm total_score _)).
    rewrite map_of_flat_map.
    rewrite (flat_map_same _ snd) by (intros x; apply group_items).
    exact (proj2 (proj2 (group_by_grouped _ items))).
  - intros s I. rewrite <- rank_items_data in I.
    apply rank_items_member in I.
    destruct (group_member st _ r s I) as (f & o & _ & _ & H).
    cbv zeta in H. tauto.
Qed.

Lemma group_bounds (f : VendorItem -> Q) (first : VendorItem)
    (others : list VendorItem) (x : VendorItem) :
  In x (first :: others) ->
  list_min (f first) (map f others) <= f x <= list_max (f first) (map f others).
Proof.
  intros I.
  assert (J : In (f x) (f first :: map f others)) by (exact (in_map f _ _ I)).
  split; [now apply list_min_le | now apply list_max_ge].
Qed.

Lemma weighted_product (n w : Q) : 0 <= n <= 1 -> 0 <= w -> 0 <= n * w <= w.
Proof.
  intros [A B] W. split.
  - now apply Qmult_le_0_compat.
  - rewrite <- (Qmult_1_l w) at 2. now apply Qmult_le_compat_r.
Qed.

Lemma in_of_type (x y : VendorItem) (items : list VendorItem) :
  In y (of_type x items) <-> In y items /\ item_type y = item_type x.
Proof.
  unfold of_type. rewrite filter_In, String.eqb_eq. split.
  - intros [I E]. split; [exact I | now apply value_injective].
  - intros [I E]. split; [exact I | now rewrite E].
Qed.

Lemma of_type_same (x y : VendorItem) (items : list VendorItem) :
  item_type x = item_type y -> of_type x items = of_type y items.
Proof. intros E. unfold of_type. now rewrite E. Qed.

(** Every score [rank_items] stores is between 0 and 1 when the ratings
    are between 0 and 5, and the total score is between 0 and the sum of
    the weights when no weight is negative; the weights of the settings
    add up to 1. *)
Theorem vendor_scores_in_range (st : Settings) (items : list VendorItem)
    (r : RetreatRequirements) :
  settings_nonneg st ->
  (forall x, In x items -> 0 <= rating x <= 5) ->
  weight_sum settings == 1 /\
  forall s, In s (data (rank_items (weights st) items r)) ->
    (forall criterion, In criterion criteria -> 0 <= score_for criterion s <= 1) /\
    0 <= total_score s <= weight_sum st.
Proof.
  intros (Wp & Wa & Wq & Wt & Wr & Wd) Hr. split; [reflexivity |].
  intros s I. apply rank_items_member in I.
  destruct (group_member st _ r s I)
    as (first & others & Eg & Ix & Sp & Sa & Sq & St & Sr & Sd & _ & T).
  cbv zeta in *.
  assert (Rx : 0 <= rating (item s) <= 5).
  { apply Hr. apply in_of_type in Ix. tauto. }
  rewrite Eg in Ix.
  assert (Bp : 0 <= score_for "price" s <= 1).
  { rewrite Sp. match goal with |- context [Qlt_bool ?a ?b] => destruct (Qlt_bool_cases a b) as [L | L] end; [| lra].
    pose proof (spread_range _ _ (price (item s)) L
                  (group_bounds price _ _ _ Ix)).
    lra. }
  assert (Ba : 0 <= score_for "availability" s <= 1).
  { rewrite Sa. destruct (_ <=? _)%Z; lra. }
  assert (Bq : 0 <= score_for "quality" s <= 1).
  { rewrite Sq. match goal with |- context [Qlt_bool ?a ?b] => destruct (Qlt_bool_cases a b) as [L | L] end; [| lra].
    exact (spread_range _ _ (rating (item s)) L
             (group_bounds rating _ _ _ Ix)). }
  assert (Bt : 0 <= score_for "time" s <= 1).
  { rewrite St. split; [apply Qle_shift_div_l | apply Qle_shift_div_r]; lra. }
  assert (Br : 0 <= score_for "risk" s <= 1).
  { rewrite Sr. split; [apply Qle_shift_div_l | apply Qle_shift_div_r]; lra. }
  assert (Bd : 0 <= score_for "distance" s <= 1).
  { rewrite Sd. match goal with |- context [Qlt_bool ?a ?b] => destruct (Qlt_bool_cases a b) as [L | L] end; [| lra].
    pose proof (spread_range _ _ (distance_of (item s)) L
                  (group_bounds distance_of _ _ _ Ix)).
    lra. }
  split.
  - intros c [<- | [<- | [<- | [<- | [<- | [<- | []]]]]]]; assumption.
  - rewrite T. unfold weight_sum.
    pose proof (weighted_product _ _ Bp Wp). pose proof (weighted_product _ _ Ba Wa).
    pose proof (weighted_product _ _ Bq Wq). pose proof (weighted_product _ _ Bt Wt).
    pose proof (weighted_product _ _ Br Wr). pose proof (weighted_product _ _ Bd Wd).
    lra.
Qed.

Lemma sample_vendor_ratings (x : VendorItem) :
  In x sample_vendors -> 0 <= rating x <= 5.
Proof.
  intros [<- | [<- | [<- | [<- | []]]]]; simpl; split; discriminate.
Qed.

Lemma settings_are_nonneg : settings_nonneg settings.
Proof. repeat split; discriminate. Qed.

(** The scores of the sample vendors. *)
Lemma vendor_scores_in_range_witness :
  weight_sum settings == 1 /\
  forall s, In s (data (rank_items (weights settings) sample_vendors thirty_people)) ->
    (forall criterion, In criterion criteria -> 0 <= score_for criterion s <= 1) /\
    0 <= total_score s <= weight_sum settings.
Proof.
  apply vendor_scores_in_range; [exact settings_are_nonneg | exact sample_vendor_ratings].
Defined.

(** Two ranked items of the same type were scored in the same group. *)
Lemma same_group (st : Settings) (items : list VendorItem) (r : RetreatRequirements)
    (sa sb : ScoredItem) :
  In sa (data (rank_items (weights st) items r)) ->
  In sb (data (rank_items (weights st) items r)) ->
  item_type (item sa) = item_type (item sb) ->
  exists g, In sa (score_item_group (weights st) g r) /\
            In sb (score_item_group (weights st) g r) /\
            g = of_type (item sa) items.
Proof.
  intros Ia Ib E. exists (of_type (item sa) items).
  split; [now apply rank_items_member |]. split; [| reflexivity].
  rewrite (of_type_same _ _ items E). now apply rank_items_member.
Qed.

(** Within a type, the cheapest item has the price score 1 and the best
    rated item the quality score 1; when prices differ the dearest item
    has the price score 0, and when ratings differ the worst rated item
    has the quality score 0. *)
Theorem extremes_of_a_type (st : Settings) (items : list VendorItem)
    (r : RetreatRequirements) (s : ScoredItem) :
  In s (data (rank_items (weights st) items r)) ->
  let same_type x := In x items /\ item_type x = item_type (item s) in
  ((forall x, same_type x -> price (item s) <= price x) -> score_for "price" s == 1) /\
  ((forall x, same_type x -> price x <= price (item s)) ->
   (exists y, same_type y /\ price y < price (item s)) -> score_for "price" s == 0) /\
  ((forall x, same_type x -> rating x <= rating (item s)) ->
   score_for "quality" s == 1) /\
  ((forall x, same_type x -> rating (item s) <= rating x) ->
   (exists y, same_type y /\ rating (item s) < rating y) ->
   score_for "quality" s == 0).
Proof.
  intros I same_type. apply rank_items_member in I.
  destruct (group_member st _ r s I)
    as (first & others & Eg & Ix & Sp & _ & Sq & _).
  cbv zeta in *.
  assert (G : forall x, In x (first :: others) -> same_type x).
  { intros x J. rewrite <- Eg in J. now apply in_of_type in J. }
  assert (G' : forall x, same_type x -> In x (first :: others)).
  { intros x J. rewrite <- Eg. now apply in_of_type. }
  assert (Member : forall (f : VendorItem -> Q) v,
             In v (f first :: map f others) -> exists x, same_type x /\ v = f x).
  { intros f v J. change (In v (map f (first :: others))) in J.
    apply in_map_iff in J as (x & <- & J). exists x. split; [now apply G | reflexivity]. }
  rewrite Eg in Ix.
  pose proof (group_bounds price _ _ _ Ix) as [Pl Ph].
  pose proof (group_bounds rating _ _ _ Ix) as [Rl Rh].
  split; [| split; [| split]].
  - intros H. rewrite Sp.
    match goal with |- context [Qlt_bool ?a ?b] => destruct (Qlt_bool_cases a b) as [L | L] end;
      [| reflexivity].
    destruct (Member price _ (list_min_in (price first) (map price others)))
      as (x & Tx & Ex).
    specialize (H x Tx). rewrite <- Ex in H.
    assert (Z : price (item s) - list_min (price first) (map price others) == 0) by lra.
    rewrite Z. unfold Qdiv. ring.
  - intros H (y & Ty & Ly). rewrite Sp.
    pose proof (group_bounds price _ _ _ (G' y Ty)) as [Yl Yh].
    destruct (Member price _ (list_max_in (price first) (map price others)))
      as (x & Tx & Ex).
    specialize (H x Tx). rewrite <- Ex in H.
    match goal with |- context [Qlt_bool ?a ?b] => destruct (Qlt_bool_cases a b) as [L | L] end;
      [| lra].
    assert (Z : price (item s) - list_min (price first) (map price others)
                == list_max (price first) (map price others)
                   - list_min (price first) (map price others)) by lra.
    rewrite Z. field. lra.
  - intros H. rewrite Sq.
    match goal with |- context [Qlt_bool ?a ?b] => destruct (Qlt_bool_cases a b) as [L | L] end;
      [| reflexivity].
    destruct (Member rating _ (list_max_in (rating first) (map rating others)))
      as (x & Tx & Ex).
    specialize (H x Tx). rewrite <- Ex in H.
    assert (Z : rating (item s) - list_min (rating first) (map rating others)
                == list_max (rating first) (map rating others)
                   - list_min (rating first) (map rating others)) by lra.
    rewrite Z. field. lra.
  - intros H (y & Ty & Ly). rewrite Sq.
    pose proof (group_bounds rating _ _ _ (G' y Ty)) as [Yl Yh].
    destruct (Member rating _ (list_min_in (rating first) (map rating others)))
      as (x & Tx & Ex).
    specialize (H x Tx). rewrite <- Ex in H.
    match goal with |- context [Qlt_bool ?a ?b] => destruct (Qlt_bool_cases a b) as [L | L] end;
      [| lra].
    assert (Z : rating (item s) - list_min (rating first) (map rating others) == 0) by lra.
    rewrite Z. unfold Qdiv. ring.
Qed.

(** The cheapest of the three sample hotels. *)
Lemma extremes_of_a_type_witness :
  exists s,
    In s (data (rank_items (weights settings) sample_vendors thirty_people)) /\
    item_id (item s) = "h2" /\ score_for "price" s == 1.
Proof.
  destruct (nth_error (data (rank_items (weights settings) sample_vendors thirty_people)) 3)
    as [s |] eqn:E; [| vm_compute in E; discriminate].
  pose proof (nth_error_In _ _ E) as I.
  vm_compute in E. injection E as <-.
  eexists. split; [exact I |]. split; [reflexivity |].
  apply (proj1 (extremes_of_a_type settings sample_vendors thirty_people _ I)).
  intros x [[<- | [<- | [<- | [<- | []]]]] T]; try discriminate T; simpl; discriminate.
Defined.

(** An item that is no dearer, no worse rated, no farther and no less
    able to host the participants than another item of its type has a
    total score at least as high, when no weight is negative. *)
Theorem better_item_scores_at_least (st : Settings) (items : list VendorItem)
    (r : RetreatRequirements) (sa sb : ScoredItem) :
  settings_nonneg st ->
  In sa (data (rank_items (weights st) items r)) ->
  In sb (data (rank_items (weights st) items r)) ->
  item_type (item sa) = item_type (item sb) ->
  at_least_as_good r (item sa) (item sb) ->
  total_score sb <= total_score sa.
Proof.
  intros (Wp & Wa & Wq & Wt & Wr & Wd) Ia Ib E (Hp & Hr & Hd & Hc).
  destruct (same_group st items r sa sb Ia Ib E) as (g & Ga & Gb & _).
  destruct (group_member st g r sa Ga)
    as (first & others & Eg & _ & Pa & Aa & Qa & Ta & Ra & Da & _ & Sa).
  destruct (group_member st g r sb Gb)
    as (first' & others' & Eg' & _ & Pb & Ab & Qb & Tb & Rb & Db & _ & Sb).
  rewrite Eg in Eg'. injection Eg' as <- <-. cbv zeta in *.
  assert (Cp : score_for "price" sb <= score_for "price" sa).
  { rewrite Pa, Pb.
    match goal with |- context [Qlt_bool ?a ?b] => destruct (Qlt_bool_cases a b) as [L | L] end;
      [| lra].
    pose proof (spread_mono _ _ _ _ L Hp). lra. }
  assert (Ca : score_for "availability" sb <= score_for "availability" sa).
  { rewrite Aa, Ab.
    destruct (Z.leb_spec (num_participants r) (capacity (item sb))) as [Lb | Lb];
      destruct (Z.leb_spec (num_participants r) (capacity (item sa))) as [La | La];
      try lra.
    specialize (Hc Lb). lia. }
  assert (Cq : score_for "quality" sb <= score_for "quality" sa).
  { rewrite Qa, Qb.
    match goal with |- context [Qlt_bool ?a ?b] => destruct (Qlt_bool_cases a b) as [L | L] end;
      [| lra].
    exact (spread_mono _ _ _ _ L Hr). }
  assert (Ct : score_for "time" sb <= score_for "time" sa).
  { rewrite Ta, Tb. apply ratio_mono; [reflexivity | exact Hr]. }
  assert (Cr : score_for "risk" sb <= score_for "risk" sa).
  { rewrite Ra, Rb. apply ratio_mono; [reflexivity | exact Hr]. }
  assert (Cd : score_for "distance" sb <= score_for "distance" sa).
  { rewrite Da, Db.
    match goal with |- context [Qlt_bool ?a ?b] => destruct (Qlt_bool_cases a b) as [L | L] end;
      [| lra].
    pose proof (spread_mono _ _ _ _ L Hd). lra. }
  rewrite Sa, Sb.
  pose proof (Qmult_le_compat_r _ _ _ Cp Wp). pose proof (Qmult_le_compat_r _ _ _ Ca Wa).
  pose proof (Qmult_le_compat_r _ _ _ Cq Wq). pose proof (Qmult_le_compat_r _ _ _ Ct Wt).
  pose proof (Qmult_le_compat_r _ _ _ Cr Wr). pose proof (Qmult_le_compat_r _ _ _ Cd Wd).
  lra.
Qed.

(** The better of the two sample hotels scores at least as high. *)
Lemma better_item_scores_at_least_witness :
  exists sa sb,
    nth_error (data (rank_items (weights settings) good_and_bad thirty_people)) 0
    = Some sa /\
    nth_error (data (rank_items (weights settings) good_and_bad thirty_people)) 1
    = Some sb /\
    item_id (item sa) = "a" /\ item_id (item sb) = "b" /\
    total_score sb <= total_score sa.
Proof.
  destruct (nth_error (data (rank_items (weights settings) good_and_bad thirty_people)) 0)
    as [sa |] eqn:Ea; [| vm_compute in Ea; discriminate].
  destruct (nth_error (data (rank_items (weights settings) good_and_bad thirty_people)) 1)
    as [sb |] eqn:Eb; [| vm_compute in Eb; discriminate].
  pose proof (nth_error_In _ _ Ea) as Ia. pose proof (nth_error_In _ _ Eb) as Ib.
  vm_compute in Ea, Eb. injection Ea as <-. injection Eb as <-.
  eexists. eexists. split; [reflexivity |]. split; [reflexivity |].
  split; [reflexivity |]. split; [reflexivity |].
  apply (better_item_scores_at_least settings good_and_bad thirty_people _ _
           settings_are_nonneg Ia Ib eq_refl).
  repeat split; simpl; discriminate.
Defined.

(** A distance of 0 is read as no distance, and no distance as 5 km: an
    item at distance 0 has a lower total score than an item of its type
    that differs from it only by lying between 0 and 5 km away, when the
    distance has a positive weight. *)
Theorem zero_distance_counts_as_five (st : Settings) (items : list VendorItem)
    (r : RetreatRequirements) (sa sb : ScoredItem) (d : Q) :
  0 < weight_distance st ->
  In sa (data (rank_items (weights st) items r)) ->
  In sb (data (rank_items (weights st) items r)) ->
  item_type (item sa) = item_type (item sb) ->
  price (item sa) = price (item sb) ->
  rating (item sa) = rating (item sb) ->
  capacity (item sa) = capacity (item sb) ->
  distance_km (item sa) = Some 0 ->
  distance_km (item sb) = Some d -> 0 < d < 5 ->
  score_for "distance" sa < score_for "distance" sb /\
  total_score sa < total_score sb.
Proof.
  intros Wd Ia Ib E Ep Er Ec Za Zb [D0 D5].
  destruct (same_group st items r sa sb Ia Ib E) as (g & Ga & Gb & _).
  destruct (group_member st g r sa Ga)
    as (first & others & Eg & Xa & Pa & Aa & Qa & Ta & Ra & Da & _ & Sa).
  destruct (group_member st g r sb Gb)
    as (first' & others' & Eg' & Xb & Pb & Ab & Qb & Tb & Rb & Db & _ & Sb).
  rewrite Eg in Eg'. injection Eg' as <- <-. cbv zeta in *.
  rewrite Eg in Xa, Xb.
  assert (Fa : distance_of (item sa) = 5) by (unfold distance_of; now rewrite Za).
  assert (Fb : distance_of (item sb) == d).
  { unfold distance_of. rewrite Zb.
    destruct (Qeq_bool_cases d 0) as [Z | _]; [lra | reflexivity]. }
  pose proof (group_bounds distance_of _ _ _ Xa) as [La Ha].
  pose proof (group_bounds distance_of _ _ _ Xb) as [Lb Hb].
  rewrite Fa in La, Ha.
  assert (Cd : score_for "distance" sa < score_for "distance" sb).
  { rewrite Da, Db, Fa.
    match goal with |- context [Qlt_bool ?a ?b] => destruct (Qlt_bool_cases a b) as [L | L] end;
      [| lra].
    assert (F : distance_of (item sb) < 5) by lra.
    pose proof (spread_strict _ _ _ _ L F). lra. }
  split; [exact Cd |].
  rewrite Sa, Sb, Pa, Pb, Aa, Ab, Qa, Qb, Ta, Tb, Ra, Rb, Ep, Er, Ec.
  pose proof (Qmult_lt_compat_r _ _ _ Wd Cd). lra.
Qed.

(** The hotel at distance 0 ranks below the hotel 2 km away. *)
Lemma zero_distance_counts_as_five_witness :
  exists sa sb,
    nth_error (data (rank_items (weights settings) near_and_far thirty_people)) 1
    = Some sa /\
    nth_error (data (rank_items (weights settings) near_and_far thirty_people)) 0
    = Some sb /\
    distance_km (item sa) = Some 0 /\ distance_km (item sb) = Some 2 /\
    total_score sa < total_score sb.
Proof.
  destruct (nth_error (data (rank_items (weights settings) near_and_far thirty_people)) 1)
    as [sa |] eqn:Ea; [| vm_compute in Ea; discriminate].
  destruct (nth_error (data (rank_items (weights settings) near_and_far thirty_people)) 0)
    as [sb |] eqn:Eb; [| vm_compute in Eb; discriminate].
  pose proof (nth_error_In _ _ Ea) as Ia. pose proof (nth_error_In _ _ Eb) as Ib.
  vm_compute in Ea, Eb. injection Ea as <-. injection Eb as <-.
  eexists. eexists. split; [reflexivity |]. split; [reflexivity |].
  split; [reflexivity |]. split; [reflexivity |].
  refine (proj2 (zero_distance_counts_as_five settings near_and_far thirty_people _ _ 2
                   eq_refl Ia Ib eq_refl eq_refl eq_refl eq_refl eq_refl eq_refl _)).
  split; reflexivity.
Defined.

Lemma sorted_filter {A : Type} (key : A -> Q) (f : A -> bool) (l : list A) :
  StronglySorted (descending key) l -> StronglySorted (descending key) (filter f l).
Proof.
  induction 1 as [| x l S IH F]; simpl; [constructor |].
  destruct (f x); [| exact IH]. constructor; [exact IH |].
  rewrite Forall_forall in *. intros y Iy. apply F. now apply filter_In in Iy.
Qed.

(** The choice of [build_cart] is the best of each type: grouping the
    ranked items by type keeps the order of the ranking, so the first
    item of each group, the one the cart takes, has the highest total
    score of its type; every type among the items gets exactly one. *)
Theorem best_items_are_best (st : Settings) (items : list VendorItem)
    (r : RetreatRequirements) :
  let ranked := data (rank_items (weights st) items r) in
  (forall b, In b (best_items ranked) ->
     In b ranked /\
     forall s, In s ranked -> item_type (item s) = item_type (item b) ->
               total_score s <= total_score b) /\
  (forall x, In x items ->
     exists b, In b (best_items ranked) /\ item_type (item b) = item_type x) /\
  NoDup (map (fun b => item_type (item b)) (best_items ranked)).
Proof.
  intros ranked.
  pose (key := fun scored : ScoredItem => value (item_type (item scored))).
  destruct (group_by_grouped key ranked) as (N & M & P).
  fold (group_by_type ranked) in N, M, P.
  assert (S : StronglySorted (descending total_score) ranked).
  { unfold ranked. rewrite rank_items_data. apply sort_desc_sorted. }
  assert (B : forall b, In b (best_items ranked) <->
                        exists k rest, In (k, b :: rest) (group_by_type ranked)).
  { intros b. unfold best_items. rewrite in_flat_map. split.
    - intros ((k & g) & Ig & Ib). simpl in Ib.
      destruct g as [| b' rest]; [destruct Ib |].
      destruct Ib as [<- | []]. eauto.
    - intros (k & rest & Ig). exists (k, b :: rest). split; [exact Ig | now left]. }
  split; [| split].
  - intros b Ib. apply B in Ib as (k & rest & Ig).
    destruct (M _ _ Ig) as [Eg _].
    assert (Ibg : In b (filter (fun x => String.eqb (key x) k) ranked))
      by (rewrite <- Eg; now left).
    apply filter_In in Ibg as [Ir Ek]. apply String.eqb_eq in Ek.
    split; [exact Ir |]. intros s Is Es.
    assert (Isg : In s (b :: rest)).
    { rewrite Eg. apply filter_In. split; [exact Is |].
      apply String.eqb_eq. unfold key in *. now rewrite Es. }
    apply (sorted_head_max total_score b s rest); [| exact Isg].
    rewrite Eg. now apply sorted_filter.
  - intros x Ix.
    assert (Px : Permutation (map item ranked) items).
    { unfold ranked. rewrite rank_items_data.
      rewrite <- (Permutation_map item (sort_desc_perm total_score _)).
      rewrite map_of_flat_map.
      rewrite (flat_map_same _ snd) by (intros y; apply group_items).
      exact (proj2 (proj2 (group_by_grouped _ items))). }
    apply (Permutation_in _ (Permutation_sym Px)) in Ix.
    apply in_map_iff in Ix as (s & <- & Is).
    apply (Permutation_in _ (Permutation_sym P)) in Is.
    apply in_flat_map in Is as ((k & g) & Ig & Isg). simpl in Isg.
    destruct (M _ _ Ig) as [Eg Ne].
    destruct g as [| b rest]; [congruence |].
    exists b. split; [apply B; eauto |].
    assert (Kb : key b = k).
    { assert (J : In b (b :: rest)) by now left.
      rewrite Eg in J. apply filter_In in J as [_ J]. now apply String.eqb_eq. }
    assert (Ks : key s = k).
    { rewrite Eg in Isg. apply filter_In in Isg as [_ J]. now apply String.eqb_eq. }
    apply value_injective. unfold key in *. congruence.
  - apply (NoDup_map_inv value). rewrite map_map.
    replace (map (fun b => value (item_type (item b))) (best_items ranked))
      with (dict_keys (group_by_type ranked)); [exact N |].
    unfold best_items, dict_keys.
    assert (H : forall groups : dict (list ScoredItem),
               (forall k g, In (k, g) groups ->
                            g = filter (fun x => String.eqb (key x) k) ranked /\ g <> []) ->
               map fst groups
               = map (fun b => value (item_type (item b)))
                   (flat_map (fun group => match snd group with
                                           | best_item :: _ => [best_item]
                                           | [] => []
                                           end) groups)).
    { induction groups as [| [k g] groups IH]; intros H; simpl; [reflexivity |].
      destruct (H k g (or_introl eq_refl)) as [Eg Ne].
      destruct g as [| b rest]; [congruence |]. simpl. f_equal.
      - assert (J : In b (b :: rest)) by now left.
        rewrite Eg in J. apply filter_In in J as [_ J].
        apply String.eqb_eq in J. now rewrite <- J.
      - apply IH. intros k' g' I'. apply H. now right. }
    apply H, M.
Qed.

End VendorRankingFacts.

(** ** The validator of the weights and the scorer *)

Section ValidatedWeights.
Import RankingAgent WeightValidator Samples.
Local Open Scope list_scope.

Lemma importance_fold (importance : dict (option Q)) (errors : list WeightError)
    (total : Q) :
  exists total',
    fold_left
      (fun acc entry =>
         let '(errors, total) := acc in
         let '(cat, weight) := entry in
         let errors :=
           if negb (existsb (String.eqb cat) valid_categories)
           then errors ++ [UnknownCategory cat] else errors in
         match weight with
         | None => (errors ++ [ImportanceNotNumber cat], total)
         | Some weight =>
             if Qlt_bool weight 0 || Qlt_bool 100 weight
             then (errors ++ [ImportanceOutOfRange cat], total)
             else (errors, total + weight)
         end)
      importance (errors, total)
    = (errors
       ++ flat_map (fun entry : string * option Q =>
                      (if negb (existsb (String.eqb (fst entry)) valid_categories)
                       then [UnknownCategory (fst entry)] else [])
                      ++ match snd entry with
                         | None => [ImportanceNotNumber (fst entry)]
                         | Some weight =>
                             if Qlt_bool weight 0 || Qlt_bool 100 weight
                             then [ImportanceOutOfRange (fst entry)] else []
                         end)
           importance,
       total').
Proof.
  revert errors total. induction importance as [| [cat weight] importance IH];
    intros errors total.
  - exists total. simpl. now rewrite app_nil_r.
  - cbn [fold_left flat_map fst snd]. cbv beta iota zeta.
    destruct (negb (existsb (String.eqb cat) valid_categories));
      destruct weight as [weight |];
      try destruct (Qlt_bool weight 0 || Qlt_bool 100 weight);
      match goal with
      | |- exists t, fold_left _ _ (?e, ?t0) = _ => destruct (IH e t0) as [t' E]
      end;
      exists t'; refine (eq_trans E _); cbn [app]; rewrite <- ?app_assoc; reflexivity.
Qed.

Lemma component_fold (category : string) (cat_weights : dict (option Q))
    (errors : list WeightError) :
  fold_left
    (fun errors entry =>
       let '(key, value) := entry in
       if negb (ends_with "_weight" key) then errors
       else
         match value with
         | None => errors ++ [ComponentNotNumber category key]
         | Some value =>
             if Qlt_bool value 0 || Qlt_bool 100 value
             then errors ++ [ComponentOutOfRange category key]
             else errors
         end)
    cat_weights errors
  = errors
    ++ flat_map (fun entry : string * option Q =>
                   if ends_with "_weight" (fst entry) then
                     match snd entry with
                     | None => [ComponentNotNumber category (fst entry)]
                     | Some value =>
                         if Qlt_bool value 0 || Qlt_bool 100 value
                         then [ComponentOutOfRange category (fst entry)] else []
                     end
                   else [])
         cat_weights.
Proof.
  revert errors. induction cat_weights as [| [key value] cat_weights IH];
    intros errors; simpl.
  - now rewrite app_nil_r.
  - rewrite IH. destruct (ends_with "_weight" key); simpl; [| reflexivity].
    destruct value as [value |]; [| now rewrite <- app_assoc].
    destruct (Qlt_bool value 0 || Qlt_bool 100 value); [| reflexivity].
    now rewrite <- app_assoc.
Qed.

Lemma in_range_bool (v : Q) :
  Qlt_bool v 0 || Qlt_bool 100 v = false -> 0 <= v <= 100.
Proof.
  intros E. apply orb_false_iff in E as [A B].
  destruct (Qlt_bool_cases v 0); [discriminate |].
  destruct (Qlt_bool_cases 100 v); [discriminate |]. split; assumption.
Qed.

Lemma flat_map_nil {A B : Type} (f : A -> list B) (l : list A) (x : A) :
  flat_map f l = [] -> In x l -> f x = [].
Proof.
  induction l as [| y l IH]; simpl; [tauto |].
  intros E [-> | I]; apply app_eq_nil in E as [E1 E2]; [exact E1 | now apply IH].
Qed.

(** What the validator has checked when it reports no error. *)
Lemma validated_weights (cw : CustomWeights) :
  fst (validate_weights cw) = true ->
  (forall ci, category_importance cw = Some ci ->
              forall k v, In (k, v) ci -> exists q, v = Some q /\ 0 <= q <= 100) /\
  (forall category w,
      In category valid_categories ->
      dict_get (component_weights cw) category = Some w ->
      forall k v, In (k, v) w -> ends_with "_weight" k = true ->
                  exists q, v = Some q /\ 0 <= q <= 100).
Proof.
  unfold validate_weights. cbv zeta. cbn [fst].
  set (first_part :=
         match category_importance cw with
         | Some importance => _
         | None => []
         end).
  intros V. apply Nat.eqb_eq in V. apply length_zero_iff_nil in V.
  assert (Parts :
    first_part = [] /\
    forall category, In category valid_categories ->
      match dict_get (component_weights cw) category with
      | Some cat_weights =>
          flat_map (fun entry : string * option Q =>
                      if ends_with "_weight" (fst entry) then
                        match snd entry with
                        | None => [ComponentNotNumber category (fst entry)]
                        | Some value =>
                            if Qlt_bool value 0 || Qlt_bool 100 value
                            then [ComponentOutOfRange category (fst entry)] else []
                        end
                      else [])
            cat_weights = []
      | None => True
      end).
  { clearbody first_part. revert V. unfold valid_categories. cbn [fold_left].
    repeat match goal with
           | |- context [dict_get (component_weights cw) ?c] =>
               let E := fresh "E" in
               destruct (dict_get (component_weights cw) c) eqn:E
           end;
      rewrite ?component_fold; intros V;
      repeat match goal with
             | H : _ ++ _ = [] |- _ => apply app_eq_nil in H as [? ?]
             end;
      (split; [assumption |]);
      intros category [<- | [<- | [<- | [<- | []]]]];
      match goal with
      | |- match dict_get _ ?c with _ => _ end =>
          match goal with
          | H : dict_get (component_weights cw) c = _ |- _ => rewrite H
          end
      end; auto. }
  destruct Parts as [F C]. split.
  - intros ci Ei k v I. unfold first_part in F. rewrite Ei in F.
    destruct (importance_fold ci [] 0) as [total E].
    match type of F with
    | context [fold_left ?f ci ([], 0)] =>
        match type of E with
        | _ = ?rhs =>
            assert (E' : fold_left f ci ([], 0) = rhs) by exact E; rewrite E' in F
        end
    end.
    cbn [app] in F.
    assert (N : flat_map (fun entry : string * option Q =>
                      (if negb (existsb (String.eqb (fst entry)) valid_categories)
                       then [UnknownCategory (fst entry)] else [])
                      ++ match snd entry with
                         | None => [ImportanceNotNumber (fst entry)]
                         | Some weight =>
                             if Qlt_bool weight 0 || Qlt_bool 100 weight
                             then [ImportanceOutOfRange (fst entry)] else []
                         end)
                   ci = []).
    { destruct (Qlt_bool 0 total && Qlt_bool 1 (Qabs (total - 100))); [| exact F].
      apply app_eq_nil in F as [_ F]. discriminate. }
    pose proof (flat_map_nil _ ci (k, v) N I) as Z. cbn [fst snd] in Z.
    apply app_eq_nil in Z as [_ Z]. destruct v as [q |]; [| discriminate].
    exists q. split; [reflexivity |]. apply in_range_bool.
    destruct (Qlt_bool q 0 || Qlt_bool 100 q); [discriminate | reflexivity].
  - intros category w Ic Ew k v I S. specialize (C category Ic). rewrite Ew in C.
    pose proof (flat_map_nil _ w (k, v) C I) as Z. cbn [fst snd] in Z.
    rewrite S in Z. destruct v as [q |]; [| discriminate].
    exists q. split; [reflexivity |]. apply in_range_bool.
    destruct (Qlt_bool q 0 || Qlt_bool 100 q); [discriminate | reflexivity].
Qed.

Lemma dict_get_set {V : Type} (d : dict V) (k k' : string) (v : V) :
  dict_get (dict_set d k v) k' = if String.eqb k k' then Some v else dict_get d k'.
Proof.
  destruct (String.eqb_spec k k') as [<- | N].
  - apply dict_get_set_same.
  - now apply dict_get_set_other.
Qed.

(** Entries under other keys do not change what a key reads after an
    update. *)
Lemma dict_update_filtered {V : Type} (keep : string -> bool) (k : string)
    (w d d' : dict V) :
  keep k = true -> dict_get d k = dict_get d' k ->
  dict_get (dict_update d w) k
  = dict_get (dict_update d' (filter (fun entry => keep (fst entry)) w)) k.
Proof.
  intros K. unfold dict_update. revert d d'.
  induction w as [| [k' v] w IH]; intros d d' E; simpl; [exact E |].
  destruct (keep k') eqn:K'; simpl.
  - apply IH. rewrite !dict_get_set. now rewrite E.
  - apply IH. rewrite dict_get_set.
    destruct (String.eqb_spec k' k) as [-> | _]; [congruence | exact E].
Qed.

Lemma checked_component (cw : CustomWeights) (category : string) :
  dict_get (component_weights (checked_weights cw)) category
  = if existsb (String.eqb category) valid_categories
    then option_map (filter (fun entry : string * option Q =>
                               ends_with "_weight" (fst entry)))
           (dict_get (component_weights cw) category)
    else None.
Proof.
  unfold checked_weights, valid_categories. cbn [component_weights flat_map existsb].
  destruct (String.eqb_spec category "flights") as [-> | N1].
  { destruct (dict_get (component_weights cw) "flights"); [reflexivity |].
    destruct (dict_get (component_weights cw) "hotels");
      destruct (dict_get (component_weights cw) "meeting_rooms");
      destruct (dict_get (component_weights cw) "catering"); reflexivity. }
  destruct (String.eqb_spec category "hotels") as [-> | N2].
  { destruct (dict_get (component_weights cw) "flights");
      destruct (dict_get (component_weights cw) "hotels"); try reflexivity;
      destruct (dict_get (component_weights cw) "meeting_rooms");
      destruct (dict_get (component_weights cw) "catering"); reflexivity. }
  destruct (String.eqb_spec category "meeting_rooms") as [-> | N3].
  { destruct (dict_get (component_weights cw) "flights");
      destruct (dict_get (component_weights cw) "hotels");
      destruct (dict_get (component_weights cw) "meeting_rooms"); try reflexivity;
      destruct (dict_get (component_weights cw) "catering"); reflexivity. }
  destruct (String.eqb_spec category "catering") as [-> | N4].
  { destruct (dict_get (component_weights cw) "flights");
      destruct (dict_get (component_weights cw) "hotels");
      destruct (dict_get (component_weights cw) "meeting_rooms");
      destruct (dict_get (component_weights cw) "catering"); reflexivity. }
  assert (Other : forall (l : dict (dict (option Q))),
             (forall entry, In entry l -> In (fst entry) valid_categories) ->
             dict_get l category = None).
  { induction l as [| [k v] l IH]; intros H; simpl; [reflexivity |].
    destruct (String.eqb_spec k category) as [-> | _].
    - destruct (H (category, v) (or_introl eq_refl)) as [E | [E | [E | [E | []]]]];
        simpl in E; congruence.
    - apply IH. intros entry I. apply H. now right. }
  simpl. apply Other. intros entry I.
  repeat (apply in_app_or in I as [I | I];
          [destruct (dict_get (component_weights cw) _); [| destruct I];
           destruct I as [<- | []]; simpl; tauto |]).
  destruct I.
Qed.

(** The scorer reads nothing else of the weights than what the validator
    checks. *)
Lemma score_item_checked (item : Item) (category : string)
    (requirements : Requirements) (cw : CustomWeights) :
  score_item item category requirements (Some cw)
  = score_item item category requirements (Some (checked_weights cw)).
Proof.
  unfold score_item, weights_for. rewrite checked_component.
  set (default_weights := held (dict_get_default default_category_weights category [])).
  assert (Same : forall k x,
             ends_with "_weight" k = true ->
             existsb (String.eqb category) valid_categories = true ->
             dict_get_default
               match dict_get (component_weights cw) category with
               | Some w => dict_update default_weights w
               | None => default_weights
               end k x
             = dict_get_default
                 match option_map
                         (filter (fun entry : string * option Q =>
                                    ends_with "_weight" (fst entry)))
                         (dict_get (component_weights cw) category) with
                 | Some w => dict_update default_weights w
                 | None => default_weights
                 end k x).
  { intros k x K _. unfold dict_get_default.
    destruct (dict_get (component_weights cw) category) as [w |]; simpl; [| reflexivity].
    now rewrite (dict_update_filtered (ends_with "_weight") k w
                   default_weights default_weights K eq_refl). }
  unfold valid_categories in *. cbn [existsb] in *.
  destruct (String.eqb category "flights") eqn:E1.
  { cbn [orb]. rewrite !Same by reflexivity. reflexivity. }
  destruct (String.eqb category "hotels") eqn:E2.
  { cbn [orb]. rewrite !Same by reflexivity. reflexivity. }
  destruct (String.eqb category "meeting_rooms") eqn:E3.
  { cbn [orb]. rewrite !Same by reflexivity. reflexivity. }
  destruct (String.eqb category "catering") eqn:E4.
  { cbn [orb]. rewrite !Same by reflexivity. reflexivity. }
  reflexivity.
Qed.

Lemma score_categories_checked (pkg : dict Item) (requirements : Requirements)
    (cw : CustomWeights) (cs : dict Q) (bd : dict (dict BreakdownEntry)) :
  score_categories pkg requirements (Some cw) cs bd
  = score_categories pkg requirements (Some (checked_weights cw)) cs bd.
Proof.
  revert cs bd. induction pkg as [| [category item] pkg IH]; intros cs bd; simpl.
  - reflexivity.
  - rewrite (score_item_checked item category requirements cw).
    destruct (score_item item category requirements (Some (checked_weights cw)))
      as [[s b] |]; [apply IH | reflexivity].
Qed.

Lemma score_package_checked (uuid : string) (pkg : dict Item)
    (requirements : Requirements) (cw : CustomWeights) :
  score_package uuid pkg requirements (Some cw)
  = score_package uuid pkg requirements (Some (checked_weights cw)).
Proof.
  unfold score_package, importance_for. rewrite score_categories_checked. reflexivity.
Qed.

Lemma checked_weights_nonneg (cw : CustomWeights) :
  fst (validate_weights cw) = true ->
  custom_weights_nonneg (Some (checked_weights cw)).
Proof.
  intros V. destruct (validated_weights cw V) as [Hi Hc].
  intros cw' E. injection E as <-. split.
  - intros ci Ei k v I. destruct (Hi ci Ei k v I) as (q & -> & Q).
    exists q. split; [reflexivity | exact (proj1 Q)].
  - intros category w I k v Iw.
    assert (G : dict_get (component_weights (checked_weights cw)) category <> None
                -> In category valid_categories).
    { rewrite checked_component.
      destruct (existsb (String.eqb category) valid_categories) eqn:X; [| congruence].
      intros _. apply existsb_exists in X as (c & Ic & Ec).
      apply String.eqb_eq in Ec. now subst. }
    unfold checked_weights in I. cbn [component_weights] in I.
    apply in_flat_map in I as (c & Ic & I).
    destruct (dict_get (component_weights cw) c) as [w0 |] eqn:E0; [| destruct I].
    destruct I as [I | []]. injection I as <- <-.
    apply filter_In in Iw as [Iw S]. simpl in S.
    destruct (Hc c w0 Ic E0 k v Iw S) as (q & -> & Q).
    exists q. split; [reflexivity | exact (proj1 Q)].
Qed.

(** Weights that the validator accepts hold a number wherever the ranking
    reads one. *)
Lemma validated_numbers_where_read (cw : CustomWeights) :
  fst (validate_weights cw) = true -> numbers_where_read (Some cw) = true.
Proof.
  intros V.
  pose proof (nonneg_numbers_where_read _ (checked_weights_nonneg cw V)) as W.
  unfold numbers_where_read in *. apply andb_true_iff in W as [W1 W2].
  apply andb_true_iff. split; [| exact W2].
  rewrite forallb_forall in *. intros category Ic. specialize (W1 category Ic).
  unfold numbers_in in *. rewrite forallb_forall in *. intros key Ik.
  specialize (W1 key Ik).
  assert (K : ends_with "_weight" key = true).
  { unfold categories in Ic. simpl in Ic.
    destruct Ic as [<- | [<- | [<- | [<- | []]]]]; simpl in Ik;
      destruct Ik as [<- | [<- | [<- | [<- | []]]]]; reflexivity. }
  assert (X : existsb (String.eqb category) valid_categories = true).
  { apply existsb_exists. exists category. split; [exact Ic | apply String.eqb_refl]. }
  unfold weights_for in *. rewrite checked_component, X in W1.
  unfold dict_get_default in *.
  destruct (dict_get (component_weights cw) category) as [w |]; simpl in W1;
    [| exact W1].
  now rewrite (dict_update_filtered (ends_with "_weight") key w _ _ K eq_refl).
Qed.

(** Weights that [validate_weights] finds valid keep the ranking in
    range: with them [rank] returns, and every package has a final score
    and category scores between 0 and 100, when the items have a price of
    at least 0, a rating between 0 and 5 and a capacity of at least 0 and
    there is at least one attendee.  The validator does not look at keys
    that do not end in _weight nor at categories it does not know, and
    the scorer does not read them; an importance that adds up to between
    99 and 101 is enough, since the scorer divides by the sum. *)
Theorem validated_weights_keep_scores_in_range (uuids : nat -> string)
    (discovered : list Item) (requirements : Requirements) (cw : CustomWeights) :
  fst (validate_weights cw) = true ->
  (forall item, In item discovered -> item_in_range item) ->
  (forall n, attendees requirements = Some n -> (1 <= n)%Z) ->
  exists out,
    rank uuids discovered requirements (Some cw) = Some out /\
    forall p, In p out ->
      0 <= final_score p <= 100 /\
      (forall cat s, In (cat, s) (category_scores p) -> 0 <= s <= 100) /\
      0 <= total_cost p.
Proof.
  intros V Hd Ha.
  assert (N : attendees requirements <> Some 0%Z).
  { intros E. specialize (Ha _ E). lia. }
  destruct (rank_returns uuids discovered requirements (Some cw) N
              (validated_numbers_where_read cw V)) as (top & rest & R).
  exists (top :: rest). split; [exact R |]. intros p I.
  destruct (rank_members _ _ _ _ _ _ R I) as (u & pkg & Ip & Sp).
  destruct (rank_packages_shape _ _ _ Ip) as (a & b & c & d & -> & Ia & Ib & Ic & Id).
  rewrite score_package_checked in Sp.
  exact (score_package_range u a b c d requirements (Some (checked_weights cw))
           (unranked p)
           (candidates_in_range _ _ _ _ Hd Ia) (candidates_in_range _ _ _ _ Hd Ib)
           (candidates_in_range _ _ _ _ Hd Ic) (candidates_in_range _ _ _ _ Hd Id)
           Ha (checked_weights_nonneg cw V) Sp).
Qed.

(** Weights with an importance of 100.5 in all, a negative entry under a
    key the scorer does not read and one under an unknown category. *)
Lemma validated_weights_keep_scores_in_range_witness :
  exists out,
    rank sample_uuids sample_discovered one_person_one_day (Some loose_weights)
    = Some out /\
    forall p, In p out ->
      0 <= final_score p <= 100 /\
      (forall cat s, In (cat, s) (category_scores p) -> 0 <= s <= 100) /\
      0 <= total_cost p.
Proof.
  apply validated_weights_keep_scores_in_range.
  - reflexivity.
  - intros item [<- | [<- | [<- | []]]]; apply sample_item_in_range;
      try split; discriminate.
  - intros n E. injection E as <-. lia.
Defined.

End ValidatedWeights.
